(** * bumert: a fluent assertion library with an active and an inert build

    A shallow embedding of the two build variants of package [bumert]:
    the active one (build tags [debug || bumert]), whose predicates inspect
    the captured value through package [reflect] and panic on failure, and
    the inert one (build tags [!debug && !bumert]), whose methods return
    their receiver.

    Go values of static type [any] are modelled by the inductive type
    [GoValue]; the parts of packages [reflect], [fmt], [strings] and
    [runtime] that the library calls are modelled next to it.  A panic is
    an explicit result ([Panicked]) carrying its payload. *)

From Stdlib Require Import ZArith List String Ascii Bool Lia.
From Stdlib Require Import Floats.SpecFloat.
Import ListNotations.

Set Warnings "-register-all".

Local Open Scope string_scope.
Local Open Scope Z_scope.

(** ** reflect.Kind *)

Module Kind.

(** The constants of [reflect.Kind], in the order of their declaration. *)
Inductive t : Set :=
| Invalid | Bool
| Int | Int8 | Int16 | Int32 | Int64
| Uint | Uint8 | Uint16 | Uint32 | Uint64 | Uintptr
| Float32 | Float64 | Complex64 | Complex128
| Array | Chan | Func | Interface | Map | Ptr | Slice | String | Struct
| UnsafePointer.

(** The numeric value of the constant ([iota] numbering). *)
Definition num (k : t) : Z :=
  match k with
  | Invalid => 0 | Bool => 1
  | Int => 2 | Int8 => 3 | Int16 => 4 | Int32 => 5 | Int64 => 6
  | Uint => 7 | Uint8 => 8 | Uint16 => 9 | Uint32 => 10 | Uint64 => 11
  | Uintptr => 12
  | Float32 => 13 | Float64 => 14 | Complex64 => 15 | Complex128 => 16
  | Array => 17 | Chan => 18 | Func => 19 | Interface => 20 | Map => 21
  | Ptr => 22 | Slice => 23 | String => 24 | Struct => 25
  | UnsafePointer => 26
  end.

Definition eq_dec (a b : t) : {a = b} + {a <> b}.
Proof. decide equality. Defined.

Definition eqb (a b : t) : bool := if eq_dec a b then true else false.

Definition isInt (k : t) : bool :=
  match k with Int | Int8 | Int16 | Int32 | Int64 => true | _ => false end.

Definition isUint (k : t) : bool :=
  match k with
  | Uint | Uint8 | Uint16 | Uint32 | Uint64 | Uintptr => true
  | _ => false
  end.

Definition isFloat (k : t) : bool :=
  match k with Float32 | Float64 => true | _ => false end.

End Kind.

(** ** Types *)

Inductive IntKind : Set := I | I8 | I16 | I32 | I64.
Inductive UintKind : Set := U | U8 | U16 | U32 | U64 | Uptr.
Inductive FloatKind : Set := F32 | F64.
Inductive ComplexKind : Set := C64 | C128.

(** [Some n] for a defined type named [n] (as [reflect.Type.String] prints
    it, e.g. ["os.PathError"]); [None] for the type literal itself. *)
Definition TypeName := option string.

(** A run-time type descriptor.  Function, interface and struct types are
    identified by their printed signature. *)
Inductive GoType : Set :=
| TBool (d : TypeName)
| TInt (k : IntKind) (d : TypeName)
| TUint (k : UintKind) (d : TypeName)
| TFloat (k : FloatKind) (d : TypeName)
| TComplex (k : ComplexKind) (d : TypeName)
| TString (d : TypeName)
| TUnsafePointer (d : TypeName)
| TArray (len : nat) (elem : GoType) (d : TypeName)
| TChan (elem : GoType) (d : TypeName)
| TFunc (sig : string) (d : TypeName)
| TInterface (sig : string) (d : TypeName)
| TMap (key elem : GoType) (d : TypeName)
| TPtr (elem : GoType) (d : TypeName)
| TSlice (elem : GoType) (d : TypeName)
| TStruct (sig : string) (d : TypeName).

Definition TypeName_eq_dec (a b : TypeName) : {a = b} + {a <> b}.
Proof. decide equality. apply string_dec. Defined.

Definition GoType_eq_dec (a b : GoType) : {a = b} + {a <> b}.
Proof.
  decide equality;
    try apply TypeName_eq_dec; try apply string_dec; try apply Nat.eq_dec;
    decide equality.
Defined.

Definition intKind (k : IntKind) : Kind.t :=
  match k with
  | I => Kind.Int | I8 => Kind.Int8 | I16 => Kind.Int16
  | I32 => Kind.Int32 | I64 => Kind.Int64
  end.

Definition uintKind (k : UintKind) : Kind.t :=
  match k with
  | U => Kind.Uint | U8 => Kind.Uint8 | U16 => Kind.Uint16
  | U32 => Kind.Uint32 | U64 => Kind.Uint64 | Uptr => Kind.Uintptr
  end.

Definition floatKind (k : FloatKind) : Kind.t :=
  match k with F32 => Kind.Float32 | F64 => Kind.Float64 end.

Definition complexKind (k : ComplexKind) : Kind.t :=
  match k with C64 => Kind.Complex64 | C128 => Kind.Complex128 end.

(** [reflect.Type.Kind]. *)
Definition typeKind (t : GoType) : Kind.t :=
  match t with
  | TBool _ => Kind.Bool
  | TInt k _ => intKind k
  | TUint k _ => uintKind k
  | TFloat k _ => floatKind k
  | TComplex k _ => complexKind k
  | TString _ => Kind.String
  | TUnsafePointer _ => Kind.UnsafePointer
  | TArray _ _ _ => Kind.Array
  | TChan _ _ => Kind.Chan
  | TFunc _ _ => Kind.Func
  | TInterface _ _ => Kind.Interface
  | TMap _ _ _ => Kind.Map
  | TPtr _ _ => Kind.Ptr
  | TSlice _ _ => Kind.Slice
  | TStruct _ _ => Kind.Struct
  end.

(** [reflect.Type.Elem]: the element type of an array, channel, map,
    pointer or slice type; it panics on every other kind ([None]). *)
Definition typeElem (t : GoType) : option GoType :=
  match t with
  | TArray _ e _ | TChan e _ | TMap _ e _ | TPtr e _ | TSlice e _ => Some e
  | _ => None
  end.

(** ** Values *)

(** A Go value together with its dynamic type.  [VNil] is the nil value of
    static type [any]; [VInterface] is a slot of interface type inside a
    container (an element of a [[]any], a field of type [error]), whose
    dynamic value [dyn] is [VNil] when the interface is nil.  Pointers,
    channels, functions, maps and slices are [None] when nil and carry
    their address otherwise. *)
Inductive GoValue : Type :=
| VNil
| VBool (d : TypeName) (b : bool)
| VInt (k : IntKind) (d : TypeName) (n : Z)
| VUint (k : UintKind) (d : TypeName) (n : Z)
| VFloat (k : FloatKind) (d : TypeName) (f : spec_float)
| VComplex (k : ComplexKind) (d : TypeName) (re im : spec_float)
| VString (d : TypeName) (s : string)
| VUnsafePointer (d : TypeName) (addr : Z)
| VArray (elem : GoType) (d : TypeName) (elems : list GoValue)
| VChan (elem : GoType) (d : TypeName) (c : option (Z * nat))
| VFunc (sig : string) (d : TypeName) (code : option Z)
| VInterface (sig : string) (d : TypeName) (dyn : GoValue)
| VMap (key elem : GoType) (d : TypeName)
       (m : option (Z * list (GoValue * GoValue)))
| VPtr (elem : GoType) (d : TypeName) (p : option (Z * GoValue))
| VSlice (elem : GoType) (d : TypeName) (s : option (Z * list GoValue))
| VStruct (sig : string) (d : TypeName) (fields : list GoValue).

(** [reflect.TypeOf]; the nil interface has no type. *)
Definition typeOf (v : GoValue) : option GoType :=
  match v with
  | VNil => None
  | VBool d _ => Some (TBool d)
  | VInt k d _ => Some (TInt k d)
  | VUint k d _ => Some (TUint k d)
  | VFloat k d _ => Some (TFloat k d)
  | VComplex k d _ _ => Some (TComplex k d)
  | VString d _ => Some (TString d)
  | VUnsafePointer d _ => Some (TUnsafePointer d)
  | VArray e d es => Some (TArray (List.length es) e d)
  | VChan e d _ => Some (TChan e d)
  | VFunc sig d _ => Some (TFunc sig d)
  | VInterface sig d _ => Some (TInterface sig d)
  | VMap k e d _ => Some (TMap k e d)
  | VPtr e d _ => Some (TPtr e d)
  | VSlice e d _ => Some (TSlice e d)
  | VStruct sig d _ => Some (TStruct sig d)
  end.

(** [reflect.ValueOf(v).Kind()]; the zero [reflect.Value] has kind
    [Invalid]. *)
Definition kindOf (v : GoValue) : Kind.t :=
  match typeOf v with
  | None => Kind.Invalid
  | Some t => typeKind t
  end.

(** [v1.Type() == v2.Type()] for two values that both have a type. *)
Definition sameType (v1 v2 : GoValue) : bool :=
  match typeOf v1, typeOf v2 with
  | Some t1, Some t2 => if GoType_eq_dec t1 t2 then true else false
  | _, _ => false
  end.

(** ** Package reflect *)

(** [reflect.Value.IsNil].  It is defined for channels, functions,
    interfaces, maps, pointers, slices and unsafe pointers; on every other
    kind [reflect] panics, and every call in the library is guarded by a
    test of the kind, so the value given here for those kinds ([false]) is
    never observed. *)
Definition IsNil (v : GoValue) : bool :=
  match v with
  | VChan _ _ None | VFunc _ _ None | VMap _ _ _ None
  | VPtr _ _ None | VSlice _ _ None => true
  | VInterface _ _ VNil => true
  | VUnsafePointer _ addr => addr =? 0
  | _ => false
  end.

(** [reflect.Value.Len] on arrays, channels, maps, slices and strings (the
    number of bytes of a string); the library calls it on these kinds
    only. *)
Definition Len (v : GoValue) : Z :=
  match v with
  | VArray _ _ es => Z.of_nat (List.length es)
  | VChan _ _ (Some (_, n)) => Z.of_nat n
  | VMap _ _ _ (Some (_, es)) => Z.of_nat (List.length es)
  | VSlice _ _ (Some (_, es)) => Z.of_nat (List.length es)
  | VString _ s => Z.of_nat (String.length s)
  | _ => 0
  end.

(** The float64 constant [0]. *)
Definition float0 : spec_float := S754_zero false.

(** [reflect.Value.IsZero]: the value equals the zero value of its type.
    Floating-point and complex numbers are compared with [==], so that
    negative zero is zero (Go 1.22 and later).  It panics on the zero
    [reflect.Value]; [isZero] tests for nil first. *)
Fixpoint IsZero (v : GoValue) : bool :=
  match v with
  | VNil => false
  | VBool _ b => negb b
  | VInt _ _ n | VUint _ _ n => n =? 0
  | VFloat _ _ f => SFeqb f float0
  | VComplex _ _ re im => SFeqb re float0 && SFeqb im float0
  | VString _ s => Z.of_nat (String.length s) =? 0
  | VArray _ _ es | VStruct _ _ es =>
      (fix all (l : list GoValue) : bool :=
         match l with
         | [] => true
         | x :: r => if IsZero x then all r else false
         end) es
  | VChan _ _ _ | VFunc _ _ _ | VInterface _ _ _ | VMap _ _ _ _
  | VPtr _ _ _ | VSlice _ _ _ | VUnsafePointer _ _ => IsNil v
  end.

(** The comparison [==] of two interface values, as the run time applies
    it to the keys of a map: the dynamic types are identical and the
    values are equal.  Functions, maps and slices are not comparable and
    cannot be keys. *)
Fixpoint goEq (v1 v2 : GoValue) {struct v1} : bool :=
  match v1, v2 with
  | VNil, VNil => true
  | VBool d1 b1, VBool d2 b2 =>
      sameType v1 v2 && Bool.eqb b1 b2
  | VInt _ _ n1, VInt _ _ n2 | VUint _ _ n1, VUint _ _ n2 =>
      sameType v1 v2 && (n1 =? n2)
  | VFloat _ _ f1, VFloat _ _ f2 =>
      sameType v1 v2 && SFeqb f1 f2
  | VComplex _ _ r1 i1, VComplex _ _ r2 i2 =>
      sameType v1 v2 && SFeqb r1 r2 && SFeqb i1 i2
  | VString _ s1, VString _ s2 =>
      sameType v1 v2 && String.eqb s1 s2
  | VUnsafePointer _ a1, VUnsafePointer _ a2 =>
      sameType v1 v2 && (a1 =? a2)
  | VChan _ _ c1, VChan _ _ c2 =>
      sameType v1 v2 &&
      match c1, c2 with
      | None, None => true
      | Some (a1, _), Some (a2, _) => a1 =? a2
      | _, _ => false
      end
  | VPtr _ _ p1, VPtr _ _ p2 =>
      sameType v1 v2 &&
      match p1, p2 with
      | None, None => true
      | Some (a1, _), Some (a2, _) => a1 =? a2
      | _, _ => false
      end
  | VInterface _ _ x1, VInterface _ _ x2 =>
      sameType v1 v2 && goEq x1 x2
  | VArray _ _ es1, VArray _ _ es2 | VStruct _ _ es1, VStruct _ _ es2 =>
      sameType v1 v2 &&
      (fix all2 (l1 l2 : list GoValue) {struct l1} : bool :=
         match l1, l2 with
         | [], [] => true
         | x :: r1, y :: r2 => if goEq x y then all2 r1 r2 else false
         | _, _ => false
         end) es1 es2
  | _, _ => false
  end.

(** [reflect.Value.MapIndex]: the value stored under a key equal to [k],
    if there is one. *)
Fixpoint MapIndex (es : list (GoValue * GoValue)) (k : GoValue)
  : option GoValue :=
  match es with
  | [] => None
  | (k', x) :: r => if goEq k' k then Some x else MapIndex r k
  end.

(** [reflect.deepValueEqual].  The values of this model are finite trees,
    so the table of visited pointers, which cuts cycles, is not needed.
    The special case for [[]byte] compares the bytes one by one, as the
    general loop does. *)
Fixpoint deepValueEqual (v1 v2 : GoValue) {struct v1} : bool :=
  match v1 with
  | VNil =>
      (* !v1.IsValid(): equal only to another invalid value *)
      match v2 with VNil => true | _ => false end
  | VArray _ _ es1 =>
      match v2 with
      | VArray _ _ es2 =>
          sameType v1 v2 &&
          (fix all2 (l1 l2 : list GoValue) {struct l1} : bool :=
             match l1, l2 with
             | [], [] => true
             | x :: r1, y :: r2 =>
                 if deepValueEqual x y then all2 r1 r2 else false
             | _, _ => false
             end) es1 es2
      | _ => false
      end
  | VStruct _ _ es1 =>
      match v2 with
      | VStruct _ _ es2 =>
          sameType v1 v2 &&
          (fix all2 (l1 l2 : list GoValue) {struct l1} : bool :=
             match l1, l2 with
             | [], [] => true
             | x :: r1, y :: r2 =>
                 if deepValueEqual x y then all2 r1 r2 else false
             | _, _ => false
             end) es1 es2
      | _ => false
      end
  | VSlice _ _ s1 =>
      match v2 with
      | VSlice _ _ s2 =>
          sameType v1 v2 &&
          match s1, s2 with
          | None, None => true
          | Some (a1, es1), Some (a2, es2) =>
              if negb (Nat.eqb (List.length es1) (List.length es2)) then false
              else if a1 =? a2 then true
              else
                (fix all2 (l1 l2 : list GoValue) {struct l1} : bool :=
                   match l1, l2 with
                   | [], [] => true
                   | x :: r1, y :: r2 =>
                       if deepValueEqual x y then all2 r1 r2 else false
                   | _, _ => false
                   end) es1 es2
          | _, _ => false            (* v1.IsNil() != v2.IsNil() *)
          end
      | _ => false
      end
  | VInterface _ _ x1 =>
      match v2 with
      | VInterface _ _ x2 =>
          sameType v1 v2 &&
          match x1, x2 with
          | VNil, VNil => true
          | VNil, _ | _, VNil => false
          | _, _ => deepValueEqual x1 x2
          end
      | _ => false
      end
  | VPtr _ _ p1 =>
      match v2 with
      | VPtr _ _ p2 =>
          sameType v1 v2 &&
          match p1, p2 with
          | None, None => true
          | Some (a1, x1), Some (a2, x2) =>
              if a1 =? a2 then true else deepValueEqual x1 x2
          | _, _ => false            (* Elem of a nil pointer is invalid *)
          end
      | _ => false
      end
  | VMap _ _ _ m1 =>
      match v2 with
      | VMap _ _ _ m2 =>
          sameType v1 v2 &&
          match m1, m2 with
          | None, None => true
          | Some (a1, es1), Some (a2, es2) =>
              if negb (Nat.eqb (List.length es1) (List.length es2)) then false
              else if a1 =? a2 then true
              else
                (fix each (l : list (GoValue * GoValue)) : bool :=
                   match l with
                   | [] => true
                   | (k, val1) :: r =>
                       match MapIndex es2 k with
                       | None => false
                       | Some val2 =>
                           if deepValueEqual val1 val2 then each r else false
                       end
                   end) es1
          | _, _ => false            (* v1.IsNil() != v2.IsNil() *)
          end
      | _ => false
      end
  | VFunc _ _ c1 =>
      match v2 with
      | VFunc _ _ c2 =>
          sameType v1 v2 &&
          match c1, c2 with
          | None, None => true
          | _, _ => false            (* "Can't do better than this" *)
          end
      | _ => false
      end
  | VInt _ _ n1 =>
      match v2 with
      | VInt _ _ n2 => sameType v1 v2 && (n1 =? n2)
      | _ => false
      end
  | VUint _ _ n1 =>
      match v2 with
      | VUint _ _ n2 => sameType v1 v2 && (n1 =? n2)
      | _ => false
      end
  | VString _ s1 =>
      match v2 with
      | VString _ s2 => sameType v1 v2 && String.eqb s1 s2
      | _ => false
      end
  | VBool _ b1 =>
      match v2 with
      | VBool _ b2 => sameType v1 v2 && Bool.eqb b1 b2
      | _ => false
      end
  | VFloat _ _ f1 =>
      match v2 with
      | VFloat _ _ f2 => sameType v1 v2 && SFeqb f1 f2
      | _ => false
      end
  | VComplex _ _ r1 i1 =>
      match v2 with
      | VComplex _ _ r2 i2 => sameType v1 v2 && SFeqb r1 r2 && SFeqb i1 i2
      | _ => false
      end
  | VChan _ _ _ | VUnsafePointer _ _ =>
      (* "Normal equality suffices" *)
      goEq v1 v2
  end.

(** [reflect.DeepEqual]. *)
Definition DeepEqual (x y : GoValue) : bool :=
  match x, y with
  | VNil, VNil => true
  | VNil, _ | _, VNil => false
  | _, _ => if sameType x y then deepValueEqual x y else false
  end.

(** ** Panics *)

(** The value a panic carries.  The library panics with strings; package
    [reflect] panics with a [*reflect.ValueError] when a method is called
    on a [reflect.Value] of the wrong kind. *)
Inductive Payload : Type :=
| PString (s : string)
| PValueError (method : string) (kind : Kind.t).

(** The result of a call: it returns, or it panics and unwinds. *)
Inductive Result (A : Type) : Type :=
| Returned (a : A)
| Panicked (p : Payload).

Arguments Returned {A} a.
Arguments Panicked {A} p.

Definition bind {A B : Type} (r : Result A) (k : A -> Result B) : Result B :=
  match r with
  | Returned a => k a
  | Panicked p => Panicked p
  end.

Definition panics {A : Type} (r : Result A) : bool :=
  match r with Returned _ => false | Panicked _ => true end.

(** ** Package strings *)

Module strings.

(** [strings.HasPrefix]. *)
Definition HasPrefix (s pre : string) : bool := String.prefix pre s.

(** [strings.Contains]. *)
Fixpoint Contains (s substr : string) : bool :=
  if String.prefix substr s then true
  else match s with
       | EmptyString => false
       | String _ r => Contains r substr
       end.

(** [s[n:]]. *)
Fixpoint drop (n : nat) (s : string) : string :=
  match n, s with
  | O, _ => s
  | S n', String _ r => drop n' r
  | S _, EmptyString => EmptyString
  end.

(** [strings.HasSuffix]. *)
Definition HasSuffix (s suf : string) : bool :=
  Nat.leb (String.length suf) (String.length s) &&
  String.eqb (drop (String.length s - String.length suf) s) suf.

(** [strings.LastIndex]: the index of the last instance of [substr] in
    [s], or [-1]; [from] is the index of the first byte of [s]. *)
Fixpoint LastIndexFrom (from : Z) (s substr : string) : Z :=
  match s with
  | EmptyString => if String.prefix substr s then from else -1
  | String _ r =>
      let later := LastIndexFrom (from + 1) r substr in
      if 0 <=? later then later
      else if String.prefix substr s then from else -1
  end.

Definition LastIndex (s substr : string) : Z := LastIndexFrom 0 s substr.

End strings.

(** ** Package fmt *)

Module fmt.

Definition digit (d : Z) : ascii := ascii_of_nat (48 + Z.to_nat d).

(** The decimal digits of [n >= 0], most significant first, in front of
    [acc]. *)
Fixpoint digits (fuel : nat) (n : Z) (acc : string) : string :=
  match fuel with
  | O => acc
  | S fuel' =>
      let acc' := String (digit (n mod 10)) acc in
      if n <? 10 then acc' else digits fuel' (n / 10) acc'
  end.

(** The verb [%d] on an integer. *)
Definition itoa (n : Z) : string :=
  if n <? 0
  then String "-" (digits (S (Z.to_nat (Z.log2 (- n)))) (- n) "")
  else digits (S (Z.to_nat (Z.log2 n))) n "".

Definition named (d : TypeName) (literal : string) : string :=
  match d with Some n => n | None => literal end.

(** [reflect.Type.String]. *)
Fixpoint typeString (t : GoType) : string :=
  match t with
  | TBool d => named d "bool"
  | TInt k d =>
      named d match k with
              | I => "int" | I8 => "int8" | I16 => "int16"
              | I32 => "int32" | I64 => "int64"
              end
  | TUint k d =>
      named d match k with
              | U => "uint" | U8 => "uint8" | U16 => "uint16"
              | U32 => "uint32" | U64 => "uint64" | Uptr => "uintptr"
              end
  | TFloat k d =>
      named d match k with F32 => "float32" | F64 => "float64" end
  | TComplex k d =>
      named d match k with C64 => "complex64" | C128 => "complex128" end
  | TString d => named d "string"
  | TUnsafePointer d => named d "unsafe.Pointer"
  | TArray n e d =>
      named d ("[" ++ itoa (Z.of_nat n) ++ "]" ++ typeString e)
  | TChan e d => named d ("chan " ++ typeString e)
  | TFunc sig d => named d sig
  | TInterface sig d => named d sig
  | TMap k e d => named d ("map[" ++ typeString k ++ "]" ++ typeString e)
  | TPtr e d => named d ("*" ++ typeString e)
  | TSlice e d => named d ("[]" ++ typeString e)
  | TStruct sig d => named d sig
  end.

(** The verb [%T]. *)
Definition typeName (v : GoValue) : string :=
  match typeOf v with
  | None => "<nil>"
  | Some t => typeString t
  end.

Section Sprintf.

(** How package [fmt] prints a value under a verb other than those
    spelled out below: [render sharp c v] is the text of [v] under
    the verb [c], with the flag [#] when [sharp] holds ([%v], [%#v],
    and [%s], [%d] on operands that are not strings or integers). *)
Variable render : bool -> ascii -> GoValue -> string.

Definition verb (sharp : bool) (c : ascii) (v : GoValue) : string :=
  match c, v with
  | "T"%char, _ => typeName v
  | "d"%char, VInt _ _ n | "d"%char, VUint _ _ n =>
      if sharp then render sharp c v else itoa n
  | "s"%char, VString _ s => if sharp then render sharp c v else s
  | _, _ => render sharp c v
  end.

(** The operands left over when the format is exhausted. *)
Fixpoint extra (args : list GoValue) : string :=
  match args with
  | [] => ""
  | [v] => typeName v ++ "=" ++ render false "v" v
  | v :: r => typeName v ++ "=" ++ render false "v" v ++ ", " ++ extra r
  end.

(** [fmt.Sprintf] for formats made of literal text, [%%] and verbs
    with at most the flag [#]. *)
Fixpoint Sprintf (format : string) (args : list GoValue) : string :=
  match format with
  | EmptyString =>
      match args with
      | [] => ""
      | _ => "%!(EXTRA " ++ extra args ++ ")"
      end
  | String "%" EmptyString => "%!(NOVERB)"
  | String "%" (String "%" r) => String "%" (Sprintf r args)
  | String "%" (String "#" EmptyString) => "%!(NOVERB)"
  | String "%" (String "#" (String c r)) =>
      match args with
      | [] => "%!" ++ String c "(MISSING)" ++ Sprintf r []
      | v :: args' => verb true c v ++ Sprintf r args'
      end
  | String "%" (String c r) =>
      match args with
      | [] => "%!" ++ String c "(MISSING)" ++ Sprintf r []
      | v :: args' => verb false c v ++ Sprintf r args'
      end
  | String c r => String c (Sprintf r args)
  end.

End Sprintf.

End fmt.

(** ** Package runtime *)

Module runtime.

(** A position in the source: the file and line at which an active
    function is executing. *)
Record Frame : Type := { file : string; line : Z }.

(** The call stack, innermost function first. *)
Definition Stack := list Frame.

(** [runtime.Caller(skip)], called with stack [st] (whose head is the
    function calling [Caller]): the position of the frame [skip] levels
    up, or [None] when there is no such frame ([ok == false]). *)
Definition Caller (st : Stack) (skip : Z) : option (string * Z) :=
  if skip <? 0 then None
  else match nth_error st (Z.to_nat skip) with
       | Some f => Some (file f, line f)
       | None => None
       end.

End runtime.

(** ** The environment of a program *)

(** What the program and the Go library contribute beyond the values
    themselves: the printing of values by package [fmt], the method sets
    of the program's types ([implementsError t]: the methods of [t]
    include [Error() string]), their [Error] methods, and the search of
    [errors.As] along the chain of wrapped errors ([asChain err target]:
    some error of the chain of [err] matches the element type of
    [target]; the assignment to [*target] it makes is not observed by the
    library). *)
Record Env : Type := {
  render : bool -> ascii -> GoValue -> string;
  implementsError : GoType -> bool;
  Error : GoValue -> string;
  asChain : GoValue -> GoValue -> bool
}.

(** ** Package errors *)

Module errors.

(** [errors.As]: it panics unless [target] is a non-nil pointer to a
    type that is an interface or implements [error]; otherwise it
    reports whether an error of the chain of [err] matches. *)
Definition As (env : Env) (err target : GoValue) : Result bool :=
  match err with
  | VNil => Returned false
  | _ =>
      match typeOf target with
      | None => Panicked (PString "errors: target cannot be nil")
      | Some typ =>
          if negb (Kind.eqb (typeKind typ) Kind.Ptr) || IsNil target
          then Panicked (PString "errors: target must be a non-nil pointer")
          else
            match typeElem typ with
            | None =>
                Panicked (PString "errors: target must be a non-nil pointer")
            | Some targetType =>
                if negb (Kind.eqb (typeKind targetType) Kind.Interface)
                   && negb (implementsError env targetType)
                then Panicked (PString
                       "errors: *target must be interface or implement error")
                else Returned (asChain env err target)
            end
      end
  end.

End errors.

(** ** The active variant (build tags [debug || bumert]) *)

Module Debug.

Import runtime.

Local Notation "x <- r ;; k" := (bind r (fun x => k))
  (at level 61, r at next level, right associativity).
Local Notation "r ;;; k" := (bind r (fun _ => k))
  (at level 61, right associativity).

(** The source file of the active variant, as [runtime.Caller] names
    it for the frames of the library itself. *)
Definition thisFile : string := "bumert_debug.go".

Definition at_line (l : Z) : Frame := {| file := thisFile; line := l |}.

(** A Go [string] and a Go [int] as operands of [Sprintf]. *)
Definition str (s : string) : GoValue := VString None s.
Definition int (n : Z) : GoValue := VInt I None n.

(** [type Assertion struct { value any }].  A receiver [*Assertion] is
    modelled by the struct it points to: the methods only read it. *)
Record Assertion : Type := { value : GoValue }.

(** [if c { body }]. *)
Definition when (c : bool) (body : Result unit) : Result unit :=
  if c then body else Returned tt.

Section WithEnv.

Variable env : Env.

Definition Sprintf : string -> list GoValue -> string :=
  fmt.Sprintf (render env).

(** [st] is the stack of the function calling [getCallerInfo],
    positioned at that call; line 16 calls [runtime.Caller]. *)
Definition getCallerInfo (st : Stack) (skipFrames : Z) : string :=
  match Caller (at_line 16 :: st) (skipFrames + 1) with
  | None => "???:?"
  | Some (file, line) =>
      let lastSlash := strings.LastIndex file "/" in
      let file :=
        if 0 <=? lastSlash
        then strings.drop (Z.to_nat (lastSlash + 1)) file
        else file in
      Sprintf "%s:%d" [str file; int line]
  end.

(** [st] is the stack of the function calling [failAssertion],
    positioned at that call. *)
Definition failAssertion {A : Type} (st : Stack) (format : string)
           (args : list GoValue) : Result A :=
  let callerInfo := getCallerInfo (at_line 30 :: st) 2 in
  Panicked (PString (Sprintf "%s: assertion failed: %s"
                       [str callerInfo; str (Sprintf format args)])).

Definition Should (value : GoValue) : Assertion := {| value := value |}.

Definition isNil (value : GoValue) : bool :=
  match value with
  | VNil => true
  | _ =>
      let v := value in
      match kindOf v with
      | Kind.Chan | Kind.Func | Kind.Interface | Kind.Map | Kind.Ptr
      | Kind.Slice => IsNil v
      | _ => false
      end
  end.

(** In every method below [st] is the stack of the caller, positioned
    at the call of the method. *)

Definition BeNil (st : Stack) (a : Assertion) : Result Assertion :=
  when (negb (isNil (value a)))
       (failAssertion (at_line 71 :: st)
          "should be nil: value (%#v) of type %T is not nil"
          [value a; value a]) ;;;
  Returned a.

Definition NotBeNil (st : Stack) (a : Assertion) : Result Assertion :=
  when (isNil (value a))
       (failAssertion (at_line 80 :: st)
          "should not be nil: value is nil" []) ;;;
  Returned a.

(** The function value [f] is modelled by the function it denotes, which
    returns a boolean; a nil function value is outside the model. *)
Definition TrueFn (st : Stack) (a : Assertion) (f : unit -> bool)
  : Result Assertion :=
  when (negb (f tt))
       (failAssertion (at_line 90 :: st) "function returned false" []) ;;;
  Returned a.

(** The type assertion [v.(bool)]. *)
Definition assertBool (v : GoValue) : bool * bool :=
  match v with
  | VBool None b => (b, true)
  | _ => (false, false)
  end.

(** The type assertion [v.(string)]. *)
Definition assertString (v : GoValue) : string * bool :=
  match v with
  | VString None s => (s, true)
  | _ => ("", false)
  end.

(** The type assertion [v.(error)]. *)
Definition assertError (v : GoValue) : GoValue * bool :=
  match typeOf v with
  | Some t => if implementsError env t then (v, true) else (VNil, false)
  | None => (VNil, false)
  end.

Definition BeTrue (st : Stack) (a : Assertion) : Result Assertion :=
  let (b, ok) := assertBool (value a) in
  when (negb ok || negb b)
       (failAssertion (at_line 101 :: st)
          "should be true, but got: %#v (type %T)" [value a; value a]) ;;;
  Returned a.

Definition BeFalse (st : Stack) (a : Assertion) : Result Assertion :=
  let (b, ok) := assertBool (value a) in
  when (negb ok || b)
       (failAssertion (at_line 110 :: st)
          "should be false, but got: %#v (type %T)" [value a; value a]) ;;;
  Returned a.

Definition nl : string := String (ascii_of_nat 10) EmptyString.

Definition BeEqual (st : Stack) (a : Assertion) (expected : GoValue)
  : Result Assertion :=
  when (negb (DeepEqual (value a) expected))
       (failAssertion (at_line 120 :: st)
          ("should be equal:" ++ nl ++
           "  expected: %#v (type %T)" ++ nl ++
           "       got: %#v (type %T)")
          [expected; expected; value a; value a]) ;;;
  Returned a.

Definition NotBeEqual (st : Stack) (a : Assertion) (unexpected : GoValue)
  : Result Assertion :=
  when (DeepEqual (value a) unexpected)
       (failAssertion (at_line 133 :: st)
          "should not be equal, but got: %#v (type %T)"
          [value a; value a]) ;;;
  Returned a.

Definition getLength (value : GoValue) : Z * bool :=
  match value with
  | VNil => (-1, false)
  | _ =>
      let v := value in
      match kindOf v with
      | Kind.Array | Kind.Chan | Kind.Map | Kind.Slice | Kind.String =>
          (Len v, true)
      | _ => (-1, false)
      end
  end.

Definition BeEmpty (st : Stack) (a : Assertion) : Result Assertion :=
  if isNil (value a) then Returned a
  else
    let (length, ok) := getLength (value a) in
    (if ok then
       if length =? 0 then Returned a
       else
         failAssertion (at_line 163 :: st)
           "should be empty, but got length %d: %#v"
           [int length; value a]
     else
       failAssertion (at_line 166 :: st)
         "should be empty, but got non-nil, non-length-testable value: %#v (type %T)"
         [value a; value a]) ;;;
    Returned a.

Definition NotBeEmpty (st : Stack) (a : Assertion) : Result Assertion :=
  when (isNil (value a))
       (failAssertion (at_line 175 :: st)
          "should not be empty, but got nil" []) ;;;
  (let (length, ok) := getLength (value a) in
   when (ok && (length =? 0))
        (failAssertion (at_line 178 :: st)
           "should not be empty, but got zero length: %#v" [value a])) ;;;
  Returned a.

Definition HaveLen (st : Stack) (a : Assertion) (expectedLen : Z)
  : Result Assertion :=
  (let (length, ok) := getLength (value a) in
   if ok then
     when (negb (length =? expectedLen))
          (failAssertion (at_line 189 :: st)
             "should have length %d, but got %d: %#v"
             [int expectedLen; int length; value a])
   else
     failAssertion (at_line 192 :: st)
       "should have length, but got non-length-testable value: %#v (type %T)"
       [value a; value a]) ;;;
  Returned a.

(** [reflect.Value.String] on a value of kind [String]. *)
Definition stringOf (v : GoValue) : string :=
  match v with VString _ s => s | _ => "" end.

(** [val.Index(i).Interface()]: an element as a value of type [any];
    an element of interface type gives its dynamic value. *)
Definition Interface (elem : GoValue) : GoValue :=
  match elem with
  | VInterface _ _ dyn => dyn
  | _ => elem
  end.

(** The elements [val.Index(0)], ..., [val.Index(val.Len()-1)] of an
    array or slice. *)
Definition elements (v : GoValue) : list GoValue :=
  match v with
  | VArray _ _ es => es
  | VSlice _ _ (Some (_, es)) => es
  | _ => []
  end.

(** The loop of [Contain] and [NotContain]: whether some element is
    deeply equal to [x]; the loop breaks at the first one. *)
Fixpoint scan (es : list GoValue) (x : GoValue) : bool :=
  match es with
  | [] => false
  | e :: r => if DeepEqual (Interface e) x then true else scan r x
  end.

Definition Contain (st : Stack) (a : Assertion) (expectedElement : GoValue)
  : Result Assertion :=
  let val := value a in
  match kindOf val with
  | Kind.String =>
      let (sub, ok) := assertString expectedElement in
      when (negb ok)
           (failAssertion (at_line 207 :: st)
              "Contain expected a string element for string value, got %T"
              [expectedElement]) ;;;
      when (negb (strings.Contains (stringOf val) sub))
           (failAssertion (at_line 210 :: st)
              "string %#v should contain substring %#v"
              [value a; str sub])
  | Kind.Slice | Kind.Array =>
      let found := scan (elements val) expectedElement in
      when (negb found)
           (failAssertion (at_line 221 :: st)
              "collection %#v should contain element %#v"
              [value a; expectedElement])
  | _ =>
      failAssertion (at_line 225 :: st)
        "Contain requires slice, array, or string, got %T" [value a]
  end ;;;
  Returned a.

Definition NotContain (st : Stack) (a : Assertion)
           (unexpectedElement : GoValue) : Result Assertion :=
  let val := value a in
  match kindOf val with
  | Kind.String =>
      let (sub, ok) := assertString unexpectedElement in
      when (negb ok)
           (failAssertion (at_line 240 :: st)
              "NotContain expected a string element for string value, got %T"
              [unexpectedElement]) ;;;
      when (strings.Contains (stringOf val) sub)
           (failAssertion (at_line 243 :: st)
              "string %#v should not contain substring %#v"
              [value a; str sub])
  | Kind.Slice | Kind.Array =>
      let found := scan (elements val) unexpectedElement in
      when found
           (failAssertion (at_line 254 :: st)
              "collection %#v should not contain element %#v"
              [value a; unexpectedElement])
  | _ =>
      failAssertion (at_line 258 :: st)
        "NotContain requires slice, array, or string, got %T" [value a]
  end ;;;
  Returned a.

Definition ContainSubstring (st : Stack) (a : Assertion)
           (substring : string) : Result Assertion :=
  let (s, ok) := assertString (value a) in
  when (negb ok)
       (failAssertion (at_line 268 :: st)
          "ContainSubstring requires a string value, got %T" [value a]) ;;;
  when (negb (strings.Contains s substring))
       (failAssertion (at_line 271 :: st)
          "string %#v should contain substring %#v"
          [str s; str substring]) ;;;
  Returned a.

Definition HavePrefix (st : Stack) (a : Assertion) (prefix : string)
  : Result Assertion :=
  let (s, ok) := assertString (value a) in
  when (negb ok)
       (failAssertion (at_line 281 :: st)
          "HavePrefix requires a string value, got %T" [value a]) ;;;
  when (negb (strings.HasPrefix s prefix))
       (failAssertion (at_line 284 :: st)
          "string %#v should have prefix %#v" [str s; str prefix]) ;;;
  Returned a.

Definition HaveSuffix (st : Stack) (a : Assertion) (suffix : string)
  : Result Assertion :=
  let (s, ok) := assertString (value a) in
  when (negb ok)
       (failAssertion (at_line 294 :: st)
          "HaveSuffix requires a string value, got %T" [value a]) ;;;
  when (negb (strings.HasSuffix s suffix))
       (failAssertion (at_line 297 :: st)
          "string %#v should have suffix %#v" [str s; str suffix]) ;;;
  Returned a.

Definition isZero (value : GoValue) : bool :=
  match value with
  | VNil => true
  | _ => IsZero value
  end.

Definition BeZero (st : Stack) (a : Assertion) : Result Assertion :=
  when (negb (isZero (value a)))
       (failAssertion (at_line 316 :: st)
          "should be the zero value, but got: %#v (type %T)"
          [value a; value a]) ;;;
  Returned a.

Definition NotBeZero (st : Stack) (a : Assertion) : Result Assertion :=
  when (isZero (value a))
       (failAssertion (at_line 325 :: st)
          "should not be the zero value, but got: %#v (type %T)"
          [value a; value a]) ;;;
  Returned a.

(** [reflect.Value.Type]; it panics on the zero [reflect.Value]. *)
Definition TypeOfValue (v : GoValue) : Result GoType :=
  match typeOf v with
  | Some t => Returned t
  | None => Panicked (PValueError "reflect.Value.Type" Kind.Invalid)
  end.

(** [reflect.Value.Int], [Uint] and [Float], called on values of the
    matching kinds only.  [Float] widens a float32 to the float64 of
    the same value. *)
Definition IntOf (v : GoValue) : Z :=
  match v with VInt _ _ n => n | _ => 0 end.
Definition UintOf (v : GoValue) : Z :=
  match v with VUint _ _ n => n | _ => 0 end.
Definition FloatOf (v : GoValue) : spec_float :=
  match v with VFloat _ _ f => f | _ => float0 end.

(** The conversion [float64(n)] of an integer: rounding to the
    nearest float64, ties to even. *)
Definition float64_of_Z (n : Z) : spec_float :=
  binary_normalize 53 1024 n 0 false.

(** The comparisons of two float64 values. *)
Definition fgt (x y : spec_float) : bool := SFltb y x.
Definition flt (x y : spec_float) : bool := SFltb x y.
Definition fge (x y : spec_float) : bool := SFleb y x.
Definition fle (x y : spec_float) : bool := SFleb x y.

(** [switch op { case ">": ... case "<": ... case ">=": ...
    case "<=": ... }]: the pair returned by the matching case, or
    [None] when no case matches and control leaves the switch. *)
Definition switchOp (op : string) (gt lt ge le : bool)
  : option (bool * bool) :=
  if String.eqb op ">" then Some (gt, true)
  else if String.eqb op "<" then Some (lt, true)
  else if String.eqb op ">=" then Some (ge, true)
  else if String.eqb op "<=" then Some (le, true)
  else None.

Definition convertToFloat64 (v : GoValue) : spec_float * bool :=
  match kindOf v with
  | Kind.Int | Kind.Int8 | Kind.Int16 | Kind.Int32 | Kind.Int64 =>
      (float64_of_Z (IntOf v), true)
  | Kind.Uint | Kind.Uint8 | Kind.Uint16 | Kind.Uint32 | Kind.Uint64
  | Kind.Uintptr =>
      (float64_of_Z (UintOf v), true)
  | Kind.Float32 | Kind.Float64 => (FloatOf v, true)
  | _ => (float0, false)
  end.

Definition isNumeric (k : Kind.t) : bool :=
  ((Kind.num Kind.Int <=? Kind.num k) && (Kind.num k <=? Kind.num Kind.Int64))
  || ((Kind.num Kind.Uint <=? Kind.num k)
      && (Kind.num k <=? Kind.num Kind.Uintptr))
  || ((Kind.num Kind.Float32 <=? Kind.num k)
      && (Kind.num k <=? Kind.num Kind.Float64)).

Definition compare (v1 v2 : GoValue) (op : string)
  : Result (bool * bool) :=
  let k1 := kindOf v1 in
  let k2 := kindOf v2 in
  t1 <- TypeOfValue v1 ;;
  t2 <- TypeOfValue v2 ;;
  let identical : option (bool * bool) :=
    if GoType_eq_dec t1 t2 then
      match k1 with
      | Kind.Int | Kind.Int8 | Kind.Int16 | Kind.Int32 | Kind.Int64 =>
          let n1 := IntOf v1 in
          let n2 := IntOf v2 in
          switchOp op (n1 >? n2) (n1 <? n2) (n1 >=? n2) (n1 <=? n2)
      | Kind.Uint | Kind.Uint8 | Kind.Uint16 | Kind.Uint32 | Kind.Uint64
      | Kind.Uintptr =>
          let n1 := UintOf v1 in
          let n2 := UintOf v2 in
          switchOp op (n1 >? n2) (n1 <? n2) (n1 >=? n2) (n1 <=? n2)
      | Kind.Float32 | Kind.Float64 =>
          let n1 := FloatOf v1 in
          let n2 := FloatOf v2 in
          switchOp op (fgt n1 n2) (flt n1 n2) (fge n1 n2) (fle n1 n2)
      | _ => None
      end
    else None in
  match identical with
  | Some r => Returned r
  | None =>
      let converted : option (bool * bool) :=
        if isNumeric k1 && isNumeric k2 then
          let (f1, ok1) := convertToFloat64 v1 in
          let (f2, ok2) := convertToFloat64 v2 in
          if ok1 && ok2 then
            switchOp op (fgt f1 f2) (flt f1 f2) (fge f1 f2) (fle f1 f2)
          else None
        else None in
      match converted with
      | Some r => Returned r
      | None => Returned (false, false)
      end
  end.

Definition BeGreaterThan (st : Stack) (a : Assertion) (expected : GoValue)
  : Result Assertion :=
  r <- compare (value a) expected ">" ;;
  let (result, ok) := r in
  when (negb ok)
       (failAssertion (at_line 430 :: st)
          "BeGreaterThan requires comparable numeric types, got %T and %T"
          [value a; expected]) ;;;
  when (negb result)
       (failAssertion (at_line 433 :: st)
          "should be greater than %#v, but got %#v"
          [expected; value a]) ;;;
  Returned a.

Definition BeLessThan (st : Stack) (a : Assertion) (expected : GoValue)
  : Result Assertion :=
  r <- compare (value a) expected "<" ;;
  let (result, ok) := r in
  when (negb ok)
       (failAssertion (at_line 444 :: st)
          "BeLessThan requires comparable numeric types, got %T and %T"
          [value a; expected]) ;;;
  when (negb result)
       (failAssertion (at_line 447 :: st)
          "should be less than %#v, but got %#v" [expected; value a]) ;;;
  Returned a.

Definition BeGreaterThanOrEqualTo (st : Stack) (a : Assertion)
           (expected : GoValue) : Result Assertion :=
  r <- compare (value a) expected ">=" ;;
  let (result, ok) := r in
  when (negb ok)
       (failAssertion (at_line 458 :: st)
          "BeGreaterThanOrEqualTo requires comparable numeric types, got %T and %T"
          [value a; expected]) ;;;
  when (negb result)
       (failAssertion (at_line 461 :: st)
          "should be greater than or equal to %#v, but got %#v"
          [expected; value a]) ;;;
  Returned a.

Definition BeLessThanOrEqualTo (st : Stack) (a : Assertion)
           (expected : GoValue) : Result Assertion :=
  r <- compare (value a) expected "<=" ;;
  let (result, ok) := r in
  when (negb ok)
       (failAssertion (at_line 472 :: st)
          "BeLessThanOrEqualTo requires comparable numeric types, got %T and %T"
          [value a; expected]) ;;;
  when (negb result)
       (failAssertion (at_line 475 :: st)
          "should be less than or equal to %#v, but got %#v"
          [expected; value a]) ;;;
  Returned a.

Definition BeError (st : Stack) (a : Assertion) : Result Assertion :=
  when (isNil (value a))
       (failAssertion (at_line 484 :: st)
          "should be an error, but got nil" []) ;;;
  (let (_, ok) := assertError (value a) in
   when (negb ok)
        (failAssertion (at_line 487 :: st)
           "should be an error, but got type %T with value %#v"
           [value a; value a])) ;;;
  Returned a.

Definition NotBeError (st : Stack) (a : Assertion) : Result Assertion :=
  when (negb (isNil (value a)))
       (let (err, ok) := assertError (value a) in
        when ok
             (failAssertion (at_line 499 :: st)
                "should not be an error, but got: %v" [err])) ;;;
  Returned a.

(** [reflect.Type.Elem], with its panic. *)
Definition Elem (t : GoType) : Result GoType :=
  match typeElem t with
  | Some e => Returned e
  | None =>
      Panicked (PString ("reflect: Elem of invalid type " ++
                         fmt.typeString t))
  end.

Definition BeErrorOfType (st : Stack) (a : Assertion) (target : GoValue)
  : Result Assertion :=
  let (err, ok) := assertError (value a) in
  when (negb ok || isNil err)
       (failAssertion (at_line 513 :: st)
          "should be a non-nil error, but got: %#v (type %T)"
          [value a; value a]) ;;;
  let targetVal := target in
  when (negb (Kind.eqb (kindOf targetVal) Kind.Ptr) || IsNil targetVal)
       (Panicked
          (PString
             (Sprintf
                "internal bumert error: BeErrorOfType target must be a non-nil pointer, got %T"
                [target]))) ;;;
  matched <- errors.As env err target ;;
  when (negb matched)
       (targetType <- TypeOfValue targetVal ;;
        elem <- Elem targetType ;;
        targetTypeName <-
          (if Kind.eqb (typeKind elem) Kind.Interface
           then Returned (fmt.typeString elem)
           else
             elem2 <- Elem elem ;;
             if negb (Kind.eqb (typeKind elem2) Kind.Invalid)
             then Returned (fmt.typeString elem2)
             else Returned "unknown (check target type)") ;;
        failAssertion (at_line 534 :: st)
          "error type should be %s (or wrap it), but got type %T: %v"
          [str targetTypeName; err; err]) ;;;
  Returned a.

Definition BeErrorWithMessage (st : Stack) (a : Assertion)
           (substring : string) : Result Assertion :=
  let (err, ok) := assertError (value a) in
  when (negb ok || isNil err)
       (failAssertion (at_line 544 :: st)
          "should be a non-nil error, but got: %#v (type %T)"
          [value a; value a]) ;;;
  let message := Error env err in
  when (negb (strings.Contains message substring))
       (failAssertion (at_line 548 :: st)
          "error message %#v should contain substring %#v"
          [str message; str substring]) ;;;
  Returned a.

Definition Assert (st : Stack) (condition : bool) : Result unit :=
  when (negb condition)
       (failAssertion (at_line 561 :: st) "condition was false" []).

Definition Assertf (st : Stack) (condition : bool) (format : string)
           (args : list GoValue) : Result unit :=
  when (negb condition) (failAssertion (at_line 569 :: st) format args).

End WithEnv.

End Debug.

(** ** The inert variant (build tags [!debug && !bumert]) *)

Module Release.

(** [type Assertion struct{}]. *)
Inductive Assertion : Set := mkAssertion.

(** A value of type [*Assertion]: nil, the address of the package
    variable [noOpAssertion], or the address of another [Assertion]. *)
Inductive Pointer : Set :=
| Nil
| AddrNoOpAssertion
| AddrOther (addr : Z).

(** [var noOpAssertion Assertion]. *)
Definition noOpAssertion : Assertion := mkAssertion.

Definition Should (value : GoValue) : Pointer := AddrNoOpAssertion.

Definition BeNil (a : Pointer) : Result Pointer := Returned a.
Definition NotBeNil (a : Pointer) : Result Pointer := Returned a.
Definition TrueFn (a : Pointer) (f : unit -> bool) : Result Pointer :=
  Returned a.
Definition BeTrue (a : Pointer) : Result Pointer := Returned a.
Definition BeFalse (a : Pointer) : Result Pointer := Returned a.
Definition BeEqual (a : Pointer) (expected : GoValue) : Result Pointer :=
  Returned a.
Definition NotBeEqual (a : Pointer) (unexpected : GoValue)
  : Result Pointer := Returned a.
Definition BeEmpty (a : Pointer) : Result Pointer := Returned a.
Definition NotBeEmpty (a : Pointer) : Result Pointer := Returned a.
Definition HaveLen (a : Pointer) (expectedLen : Z) : Result Pointer :=
  Returned a.
Definition Contain (a : Pointer) (expectedElement : GoValue)
  : Result Pointer := Returned a.
Definition NotContain (a : Pointer) (unexpectedElement : GoValue)
  : Result Pointer := Returned a.
Definition ContainSubstring (a : Pointer) (substring : string)
  : Result Pointer := Returned a.
Definition HavePrefix (a : Pointer) (prefix : string) : Result Pointer :=
  Returned a.
Definition HaveSuffix (a : Pointer) (suffix : string) : Result Pointer :=
  Returned a.
Definition BeZero (a : Pointer) : Result Pointer := Returned a.
Definition NotBeZero (a : Pointer) : Result Pointer := Returned a.
Definition BeGreaterThan (a : Pointer) (expected : GoValue)
  : Result Pointer := Returned a.
Definition BeLessThan (a : Pointer) (expected : GoValue)
  : Result Pointer := Returned a.
Definition BeGreaterThanOrEqualTo (a : Pointer) (expected : GoValue)
  : Result Pointer := Returned a.
Definition BeLessThanOrEqualTo (a : Pointer) (expected : GoValue)
  : Result Pointer := Returned a.
Definition BeError (a : Pointer) : Result Pointer := Returned a.
Definition NotBeError (a : Pointer) : Result Pointer := Returned a.
Definition BeErrorOfType (a : Pointer) (target : GoValue)
  : Result Pointer := Returned a.
Definition BeErrorWithMessage (a : Pointer) (substring : string)
  : Result Pointer := Returned a.

Definition Assert (condition : bool) : Result unit := Returned tt.
Definition Assertf (condition : bool) (format : string)
           (args : list GoValue) : Result unit := Returned tt.

End Release.

(** ** Calls of predicate methods *)

(** A call of one of the predicate methods of [*Assertion], with its
    arguments: the method surface shared by the two variants. *)
Inductive Call : Type :=
| CBeNil
| CNotBeNil
| CTrueFn (f : unit -> bool)
| CBeTrue
| CBeFalse
| CBeEqual (expected : GoValue)
| CNotBeEqual (unexpected : GoValue)
| CBeEmpty
| CNotBeEmpty
| CHaveLen (expectedLen : Z)
| CContain (expectedElement : GoValue)
| CNotContain (unexpectedElement : GoValue)
| CContainSubstring (substring : string)
| CHavePrefix (prefix : string)
| CHaveSuffix (suffix : string)
| CBeZero
| CNotBeZero
| CBeGreaterThan (expected : GoValue)
| CBeLessThan (expected : GoValue)
| CBeGreaterThanOrEqualTo (expected : GoValue)
| CBeLessThanOrEqualTo (expected : GoValue)
| CBeError
| CNotBeError
| CBeErrorOfType (target : GoValue)
| CBeErrorWithMessage (substring : string).

(** The call [a.M(args)] in the active variant, made from a caller with
    stack [st]. *)
Definition debugCall (env : Env) (st : runtime.Stack) (c : Call)
           (a : Debug.Assertion) : Result Debug.Assertion :=
  match c with
  | CBeNil => Debug.BeNil env st a
  | CNotBeNil => Debug.NotBeNil env st a
  | CTrueFn f => Debug.TrueFn env st a f
  | CBeTrue => Debug.BeTrue env st a
  | CBeFalse => Debug.BeFalse env st a
  | CBeEqual x => Debug.BeEqual env st a x
  | CNotBeEqual x => Debug.NotBeEqual env st a x
  | CBeEmpty => Debug.BeEmpty env st a
  | CNotBeEmpty => Debug.NotBeEmpty env st a
  | CHaveLen n => Debug.HaveLen env st a n
  | CContain x => Debug.Contain env st a x
  | CNotContain x => Debug.NotContain env st a x
  | CContainSubstring s => Debug.ContainSubstring env st a s
  | CHavePrefix s => Debug.HavePrefix env st a s
  | CHaveSuffix s => Debug.HaveSuffix env st a s
  | CBeZero => Debug.BeZero env st a
  | CNotBeZero => Debug.NotBeZero env st a
  | CBeGreaterThan x => Debug.BeGreaterThan env st a x
  | CBeLessThan x => Debug.BeLessThan env st a x
  | CBeGreaterThanOrEqualTo x => Debug.BeGreaterThanOrEqualTo env st a x
  | CBeLessThanOrEqualTo x => Debug.BeLessThanOrEqualTo env st a x
  | CBeError => Debug.BeError env st a
  | CNotBeError => Debug.NotBeError env st a
  | CBeErrorOfType t => Debug.BeErrorOfType env st a t
  | CBeErrorWithMessage s => Debug.BeErrorWithMessage env st a s
  end.

(** The call [a.M(args)] in the inert variant. *)
Definition releaseCall (c : Call) (a : Release.Pointer)
  : Result Release.Pointer :=
  match c with
  | CBeNil => Release.BeNil a
  | CNotBeNil => Release.NotBeNil a
  | CTrueFn f => Release.TrueFn a f
  | CBeTrue => Release.BeTrue a
  | CBeFalse => Release.BeFalse a
  | CBeEqual x => Release.BeEqual a x
  | CNotBeEqual x => Release.NotBeEqual a x
  | CBeEmpty => Release.BeEmpty a
  | CNotBeEmpty => Release.NotBeEmpty a
  | CHaveLen n => Release.HaveLen a n
  | CContain x => Release.Contain a x
  | CNotContain x => Release.NotContain a x
  | CContainSubstring s => Release.ContainSubstring a s
  | CHavePrefix s => Release.HavePrefix a s
  | CHaveSuffix s => Release.HaveSuffix a s
  | CBeZero => Release.BeZero a
  | CNotBeZero => Release.NotBeZero a
  | CBeGreaterThan x => Release.BeGreaterThan a x
  | CBeLessThan x => Release.BeLessThan a x
  | CBeGreaterThanOrEqualTo x => Release.BeGreaterThanOrEqualTo a x
  | CBeLessThanOrEqualTo x => Release.BeLessThanOrEqualTo a x
  | CBeError => Release.BeError a
  | CNotBeError => Release.NotBeError a
  | CBeErrorOfType t => Release.BeErrorOfType a t
  | CBeErrorWithMessage s => Release.BeErrorWithMessage a s
  end.

(** The chain [a.M1(...).M2(...)...] in the inert variant. *)
Fixpoint releaseChain (a : Release.Pointer) (calls : list Call)
  : Result Release.Pointer :=
  match calls with
  | [] => Returned a
  | c :: rest => bind (releaseCall c a) (fun a' => releaseChain a' rest)
  end.

(** ** Outcomes of a predicate *)

(** The predicate passes: it returns its receiver. *)
Definition passes {A : Type} (r : Result A) (receiver : A) : Prop :=
  r = Returned receiver.

(** The predicate raises the fail-fast signal: a panic with a string. *)
Definition raises {A : Type} (r : Result A) : Prop :=
  exists s : string, r = Panicked (PString s).

(** ** Sample program *)

(** A small program environment and a few values, on which the
    statements below are evaluated. *)
Module Sample.

(** The type [*errors.errorString] of the errors made by
    [errors.New]. *)
Definition errorStringStruct : GoType :=
  TStruct "struct { s string }" (Some "errors.errorString").
Definition errorString : GoType := TPtr errorStringStruct None.

(** The interface type [error]. *)
Definition errorInterface : GoType :=
  TInterface "interface { Error() string }" (Some "error").

(** [errors.New(text)], allocated at [addr]. *)
Definition New (addr : Z) (text : string) : GoValue :=
  VPtr errorStringStruct None
       (Some (addr, VStruct "struct { s string }"
                            (Some "errors.errorString")
                            [VString None text])).

(** A rendering of integers, strings, nil and, under [%v], the errors of
    [errors.New]; every other value is shown by the name of its type. *)
Definition show (sharp : bool) (c : ascii) (v : GoValue) : string :=
  match v with
  | VNil => "<nil>"
  | VInt _ _ n | VUint _ _ n => fmt.itoa n
  | VString _ s =>
      if sharp then String (ascii_of_nat 34) (s ++ String (ascii_of_nat 34) "")
      else s
  | VPtr _ _ (Some (_, VStruct _ (Some "errors.errorString") [VString _ s])) =>
      if sharp then "(" ++ fmt.typeName v ++ ")" else s
  | _ => "(" ++ fmt.typeName v ++ ")"
  end.

Definition env : Env := {|
  render := show;
  implementsError := fun t =>
    if GoType_eq_dec t errorString then true
    else if GoType_eq_dec t errorInterface then true else false;
  Error := fun v =>
    match v with
    | VPtr _ _ (Some (_, VStruct _ _ [VString _ s])) => s
    | _ => ""
    end;
  asChain := fun err target =>
    match typeOf err, typeOf target with
    | Some te, Some (TPtr tg _) =>
        if GoType_eq_dec te tg then true
        else if GoType_eq_dec tg errorInterface then true else false
    | _, _ => false
    end
|}.

(** The call site [/home/dev/app/main.go:42]. *)
Definition site : runtime.Frame :=
  {| runtime.file := "/home/dev/app/main.go"; runtime.line := 42 |}.

Definition stack : runtime.Stack :=
  [site; {| runtime.file := "/usr/local/go/src/runtime/proc.go";
            runtime.line := 267 |}].

(** The float64 nearest to [m * 2^e]. *)
Definition float64 (m e : Z) : spec_float :=
  binary_normalize 53 1024 m e false.

(** The float64 values [9.5] and NaN, and the int [10]. *)
Definition f9_5 : GoValue := VFloat F64 None (float64 19 (-1)).
Definition nan : GoValue := VFloat F64 None S754_nan.
Definition i10 : GoValue := VInt I None 10.

(** [new(int)] and a slice of ints. *)
Definition newInt : GoValue :=
  VPtr (TInt I None) None (Some (4096, VInt I None 0)).
Definition ints (l : list Z) : GoValue :=
  VSlice (TInt I None) None (Some (8192, map (VInt I None) l)).

(** The string a panic carries. *)
Definition message (r : Result Debug.Assertion) : string :=
  match r with
  | Panicked (PString s) => s
  | _ => ""
  end.

End Sample.

(** ** Vocabulary of the properties *)

Definition is_nan (f : spec_float) : bool :=
  match f with S754_nan => true | _ => false end.

(** The value is of a signed integer, unsigned integer or floating-point
    kind. *)
Definition numeric (v : GoValue) : bool := Debug.isNumeric (kindOf v).

(** The value is a floating-point NaN. *)
Definition isNaN (v : GoValue) : bool :=
  match v with
  | VFloat _ _ f => is_nan f
  | _ => false
  end.

(** The kinds whose values can be nil, as [isNil] lists them. *)
Definition nilableKind (k : Kind.t) : bool :=
  match k with
  | Kind.Chan | Kind.Func | Kind.Interface | Kind.Map | Kind.Ptr
  | Kind.Slice => true
  | _ => false
  end.

Definition isSlash (c : ascii) : bool := Ascii.eqb c "/".

Fixpoint hasSlash (s : string) : bool :=
  match s with
  | EmptyString => false
  | String c r => isSlash c || hasSlash r
  end.

(** The last segment of a slash-separated path: what follows its last
    slash, or the whole path when it has no slash. *)
Fixpoint lastSegment (path : string) : string :=
  match path with
  | EmptyString => EmptyString
  | String c r =>
      if hasSlash r then lastSegment r
      else if isSlash c then r
      else path
  end.

(** The payload ["<file>:<line>: assertion failed: <message>"] for a call
    site. *)
Definition diagnostic (site : runtime.Frame) (message : string) : string :=
  (lastSegment (runtime.file site) ++ ":" ++ fmt.itoa (runtime.line site))
  ++ ": assertion failed: " ++ message.

(** The captured value is a non-nil error: the type assertion
    [value.(error)] succeeds and the error is not nil. *)
Definition nonNilError (env : Env) (v : GoValue) : bool :=
  let (err, ok) := Debug.assertError env v in
  ok && negb (Debug.isNil err).

(** The target is nil or not a pointer. *)
Definition badTarget (target : GoValue) : bool :=
  negb (Kind.eqb (kindOf target) Kind.Ptr) || IsNil target.

Fixpoint noColon (s : string) : bool :=
  match s with
  | EmptyString => true
  | String c r => negb (Ascii.eqb c ":") && noColon r
  end.

(** The wording of the usage error, in front of the name of the type of
    the target. *)
Definition usageErrorWording : string :=
  "internal bumert error: BeErrorOfType target must be a non-nil pointer, got ".

(** A string that is not empty and does not begin with a space. *)
Definition headNotSpace (s : string) : Prop :=
  match s with
  | EmptyString => False
  | String c _ => c <> " "%char
  end.

(** Induction on values, with the hypothesis for every value stored
    inside a container. *)
Section GoValueInduction.

Variable P : GoValue -> Prop.

Hypothesis HNil : P VNil.
Hypothesis HBool : forall d b, P (VBool d b).
Hypothesis HInt : forall k d n, P (VInt k d n).
Hypothesis HUint : forall k d n, P (VUint k d n).
Hypothesis HFloat : forall k d f, P (VFloat k d f).
Hypothesis HComplex : forall k d re im, P (VComplex k d re im).
Hypothesis HString : forall d s, P (VString d s).
Hypothesis HUnsafePointer : forall d addr, P (VUnsafePointer d addr).
Hypothesis HArray : forall e d es, Forall P es -> P (VArray e d es).
Hypothesis HChan : forall e d c, P (VChan e d c).
Hypothesis HFunc : forall sig d code, P (VFunc sig d code).
Hypothesis HInterface : forall sig d dyn, P dyn -> P (VInterface sig d dyn).
Hypothesis HMapNil : forall k e d, P (VMap k e d None).
Hypothesis HMap : forall k e d addr es,
    Forall (fun kv => P (fst kv) /\ P (snd kv)) es ->
    P (VMap k e d (Some (addr, es))).
Hypothesis HPtrNil : forall e d, P (VPtr e d None).
Hypothesis HPtr : forall e d addr x, P x -> P (VPtr e d (Some (addr, x))).
Hypothesis HSliceNil : forall e d, P (VSlice e d None).
Hypothesis HSlice : forall e d addr es,
    Forall P es -> P (VSlice e d (Some (addr, es))).
Hypothesis HStruct : forall sig d fields,
    Forall P fields -> P (VStruct sig d fields).

Fixpoint GoValue_nested_ind (v : GoValue) : P v :=
  let all :=
    fix all (l : list GoValue) : Forall P l :=
      match l with
      | [] => Forall_nil P
      | x :: r => Forall_cons x (GoValue_nested_ind x) (all r)
      end in
  match v with
  | VNil => HNil
  | VBool d b => HBool d b
  | VInt k d n => HInt k d n
  | VUint k d n => HUint k d n
  | VFloat k d f => HFloat k d f
  | VComplex k d re im => HComplex k d re im
  | VString d s => HString d s
  | VUnsafePointer d addr => HUnsafePointer d addr
  | VArray e d es => HArray e d es (all es)
  | VChan e d c => HChan e d c
  | VFunc sig d code => HFunc sig d code
  | VInterface sig d dyn => HInterface sig d dyn (GoValue_nested_ind dyn)
  | VMap k e d None => HMapNil k e d
  | VMap k e d (Some (addr, es)) =>
      HMap k e d addr es
        ((fix entries (l : list (GoValue * GoValue))
            : Forall (fun kv => P (fst kv) /\ P (snd kv)) l :=
            match l with
            | [] => Forall_nil _
            | (x, y) :: r =>
                Forall_cons (x, y)
                  (conj (GoValue_nested_ind x) (GoValue_nested_ind y))
                  (entries r)
            end) es)
  | VPtr e d None => HPtrNil e d
  | VPtr e d (Some (addr, x)) => HPtr e d addr x (GoValue_nested_ind x)
  | VSlice e d None => HSliceNil e d
  | VSlice e d (Some (addr, es)) => HSlice e d addr es (all es)
  | VStruct sig d fields => HStruct sig d fields (all fields)
  end.

End GoValueInduction.

(** The value has no floating-point NaN and no function that is not nil
    among the parts that deep equality compares by content: the value
    itself, the elements of an array, the fields of a struct and the
    dynamic value of an interface.  (A pointer, map or slice is compared
    with itself by its address.) *)
Fixpoint selfEqual (v : GoValue) : bool :=
  match v with
  | VFloat _ _ f => negb (is_nan f)
  | VComplex _ _ re im => negb (is_nan re) && negb (is_nan im)
  | VFunc _ _ code => match code with None => true | Some _ => false end
  | VArray _ _ es | VStruct _ _ es =>
      (fix all (l : list GoValue) : bool :=
         match l with
         | [] => true
         | x :: r => if selfEqual x then all r else false
         end) es
  | VInterface _ _ dyn => selfEqual dyn
  | _ => true
  end.

Definition isVNil (v : GoValue) : bool :=
  match v with VNil => true | _ => false end.

(** The target of [BeErrorOfType] is a non-nil pointer to an interface
    type, or to a pointer, array, channel, map or slice type that
    implements [error] (as in [var target *MyErr; ...(&target)]). *)
Definition properTarget (env : Env) (target : GoValue) : bool :=
  Kind.eqb (kindOf target) Kind.Ptr && negb (IsNil target) &&
  match typeOf target with
  | Some t =>
      match typeElem t with
      | Some e =>
          Kind.eqb (typeKind e) Kind.Interface
          || (implementsError env e
              && match typeElem e with Some _ => true | None => false end)
      | None => false
      end
  | None => false
  end.

(** The calls whose panics are not assertion failures: [BeErrorOfType] on
    a non-nil error with a target that is not proper, and an ordering
    predicate with the untyped nil as an operand. *)
Definition outsideAssertionTier (env : Env) (c : Call) (v : GoValue) : bool :=
  match c with
  | CBeErrorOfType target => nonNilError env v && negb (properTarget env target)
  | CBeGreaterThan x | CBeLessThan x | CBeGreaterThanOrEqualTo x
  | CBeLessThanOrEqualTo x => isVNil v || isVNil x
  | _ => false
  end.

(** The result is a return, or the diagnostic of an assertion failure at
    [site]. *)
Definition assertionTier {A : Type} (site : runtime.Frame) (r : Result A)
  : Prop :=
  match r with
  | Returned _ => True
  | Panicked p => exists m : string, p = PString (diagnostic site m)
  end.

(** ** Chains and builds *)

(** The chain [a.M1(...).M2(...)...] in the active variant; every call
    comes with the stack of its caller, positioned at that call. *)
Fixpoint debugChain (env : Env) (a : Debug.Assertion)
         (calls : list (runtime.Stack * Call)) : Result Debug.Assertion :=
  match calls with
  | [] => Returned a
  | (st, c) :: rest =>
      bind (debugCall env st c a) (fun a' => debugChain env a' rest)
  end.

(** The surface of package [bumert] that a program is compiled against:
    the type of the handle, [Should], the predicate methods and
    [Assert]. *)
Record Build : Type := {
  Handle : Type;
  bShould : GoValue -> Handle;
  bCall : runtime.Stack -> Call -> Handle -> Result Handle;
  bAssert : runtime.Stack -> bool -> Result unit
}.

Definition debugBuild (env : Env) : Build := {|
  Handle := Debug.Assertion;
  bShould := Debug.Should;
  bCall := debugCall env;
  bAssert := Debug.Assert env
|}.

Definition releaseBuild : Build := {|
  Handle := Release.Pointer;
  bShould := Release.Should;
  bCall := fun _ => releaseCall;
  bAssert := fun _ => Release.Assert
|}.

(** ** The example program (cmd/example/main.go) *)

Module Example.

(** [type config struct { Host string; Port int; User string;
    Tags []string }]. *)
Definition configSig : string :=
  "struct { Host string; Port int; User string; Tags []string }".
Definition configType : GoType := TStruct configSig (Some "main.config").

(** The type [*errors.errorString] of the errors that [errors.New] and
    [fmt.Errorf] (without [%w]) return. *)
Definition errorStringSig : string := "struct { s string }".
Definition errorStringType : GoType :=
  TPtr (TStruct errorStringSig (Some "errors.errorString")) None.

(** [errors.New(text)], allocated at [addr]. *)
Definition errorsNew (addr : Z) (text : string) : GoValue :=
  VPtr (TStruct errorStringSig (Some "errors.errorString")) None
       (Some (addr, VStruct errorStringSig (Some "errors.errorString")
                            [VString None text])).

(** The slice [[]string{"default", "example"}], allocated at [addr]. *)
Definition tags (addr : Z) : GoValue :=
  VSlice (TString None) None
         (Some (addr, [VString None "default"; VString None "example"])).

(** [&config{Host: host, Port: port, User: user, Tags: ...}]. *)
Definition newConfigValue (addrCfg addrTags : Z) (host : string) (port : Z)
           (user : string) : GoValue :=
  VPtr configType None
       (Some (addrCfg,
              VStruct configSig (Some "main.config")
                      [VString None host; VInt I None port;
                       VString None user; tags addrTags])).

(** [cfg.Tags]. *)
Definition Tags (cfg : GoValue) : GoValue :=
  match cfg with
  | VPtr _ _ (Some (_, VStruct _ _ [_; _; _; t])) => t
  | _ => VNil
  end.

(** The nil [*config]. *)
Definition nilConfig : GoValue := VPtr configType None None.

Section NewConfig.

(** The build of package [bumert] the program is compiled against, the
    environment (for the printing of [fmt.Errorf]), the path of
    [main.go], and the addresses the allocations return. *)
Variable B : Build.
Variable env : Env.
Variable mainFile : string.
Variables addrErr addrCfg addrTags : Z.

Definition line (l : Z) (st : runtime.Stack) : runtime.Stack :=
  {| runtime.file := mainFile; runtime.line := l |} :: st.

(** The expression statement [bumert.Should(v).M(args)] at line [l]. *)
Definition should (st : runtime.Stack) (l : Z) (v : GoValue) (c : Call)
  : Result unit :=
  bind (bCall B (line l st) c (bShould B v)) (fun _ => Returned tt).

(** [newConfig(host, port, user)], called with the stack [st] of its
    caller; the result is the pair of a [*config] and an [error]. *)
Definition newConfig (st : runtime.Stack) (host : string) (port : Z)
           (user : string) : Result (GoValue * GoValue) :=
  bind (bAssert B (line 22 st) false) (fun _ =>
  bind (should st 23 (VString None host) CNotBeEmpty) (fun _ =>
  bind (should st 24 (VInt I None port) (CBeGreaterThan (VInt I None 0)))
       (fun _ =>
  if String.eqb host "" then
    Returned (nilConfig, errorsNew addrErr "host cannot be empty")
  else if port <=? 0 then
    Returned (nilConfig,
              errorsNew addrErr
                (fmt.Sprintf (render env) "invalid port: %d"
                             [VInt I None port]))
  else
    let cfg := newConfigValue addrCfg addrTags host port user in
    bind (should st 43 cfg CNotBeNil) (fun _ =>
    bind (should st 44 (Tags cfg) (CHaveLen 2)) (fun _ =>
    bind (should st 45 (Tags cfg) (CContain (VString None "example")))
         (fun _ =>
    Returned (cfg, VNil))))))).

End NewConfig.

End Example.

(** ** Vocabulary of further properties *)

(** The result is a return of the receiver [a], or a panic. *)
Definition keepsReceiver {A : Type} (a : A) (r : Result A) : Prop :=
  match r with
  | Returned a' => a' = a
  | Panicked _ => True
  end.

(** The value [float64(v)] that [convertToFloat64] gives. *)
Definition toFloat64 (v : GoValue) : spec_float :=
  fst (Debug.convertToFloat64 v).

(** * Properties *)

(** ** Floating-point comparison *)

Lemma SFcompare_antisym (x y : spec_float) :
  SFcompare y x = option_map CompOpp (SFcompare x y).
Proof.
  destruct x as [sx | sx | | sx mx ex], y as [sy | sy | | sy my ey];
    simpl; try reflexivity;
    try (destruct sx; reflexivity);
    try (destruct sy; reflexivity);
    try (destruct sx, sy; reflexivity).
  destruct sx, sy; simpl; try reflexivity;
    rewrite (Z.compare_antisym ex ey);
    destruct (ex ?= ey)%Z eqn:E; simpl; try reflexivity;
    change (Pos.compare_cont Eq my mx) with (Pos.compare my mx);
    change (Pos.compare_cont Eq mx my) with (Pos.compare mx my);
    rewrite (Pos.compare_antisym mx my);
    destruct (mx ?= my)%positive; reflexivity.
Qed.

Lemma SFcompare_defined (x y : spec_float) :
  is_nan x = false -> is_nan y = false -> SFcompare x y <> None.
Proof.
  destruct x, y; simpl; intros; congruence.
Qed.

(** On float64 values other than NaN, [x > y] is the negation of
    [x <= y]. *)
Lemma fgt_not_fle (x y : spec_float) :
  is_nan x = false -> is_nan y = false ->
  Debug.fgt x y = negb (Debug.fle x y).
Proof.
  intros Hx Hy. unfold Debug.fgt, Debug.fle, SFltb, SFleb.
  rewrite (SFcompare_antisym x y).
  pose proof (SFcompare_defined x y Hx Hy) as H.
  destruct (SFcompare x y) as [[ | | ] | ]; simpl; congruence.
Qed.

(** ** The conversion of an integer to float64 never gives NaN *)

Section Rounding.

Variables prec emax : Z.

Lemma shr_1_nonneg (mrs : shr_record) :
  0 <= shr_m mrs -> 0 <= shr_m (shr_1 mrs).
Proof.
  destruct mrs as [m r s]; simpl.
  destruct m as [ | [p | p | ] | [p | p | ]]; simpl; lia.
Qed.

Lemma iter_pos_invariant {A : Type} (P : A -> Prop) (f : A -> A) :
  (forall x, P x -> P (f x)) ->
  forall (p : positive) (x : A), P x -> P (iter_pos f p x).
Proof.
  intros Hf. induction p as [p IH | p IH | ]; simpl; intros x Hx; auto.
Qed.

Lemma shr_nonneg (mrs : shr_record) (e n : Z) :
  0 <= shr_m mrs -> 0 <= shr_m (fst (shr mrs e n)).
Proof.
  intros H. unfold shr. destruct n as [ | p | p]; simpl; auto.
  apply (iter_pos_invariant (fun x => 0 <= shr_m x)); auto using shr_1_nonneg.
Qed.

Lemma shr_fexp_nonneg (m e : Z) (l : location) :
  0 <= m -> 0 <= shr_m (fst (shr_fexp prec emax m e l)).
Proof.
  intros H. unfold shr_fexp. apply shr_nonneg.
  destruct l as [ | [ | | ]]; simpl; assumption.
Qed.

Lemma round_nearest_even_nonneg (m : Z) (l : location) :
  0 <= m -> 0 <= round_nearest_even m l.
Proof.
  intros H. unfold round_nearest_even.
  destruct l as [ | [ | | ]]; try destruct (Z.even m); lia.
Qed.

Lemma binary_round_aux_not_nan (sx : bool) (mx ex : Z) (lx : location) :
  0 <= mx -> is_nan (binary_round_aux prec emax sx mx ex lx) = false.
Proof.
  intros H. unfold binary_round_aux.
  pose proof (shr_fexp_nonneg mx ex lx H) as H1.
  destruct (shr_fexp prec emax mx ex lx) as [mrs' e']. simpl in H1.
  pose proof (shr_fexp_nonneg _ e' loc_Exact
                (round_nearest_even_nonneg _ (loc_of_shr_record mrs') H1))
    as H2.
  destruct (shr_fexp prec emax _ e' loc_Exact) as [mrs'' e'']. simpl in H2.
  destruct (shr_m mrs'') as [ | m | m]; simpl; try reflexivity.
  - destruct (e'' <=? emax - prec); reflexivity.
  - lia.
Qed.

Lemma binary_normalize_not_nan (m e : Z) (szero : bool) :
  is_nan (binary_normalize prec emax m e szero) = false.
Proof.
  unfold binary_normalize, binary_round.
  destruct m as [ | p | p]; try reflexivity;
    destruct (shl_align _ _ _) as [mz ez];
    apply binary_round_aux_not_nan; lia.
Qed.

End Rounding.

Lemma float64_of_Z_not_nan (n : Z) : is_nan (Debug.float64_of_Z n) = false.
Proof. apply binary_normalize_not_nan. Qed.

(** ** Ordering predicates *)

Lemma Zgtb_not_leb (n m : Z) : (n >? m) = negb (n <=? m).
Proof. rewrite Z.gtb_ltb, Z.leb_antisym, negb_involutive. reflexivity. Qed.

Lemma Zltb_not_geb (n m : Z) : (n <? m) = negb (n >=? m).
Proof. rewrite Z.geb_leb, Z.ltb_antisym. reflexivity. Qed.

Arguments GoType_eq_dec : simpl never.
Arguments Debug.float64_of_Z : simpl never.
Arguments Debug.fgt : simpl never.
Arguments Debug.fle : simpl never.

Lemma convertToFloat64_not_nan (v : GoValue) :
  isNaN v = false -> is_nan (fst (Debug.convertToFloat64 v)) = false.
Proof.
  intros H. unfold Debug.convertToFloat64.
  destruct v; simpl in *; try reflexivity;
    try (destruct k; simpl; auto using float64_of_Z_not_nan).
Qed.

(** On two numeric operands [compare] answers both [>] and [<=], and
    unless an operand is NaN the two answers are opposite. *)
Lemma compare_numeric (a b : GoValue) :
  numeric a = true -> numeric b = true ->
  exists g l : bool,
    Debug.compare a b ">" = Returned (g, true) /\
    Debug.compare a b "<=" = Returned (l, true) /\
    (isNaN a = false -> isNaN b = false -> g = negb l).
Proof.
  intros Ha Hb.
  destruct a; try discriminate Ha; destruct k; try discriminate Ha;
    destruct b; try discriminate Hb; destruct k; try discriminate Hb;
    unfold Debug.compare; simpl;
    try (destruct (GoType_eq_dec _ _); try congruence; simpl);
    (eexists; eexists; split; [reflexivity | split; [reflexivity | ]]);
    intros Na Nb;
    first [ apply Zgtb_not_leb
          | apply fgt_not_fle;
            auto using float64_of_Z_not_nan ].
Qed.

(** C3 (amended): in the active variant, for all numeric captured values
    [a] and numeric operands [b], of the same or of different numeric
    kinds, neither of which is a floating-point NaN,
    [BeGreaterThan] passes if and only if [BeLessThanOrEqualTo] raises
    the fail-fast signal (and [BeLessThanOrEqualTo] passes if and only
    if [BeGreaterThan] raises it). *)
Theorem ordering_complement_without_nan
        (env : Env) (st : runtime.Stack) (a : Debug.Assertion)
        (b : GoValue) :
  numeric (Debug.value a) = true -> numeric b = true ->
  isNaN (Debug.value a) = false -> isNaN b = false ->
  (passes (Debug.BeGreaterThan env st a b) a <->
   raises (Debug.BeLessThanOrEqualTo env st a b)) /\
  (passes (Debug.BeLessThanOrEqualTo env st a b) a <->
   raises (Debug.BeGreaterThan env st a b)).
Proof.
  intros Ha Hb Na Nb.
  destruct (compare_numeric _ _ Ha Hb) as (g & l & Hg & Hl & Hgl).
  specialize (Hgl Na Nb). subst g.
  unfold passes, raises, Debug.BeGreaterThan, Debug.BeLessThanOrEqualTo.
  rewrite Hg, Hl. simpl.
  destruct l; simpl; unfold Debug.failAssertion; simpl; split; split;
    solve [ intros H; discriminate H
          | intros [s H]; discriminate H
          | intros _; reflexivity
          | intros _; eexists; reflexivity ].
Qed.

(** The theorem at the int [10] and the float64 [9.5]. *)
Lemma ordering_complement_without_nan_witness :
  (passes (Debug.BeGreaterThan Sample.env Sample.stack
             (Debug.Should Sample.i10) Sample.f9_5)
          (Debug.Should Sample.i10) <->
   raises (Debug.BeLessThanOrEqualTo Sample.env Sample.stack
             (Debug.Should Sample.i10) Sample.f9_5)) /\
  (passes (Debug.BeLessThanOrEqualTo Sample.env Sample.stack
             (Debug.Should Sample.i10) Sample.f9_5)
          (Debug.Should Sample.i10) <->
   raises (Debug.BeGreaterThan Sample.env Sample.stack
             (Debug.Should Sample.i10) Sample.f9_5)).
Proof.
  apply (ordering_complement_without_nan Sample.env Sample.stack
           (Debug.Should Sample.i10) Sample.f9_5);
    vm_compute; reflexivity.
Defined.

(** C3 as stated fails on NaN: with the captured float64 NaN and the
    operand [9.5], both numeric, [BeLessThanOrEqualTo] raises and
    [BeGreaterThan] does not pass (it raises as well), so the equivalence
    does not hold. *)
Lemma ordering_complement_fails_on_nan :
  numeric Sample.nan = true /\ numeric Sample.f9_5 = true /\
  ~ (passes (Debug.BeGreaterThan Sample.env Sample.stack
               (Debug.Should Sample.nan) Sample.f9_5)
            (Debug.Should Sample.nan) <->
     raises (Debug.BeLessThanOrEqualTo Sample.env Sample.stack
               (Debug.Should Sample.nan) Sample.f9_5)).
Proof.
  split; [reflexivity | split; [reflexivity | ]].
  intros [_ H].
  assert (R : raises (Debug.BeLessThanOrEqualTo Sample.env Sample.stack
                        (Debug.Should Sample.nan) Sample.f9_5)).
  { eexists. vm_compute. reflexivity. }
  specialize (H R). vm_compute in H. discriminate H.
Qed.

(** ** Nil-ness *)

Lemma failAssertion_raises (env : Env) (A : Type) (st : runtime.Stack)
      (format : string) (args : list GoValue) :
  raises (@Debug.failAssertion env A st format args).
Proof. unfold raises, Debug.failAssertion. eexists. reflexivity. Qed.

Lemma raises_not_passes {A : Type} (r : Result A) (a : A) :
  raises r -> ~ passes r a.
Proof. intros [s ->] H. discriminate H. Qed.

(** C2: in the active variant, for every captured value, [NotBeNil]
    passes if and only if [BeNil] raises the fail-fast signal, and
    [BeNil] passes if and only if [NotBeNil] raises it: on no value do
    both pass or both fail. *)
Theorem BeNil_NotBeNil_complement
        (env : Env) (st : runtime.Stack) (a : Debug.Assertion) :
  (passes (Debug.NotBeNil env st a) a <-> raises (Debug.BeNil env st a)) /\
  (passes (Debug.BeNil env st a) a <-> raises (Debug.NotBeNil env st a)).
Proof.
  unfold Debug.BeNil, Debug.NotBeNil, passes, raises, Debug.failAssertion.
  destruct (Debug.isNil (Debug.value a)); simpl; split; split;
    solve [ intros H; discriminate H
          | intros [s H]; discriminate H
          | intros _; reflexivity
          | intros _; eexists; reflexivity ].
Qed.

(** C5: the nil-ness test is true for the untyped nil and for a value of
    kind channel, function, interface, map, pointer or slice whose handle
    is nil; it is false for a value of these kinds whose handle is not
    nil and for every value of any other kind, whatever its content: in
    particular a struct is never nil. *)
Theorem isNil_by_kind :
  Debug.isNil VNil = true /\
  (forall e d, Debug.isNil (VChan e d None) = true) /\
  (forall sig d, Debug.isNil (VFunc sig d None) = true) /\
  (forall sig d, Debug.isNil (VInterface sig d VNil) = true) /\
  (forall k e d, Debug.isNil (VMap k e d None) = true) /\
  (forall e d, Debug.isNil (VPtr e d None) = true) /\
  (forall e d, Debug.isNil (VSlice e d None) = true) /\
  (forall v, nilableKind (kindOf v) = true -> Debug.isNil v = IsNil v) /\
  (forall v, v <> VNil -> nilableKind (kindOf v) = false ->
             Debug.isNil v = false) /\
  (forall sig d fields, Debug.isNil (VStruct sig d fields) = false).
Proof.
  repeat split; try reflexivity.
  - intros v H. destruct v; try discriminate H; try reflexivity;
      destruct k; discriminate H.
  - intros v Hv H. destruct v; try reflexivity; try discriminate H;
      try (destruct k; reflexivity).
    congruence.
Qed.

(** The theorem at a struct whose fields are all zero, at the int [0], at
    the empty string and at a pointer that is not nil. *)
Lemma isNil_by_kind_witness :
  Debug.isNil (VStruct "struct { A int; B string }" (Some "main.T")
                       [VInt I None 0; VString None ""]) = false /\
  Debug.isNil (VInt I None 0) = false /\
  Debug.isNil (VString None "") = false /\
  Debug.isNil (VPtr (TInt I None) None (Some (4096, VInt I None 0))) = false.
Proof.
  destruct isNil_by_kind as (_ & _ & _ & _ & _ & _ & _ & Hn & Ho & Hs).
  split; [apply Hs | ].
  split; [apply Ho; [discriminate | reflexivity] | ].
  split; [apply Ho; [discriminate | reflexivity] | ].
  rewrite Hn; reflexivity.
Defined.

(** ** Emptiness and the zero value *)

(** C6: in the active variant, for every slice that is not nil and has
    length zero, [BeEmpty] passes and [BeZero] raises the fail-fast
    signal; the same holds for a map that is not nil and has no entry. *)
Theorem empty_slice_is_empty_not_zero
        (env : Env) (st : runtime.Stack) (k e : GoType) (d : TypeName)
        (addr : Z) :
  let s := VSlice e d (Some (addr, [])) in
  let m := VMap k e d (Some (addr, [])) in
  (Debug.isNil s = false /\ Len s = 0 /\
   passes (Debug.BeEmpty env st (Debug.Should s)) (Debug.Should s) /\
   raises (Debug.BeZero env st (Debug.Should s))) /\
  (Debug.isNil m = false /\ Len m = 0 /\
   passes (Debug.BeEmpty env st (Debug.Should m)) (Debug.Should m) /\
   raises (Debug.BeZero env st (Debug.Should m))).
Proof.
  simpl. repeat split; apply failAssertion_raises.
Qed.

(** ** The diagnostic of an assertion failure *)

Lemma append_empty_r (s : string) : s ++ "" = s.
Proof. induction s as [ | c s IH]; simpl; [ | rewrite IH]; reflexivity. Qed.

Lemma append_assoc (s1 s2 s3 : string) : (s1 ++ s2) ++ s3 = s1 ++ s2 ++ s3.
Proof. induction s1 as [ | c s1 IH]; simpl; [ | rewrite IH]; reflexivity. Qed.

Lemma prefix_slash (c : ascii) (r : string) :
  String.prefix "/" (String c r) = isSlash c.
Proof.
  change (String.prefix "/" (String c r))
    with (if ascii_dec "/" c then String.prefix "" r else false).
  unfold isSlash. destruct (ascii_dec "/" c) as [<- | Hne].
  - destruct r; reflexivity.
  - symmetry. apply Ascii.eqb_neq. congruence.
Qed.

(** [strings.LastIndex] finds nothing exactly when the path has no slash,
    and otherwise finds the slash in front of the last segment. *)
Lemma LastIndexFrom_slash (s : string) :
  forall from : Z,
    0 <= from ->
    if hasSlash s
    then from <= strings.LastIndexFrom from s "/" /\
         strings.drop (Z.to_nat (strings.LastIndexFrom from s "/" - from + 1)) s
         = lastSegment s
    else strings.LastIndexFrom from s "/" = -1.
Proof.
  induction s as [ | c r IH]; intros from Hfrom.
  - reflexivity.
  - cbn [hasSlash strings.LastIndexFrom lastSegment].
    specialize (IH (from + 1) ltac:(lia)). rewrite prefix_slash.
    destruct (hasSlash r).
    + destruct IH as [Hle Hdrop].
      rewrite orb_true_r.
      replace (0 <=? strings.LastIndexFrom (from + 1) r "/") with true
        by (symmetry; apply Z.leb_le; lia).
      split; [lia | ].
      replace (Z.to_nat (strings.LastIndexFrom (from + 1) r "/" - from + 1))
        with (S (Z.to_nat (strings.LastIndexFrom (from + 1) r "/"
                           - (from + 1) + 1))) by lia.
      exact Hdrop.
    + rewrite IH, orb_false_r. change (0 <=? -1) with false. cbv iota.
      destruct (isSlash c).
      * split; [lia | ]. replace (from - from + 1) with 1 by lia. reflexivity.
      * reflexivity.
Qed.

(** The file name [getCallerInfo] keeps is the last segment of the path. *)
Lemma basename_lastSegment (file : string) :
  (let lastSlash := strings.LastIndex file "/" in
   if 0 <=? lastSlash
   then strings.drop (Z.to_nat (lastSlash + 1)) file
   else file) = lastSegment file.
Proof.
  unfold strings.LastIndex.
  pose proof (LastIndexFrom_slash file 0 ltac:(lia)) as H.
  destruct (hasSlash file) eqn:E.
  - destruct H as [Hle Hdrop]. cbv zeta.
    replace (0 <=? strings.LastIndexFrom 0 file "/") with true
      by (symmetry; apply Z.leb_le; lia).
    rewrite <- Hdrop. f_equal. f_equal. lia.
  - cbv zeta. rewrite H. simpl.
    clear H. induction file as [ | c r IH]; [reflexivity | ].
    simpl in E. apply orb_false_iff in E. destruct E as [Ec Er].
    simpl. rewrite Er, Ec. reflexivity.
Qed.

(** The last segment has no slash, and the path is the last segment after
    a directory prefix ending in a slash, if it has one. *)
Lemma lastSegment_spec (path : string) :
  hasSlash (lastSegment path) = false /\
  exists dir : string,
    path = dir ++ lastSegment path /\
    (dir = "" \/ exists d, dir = d ++ "/").
Proof.
  induction path as [ | c r (IHs & dir & IHd & IHe)].
  - split; [reflexivity | ]. exists "". split; [reflexivity | now left].
  - simpl. destruct (hasSlash r) eqn:Er.
    + split; [exact IHs | ].
      exists (String c dir). split.
      * simpl. rewrite <- IHd. reflexivity.
      * right. destruct IHe as [-> | [d ->]].
        -- simpl in IHd. rewrite <- IHd, Er in IHs. discriminate IHs.
        -- exists (String c d). reflexivity.
    + destruct (isSlash c) eqn:Ec.
      * split; [exact Er | ].
        exists (String c ""). split; [reflexivity | ].
        right. exists "". simpl. f_equal.
        unfold isSlash in Ec. apply Ascii.eqb_eq in Ec. subst c. reflexivity.
      * split; [simpl; rewrite Ec, Er; reflexivity | ].
        exists "". split; [reflexivity | now left].
Qed.

(** Called from a method that was itself called at [site],
    [failAssertion] panics with the diagnostic for [site]. *)
Lemma failAssertion_at (env : Env) (A : Type) (l : Z)
      (site : runtime.Frame) (rest : runtime.Stack)
      (format : string) (args : list GoValue) :
  @Debug.failAssertion env A (Debug.at_line l :: site :: rest) format args
  = Panicked (PString (diagnostic site (Debug.Sprintf env format args))).
Proof.
  unfold Debug.failAssertion, Debug.getCallerInfo, diagnostic.
  change (runtime.Caller
            (Debug.at_line 16 :: Debug.at_line 30 :: Debug.at_line l
                           :: site :: rest) (2 + 1))
    with (Some (runtime.file site, runtime.line site)).
  cbv iota beta. rewrite basename_lastSegment.
  unfold Debug.Sprintf, Debug.str, Debug.int. cbn [fmt.Sprintf fmt.verb].
  rewrite !append_empty_r. reflexivity.
Qed.

(** ** Length *)

(** C10: in the active variant the untyped nil is not length-testable:
    for every integer [n], [HaveLen(n)] on a holder capturing it raises
    the fail-fast signal whose message reports a value that is not
    length-testable (not a length mismatch), so [HaveLen(0)] does not
    pass; a nil slice and a nil map are length-testable, with length 0. *)
Theorem HaveLen_untyped_nil
        (env : Env) (site : runtime.Frame) (rest : runtime.Stack) (n : Z) :
  Debug.getLength VNil = (-1, false) /\
  Debug.HaveLen env (site :: rest) (Debug.Should VNil) n
  = Panicked
      (PString
         (diagnostic site
            ("should have length, but got non-length-testable value: "
             ++ render env true "v" VNil ++ " (type <nil>)"))) /\
  (forall st : runtime.Stack,
      raises (Debug.HaveLen env st (Debug.Should VNil) n) /\
      ~ passes (Debug.HaveLen env st (Debug.Should VNil) n)
          (Debug.Should VNil)) /\
  (forall (st : runtime.Stack) (e : GoType) (d : TypeName),
      Debug.getLength (VSlice e d None) = (0, true) /\
      passes (Debug.HaveLen env st (Debug.Should (VSlice e d None)) 0)
             (Debug.Should (VSlice e d None))) /\
  (forall (st : runtime.Stack) (k e : GoType) (d : TypeName),
      Debug.getLength (VMap k e d None) = (0, true) /\
      passes (Debug.HaveLen env st (Debug.Should (VMap k e d None)) 0)
             (Debug.Should (VMap k e d None))).
Proof.
  split; [reflexivity | ]. split.
  - unfold Debug.HaveLen. cbn [Debug.Should Debug.value Debug.getLength bind].
    rewrite failAssertion_at. reflexivity.
  - split; [ | split; intros; split; reflexivity].
    intros st.
    assert (R : raises (Debug.HaveLen env st (Debug.Should VNil) n))
      by (eexists; reflexivity).
    split; [exact R | exact (raises_not_passes _ _ R)].
Qed.

(** ** The two tiers of BeErrorOfType *)

Lemma digit_not_space (d : Z) : 0 <= d < 10 -> fmt.digit d <> " "%char.
Proof.
  intros H.
  assert (E : d = 0 \/ d = 1 \/ d = 2 \/ d = 3 \/ d = 4 \/ d = 5 \/ d = 6
              \/ d = 7 \/ d = 8 \/ d = 9) by lia.
  repeat (destruct E as [-> | E]; [discriminate | ]). subst d. discriminate.
Qed.

Lemma digits_head (fuel : nat) :
  forall (n : Z) (acc : string),
    headNotSpace acc -> headNotSpace (fmt.digits fuel n acc).
Proof.
  induction fuel as [ | fuel IH]; intros n acc Hacc; simpl; [exact Hacc | ].
  assert (Hd : headNotSpace (String (fmt.digit (n mod 10)) acc)).
  { simpl. apply digit_not_space. apply Z.mod_pos_bound. lia. }
  destruct (n <? 10); [exact Hd | apply IH, Hd].
Qed.

Lemma digits_head_top (fuel : nat) (n : Z) :
  headNotSpace (fmt.digits (S fuel) n "").
Proof.
  simpl.
  assert (Hd : headNotSpace (String (fmt.digit (n mod 10)) "")).
  { simpl. apply digit_not_space. apply Z.mod_pos_bound. lia. }
  destruct (n <? 10); [exact Hd | apply digits_head, Hd].
Qed.

Lemma itoa_head (n : Z) : headNotSpace (fmt.itoa n).
Proof.
  unfold fmt.itoa. destruct (n <? 0).
  - simpl. discriminate.
  - apply digits_head_top.
Qed.

Lemma split_at_colon (b1 : string) :
  forall b2 x y : string,
    noColon b1 = true -> noColon b2 = true ->
    b1 ++ String ":" x = b2 ++ String ":" y -> b1 = b2 /\ x = y.
Proof.
  induction b1 as [ | c b1 IH]; intros [ | c2 b2] x y H1 H2 E; simpl in *.
  - injection E as ->. split; reflexivity.
  - injection E as <- _. rewrite Ascii.eqb_refl in H2. discriminate H2.
  - injection E as -> _. rewrite Ascii.eqb_refl in H1. discriminate H1.
  - injection E as -> E.
    apply andb_true_iff in H1, H2. destruct H1 as [_ H1], H2 as [_ H2].
    destruct (IH b2 x y H1 H2 E) as [-> ->]. split; reflexivity.
Qed.

(** The usage error is not the diagnostic of any assertion failure at a
    call site whose file name has no colon. *)
Lemma usageError_not_diagnostic (site : runtime.Frame) (t m : string) :
  noColon (lastSegment (runtime.file site)) = true ->
  usageErrorWording ++ t <> diagnostic site m.
Proof.
  intros Hc E. unfold diagnostic in E. rewrite append_assoc in E.
  symmetry in E.
  destruct (split_at_colon
              _ "internal bumert error" _
              (" BeErrorOfType target must be a non-nil pointer, got " ++ t)
              Hc eq_refl E) as [_ E'].
  pose proof (itoa_head (runtime.line site)) as Hh.
  destruct (fmt.itoa (runtime.line site)) as [ | c r]; [exact Hh | ].
  simpl in E'. injection E' as -> _. apply Hh. reflexivity.
Qed.

(** C8: in the active variant, [BeErrorOfType] on a captured non-nil
    error with a target that is nil or not a pointer panics with a
    message worded as an internal error (it contains "internal" and
    "error") that is not the diagnostic of an assertion failure (for a
    call site whose file name has no colon); on a captured value that is
    not a non-nil error it raises the assertion failure "should be a
    non-nil error", whatever the target. *)
Theorem BeErrorOfType_tiers
        (env : Env) (site : runtime.Frame) (rest : runtime.Stack)
        (a : Debug.Assertion) (target : GoValue) :
  (nonNilError env (Debug.value a) = true ->
   badTarget target = true ->
   exists u : string,
     Debug.BeErrorOfType env (site :: rest) a target = Panicked (PString u) /\
     u = usageErrorWording ++ fmt.typeName target /\
     strings.Contains u "internal" = true /\
     strings.Contains u "error" = true /\
     (noColon (lastSegment (runtime.file site)) = true ->
      forall m : string, u <> diagnostic site m)) /\
  (nonNilError env (Debug.value a) = false ->
   Debug.BeErrorOfType env (site :: rest) a target
   = Panicked
       (PString
          (diagnostic site
             ("should be a non-nil error, but got: "
              ++ render env true "v" (Debug.value a)
              ++ " (type " ++ fmt.typeName (Debug.value a) ++ ")")))).
Proof.
  unfold nonNilError, Debug.BeErrorOfType. split.
  - intros He Ht. exists (usageErrorWording ++ fmt.typeName target).
    destruct (Debug.assertError env (Debug.value a)) as [err ok].
    apply andb_true_iff in He. destruct He as [-> He].
    apply negb_true_iff in He. rewrite He.
    unfold badTarget in Ht. cbn [negb orb Debug.when bind]. rewrite Ht.
    cbn [Debug.when bind].
    split; [ | split; [reflexivity | split; [reflexivity | split]]].
    + unfold Debug.Sprintf. cbn [fmt.Sprintf fmt.verb].
      rewrite append_empty_r. reflexivity.
    + reflexivity.
    + intros Hc m. apply usageError_not_diagnostic, Hc.
  - intros He.
    destruct (Debug.assertError env (Debug.value a)) as [err ok].
    replace (negb ok || Debug.isNil err) with true.
    + cbn [Debug.when bind]. rewrite failAssertion_at.
      unfold Debug.Sprintf. cbn [fmt.Sprintf fmt.verb].
      rewrite append_empty_r. reflexivity.
    + destruct ok, (Debug.isNil err); simpl in *; congruence.
Qed.

(** The theorem at the error [errors.New("x")] with the target [nil],
    and at the int [10], which is not an error. *)
Lemma BeErrorOfType_tiers_witness :
  (exists u : string,
     Debug.BeErrorOfType Sample.env Sample.stack
       (Debug.Should (Sample.New 4096 "x")) VNil = Panicked (PString u) /\
     u = usageErrorWording ++ "<nil>" /\
     strings.Contains u "internal" = true /\
     strings.Contains u "error" = true /\
     forall m : string, u <> diagnostic Sample.site m) /\
  Debug.BeErrorOfType Sample.env Sample.stack (Debug.Should Sample.i10) VNil
  = Panicked
      (PString
         "main.go:42: assertion failed: should be a non-nil error, but got: 10 (type int)").
Proof.
  split.
  - destruct (proj1 (BeErrorOfType_tiers
                       Sample.env Sample.site (tl Sample.stack)
                       (Debug.Should (Sample.New 4096 "x")) VNil)
                    eq_refl eq_refl) as (u & H1 & H2 & H3 & H4 & H5).
    exists u. repeat split; try assumption. exact (H5 eq_refl).
  - exact (proj2 (BeErrorOfType_tiers
                    Sample.env Sample.site (tl Sample.stack)
                    (Debug.Should Sample.i10) VNil) eq_refl).
Defined.

(** ** Comparability *)

Lemma typeOf_None (v : GoValue) : typeOf v = None -> v = VNil.
Proof. destruct v; simpl; intros H; congruence. Qed.

Lemma kindOf_typeOf (v : GoValue) (t : GoType) :
  typeOf v = Some t -> kindOf v = typeKind t.
Proof. unfold kindOf. intros ->. reflexivity. Qed.

(** Two typed operands one of which is not numeric are not comparable. *)
Lemma compare_non_numeric (a b : GoValue) (op : string) :
  a <> VNil -> b <> VNil ->
  numeric a && numeric b = false ->
  Debug.compare a b op = Returned (false, false).
Proof.
  intros Ha Hb Hn. unfold Debug.compare, Debug.TypeOfValue.
  destruct (typeOf a) as [t1 | ] eqn:Ta;
    [ | exfalso; apply Ha, typeOf_None, Ta].
  destruct (typeOf b) as [t2 | ] eqn:Tb;
    [ | exfalso; apply Hb, typeOf_None, Tb].
  cbn [bind]. unfold numeric in Hn.
  rewrite Hn.
  assert (E : (if GoType_eq_dec t1 t2
               then
                 match kindOf a with
                 | Kind.Int | Kind.Int8 | Kind.Int16 | Kind.Int32
                 | Kind.Int64 =>
                     Debug.switchOp op (Debug.IntOf a >? Debug.IntOf b)
                       (Debug.IntOf a <? Debug.IntOf b)
                       (Debug.IntOf a >=? Debug.IntOf b)
                       (Debug.IntOf a <=? Debug.IntOf b)
                 | Kind.Uint | Kind.Uint8 | Kind.Uint16 | Kind.Uint32
                 | Kind.Uint64 | Kind.Uintptr =>
                     Debug.switchOp op (Debug.UintOf a >? Debug.UintOf b)
                       (Debug.UintOf a <? Debug.UintOf b)
                       (Debug.UintOf a >=? Debug.UintOf b)
                       (Debug.UintOf a <=? Debug.UintOf b)
                 | Kind.Float32 | Kind.Float64 =>
                     Debug.switchOp op
                       (Debug.fgt (Debug.FloatOf a) (Debug.FloatOf b))
                       (Debug.flt (Debug.FloatOf a) (Debug.FloatOf b))
                       (Debug.fge (Debug.FloatOf a) (Debug.FloatOf b))
                       (Debug.fle (Debug.FloatOf a) (Debug.FloatOf b))
                 | _ => None
                 end
               else None) = None).
  { destruct (GoType_eq_dec t1 t2) as [<- | _]; [ | reflexivity].
    rewrite (kindOf_typeOf a t1 Ta) in *.
    rewrite (kindOf_typeOf b t1 Tb) in Hn.
    destruct (typeKind t1); try reflexivity; discriminate Hn. }
  rewrite E. reflexivity.
Qed.

(** So every ordering predicate on such operands raises the failure
    "requires comparable numeric types". *)
Lemma BeGreaterThan_non_numeric
      (env : Env) (site : runtime.Frame) (rest : runtime.Stack)
      (a : Debug.Assertion) (b : GoValue) :
  Debug.value a <> VNil -> b <> VNil ->
  numeric (Debug.value a) && numeric b = false ->
  Debug.BeGreaterThan env (site :: rest) a b
  = Panicked
      (PString
         (diagnostic site
            ("BeGreaterThan requires comparable numeric types, got "
             ++ fmt.typeName (Debug.value a) ++ " and "
             ++ fmt.typeName b))).
Proof.
  intros Ha Hb Hn. unfold Debug.BeGreaterThan.
  rewrite (compare_non_numeric _ _ _ Ha Hb Hn).
  cbn [bind negb Debug.when]. rewrite failAssertion_at.
  unfold Debug.Sprintf. cbn [fmt.Sprintf fmt.verb].
  rewrite append_empty_r. reflexivity.
Qed.

(** Two numeric operands of different kinds are compared as float64
    values. *)
Lemma compare_widens (a b : GoValue) :
  numeric a = true -> numeric b = true -> kindOf a <> kindOf b ->
  let f1 := fst (Debug.convertToFloat64 a) in
  let f2 := fst (Debug.convertToFloat64 b) in
  Debug.compare a b ">" = Returned (Debug.fgt f1 f2, true) /\
  Debug.compare a b "<" = Returned (Debug.flt f1 f2, true) /\
  Debug.compare a b ">=" = Returned (Debug.fge f1 f2, true) /\
  Debug.compare a b "<=" = Returned (Debug.fle f1 f2, true).
Proof.
  intros Ha Hb Hk.
  destruct a; try discriminate Ha; destruct k; try discriminate Ha;
    destruct b; try discriminate Hb; destruct k; try discriminate Hb;
    try (exfalso; apply Hk; reflexivity);
    unfold Debug.compare; simpl;
    try (destruct (GoType_eq_dec _ _); [congruence | ]);
    repeat split.
Qed.

(** C9, at the untyped nil: an ordering predicate one of whose operands
    is the untyped nil panics inside [reflect.Value.Type] with a
    [*reflect.ValueError]; it does not raise the assertion failure
    "requires comparable numeric types". *)
Theorem ordering_on_untyped_nil
        (env : Env) (st : runtime.Stack) (b : GoValue) :
  Debug.BeGreaterThan env st (Debug.Should VNil) b
  = Panicked (PValueError "reflect.Value.Type" Kind.Invalid) /\
  Debug.BeGreaterThan env st (Debug.Should (VInt I None 10)) VNil
  = Panicked (PValueError "reflect.Value.Type" Kind.Invalid) /\
  Debug.compare VNil b ">" = Panicked (PValueError "reflect.Value.Type"
                                                   Kind.Invalid) /\
  ~ raises (Debug.BeGreaterThan env st (Debug.Should VNil) b).
Proof.
  repeat split. intros [s H]. discriminate H.
Qed.

(** ** Deep equality *)

Lemma SFeqb_self (f : spec_float) : SFeqb f f = negb (is_nan f).
Proof.
  unfold SFeqb. destruct f as [s | s | | s m e]; simpl; try reflexivity.
  - destruct s; reflexivity.
  - rewrite Z.compare_refl.
    change (Pos.compare_cont Eq m m) with (Pos.compare m m).
    rewrite Pos.compare_refl. destruct s; reflexivity.
Qed.

Lemma sameType_self (v : GoValue) : v <> VNil -> sameType v v = true.
Proof.
  intros H. unfold sameType.
  destruct (typeOf v) as [t | ] eqn:T.
  - destruct (GoType_eq_dec t t); congruence.
  - exfalso. apply H, typeOf_None, T.
Qed.

(** Compared with itself, a value is deeply equal exactly when
    [selfEqual] holds. *)
Lemma deepValueEqual_self (v : GoValue) : deepValueEqual v v = selfEqual v.
Proof.
  induction v using GoValue_nested_ind;
    cbn [deepValueEqual selfEqual goEq];
    try (rewrite sameType_self by discriminate; cbn [andb]);
    try reflexivity.
  - apply Bool.eqb_reflx.
  - apply Z.eqb_refl.
  - apply Z.eqb_refl.
  - apply SFeqb_self.
  - rewrite !SFeqb_self. reflexivity.
  - apply String.eqb_refl.
  - apply Z.eqb_refl.
  - induction H as [ | x r Hx _ IH]; [reflexivity | ].
    rewrite Hx. destruct (selfEqual x); [exact IH | reflexivity].
  - destruct c as [[a n] | ]; [apply Z.eqb_refl | reflexivity].
  - destruct code; reflexivity.
  - rewrite <- IHv. destruct v; reflexivity.
  - rewrite Nat.eqb_refl, Z.eqb_refl. reflexivity.
  - rewrite Z.eqb_refl. reflexivity.
  - rewrite Nat.eqb_refl, Z.eqb_refl. reflexivity.
  - induction H as [ | x r Hx _ IH]; [reflexivity | ].
    rewrite Hx. destruct (selfEqual x); [exact IH | reflexivity].
Qed.

Lemma DeepEqual_self (v : GoValue) : DeepEqual v v = selfEqual v.
Proof.
  unfold DeepEqual. destruct v; try reflexivity;
    (rewrite sameType_self by discriminate; apply deepValueEqual_self).
Qed.

Lemma BeEqual_outcome (env : Env) (st : runtime.Stack)
      (a : Debug.Assertion) (w : GoValue) :
  (DeepEqual (Debug.value a) w = true ->
   passes (Debug.BeEqual env st a w) a /\
   raises (Debug.NotBeEqual env st a w)) /\
  (DeepEqual (Debug.value a) w = false ->
   raises (Debug.BeEqual env st a w) /\
   passes (Debug.NotBeEqual env st a w) a).
Proof.
  unfold Debug.BeEqual, Debug.NotBeEqual, passes.
  split; intros ->; cbn [negb Debug.when bind]; split;
    try reflexivity; apply failAssertion_raises.
Qed.

(** C4 (amended): in the active variant, for all values [v] and [w]
    exactly one of [BeEqual] and [NotBeEqual] passes on the pair and the
    other raises the fail-fast signal; and [BeEqual] on a holder
    capturing [v] with operand [v] passes (and [NotBeEqual] raises) for
    every [v], nested aggregates and containers included, that has no
    floating-point NaN and no function that is not nil among the parts
    compared by content (the value itself, the elements of arrays, the
    fields of structs, the dynamic values of interfaces); on a value that
    has one, [BeEqual] with itself raises and [NotBeEqual] passes. *)
Theorem BeEqual_reflexive_without_nan_and_func
        (env : Env) (st : runtime.Stack) (v w : GoValue) :
  let a := Debug.Should v in
  ((passes (Debug.BeEqual env st a w) a <->
    raises (Debug.NotBeEqual env st a w)) /\
   (passes (Debug.NotBeEqual env st a w) a <->
    raises (Debug.BeEqual env st a w))) /\
  (selfEqual v = true ->
   passes (Debug.BeEqual env st a v) a /\
   raises (Debug.NotBeEqual env st a v)) /\
  (selfEqual v = false ->
   raises (Debug.BeEqual env st a v) /\
   passes (Debug.NotBeEqual env st a v) a).
Proof.
  intros a. split; [ | split].
  - destruct (BeEqual_outcome env st a w) as [Ht Hf].
    destruct (DeepEqual (Debug.value a) w).
    + destruct (Ht eq_refl) as [Hp Hr].
      split; split; intros H; try assumption;
        exfalso; [exact (raises_not_passes _ _ Hr H) | ].
      destruct H as [s H]. rewrite Hp in H. discriminate H.
    + destruct (Hf eq_refl) as [Hr Hp].
      split; split; intros H; try assumption;
        exfalso; [exact (raises_not_passes _ _ Hr H) | ].
      destruct H as [s H]. rewrite Hp in H. discriminate H.
  - intros H. apply (BeEqual_outcome env st a v).
    subst a. cbn [Debug.Should Debug.value]. rewrite DeepEqual_self. exact H.
  - intros H. apply (BeEqual_outcome env st a v).
    subst a. cbn [Debug.Should Debug.value]. rewrite DeepEqual_self. exact H.
Qed.

(** The theorem at a struct that holds an array of strings, a pointer to
    a float64 NaN and a nil function. *)
Lemma BeEqual_reflexive_without_nan_and_func_witness :
  let v := VStruct "struct { Tags [2]string; P *float64; F func() }"
                   (Some "main.T")
                   [VArray (TString None) None
                           [VString None "a"; VString None "b"];
                    VPtr (TFloat F64 None) None (Some (4096, Sample.nan));
                    VFunc "func()" None None] in
  passes (Debug.BeEqual Sample.env Sample.stack (Debug.Should v) v)
         (Debug.Should v) /\
  raises (Debug.NotBeEqual Sample.env Sample.stack (Debug.Should v) v).
Proof.
  intros v.
  exact (proj1 (proj2 (BeEqual_reflexive_without_nan_and_func
                         Sample.env Sample.stack v v)) eq_refl).
Defined.

(** C4 as stated fails on a floating-point NaN and on a function that is
    not nil: [BeEqual] of the value with itself does not pass, and
    [NotBeEqual] does not raise. *)
Lemma BeEqual_not_reflexive_on_nan_and_func :
  let f := VFunc "func() bool" None (Some 4198400) in
  let a := Debug.Should Sample.nan in
  let b := Debug.Should f in
  ~ passes (Debug.BeEqual Sample.env Sample.stack a Sample.nan) a /\
  ~ raises (Debug.NotBeEqual Sample.env Sample.stack a Sample.nan) /\
  ~ passes (Debug.BeEqual Sample.env Sample.stack b f) b /\
  ~ raises (Debug.NotBeEqual Sample.env Sample.stack b f).
Proof.
  cbv zeta. repeat split; intros H;
    solve [ vm_compute in H; discriminate H
          | destruct H as [s H]; vm_compute in H; discriminate H ].
Qed.

(** ** The shape of the fail-fast payload *)

Section AssertionTier.

Variable env : Env.
Variable site : runtime.Frame.
Variable rest : runtime.Stack.

Lemma tier_returned {A : Type} (a : A) : assertionTier site (Returned a).
Proof. simpl. trivial. Qed.

Lemma tier_fail {A : Type} (l : Z) (format : string)
      (args : list GoValue) :
  assertionTier site
    (@Debug.failAssertion env A (Debug.at_line l :: site :: rest)
                          format args).
Proof. rewrite failAssertion_at. simpl. eexists. reflexivity. Qed.

Lemma tier_bind {A B : Type} (r : Result A) (k : A -> Result B) :
  assertionTier site r -> (forall x, assertionTier site (k x)) ->
  assertionTier site (bind r k).
Proof. destruct r; simpl; auto. Qed.

Lemma tier_when (c : bool) (body : Result unit) :
  assertionTier site body -> assertionTier site (Debug.when c body).
Proof. destruct c; simpl; auto. Qed.

Lemma compare_returns (a b : GoValue) (op : string) :
  a <> VNil -> b <> VNil ->
  exists r, Debug.compare a b op = Returned r.
Proof.
  intros Ha Hb. unfold Debug.compare, Debug.TypeOfValue.
  destruct (typeOf a) as [t1 | ] eqn:Ta;
    [ | exfalso; apply Ha, typeOf_None, Ta].
  destruct (typeOf b) as [t2 | ] eqn:Tb;
    [ | exfalso; apply Hb, typeOf_None, Tb].
  cbn [bind].
  match goal with
  | |- exists r, match ?i with Some _ => _ | None => _ end = _ =>
      destruct i; [eexists; reflexivity | ]
  end.
  match goal with
  | |- exists r, match ?i with Some _ => _ | None => _ end = _ =>
      destruct i; eexists; reflexivity
  end.
Qed.

End AssertionTier.

Ltac tier :=
  repeat first
    [ apply tier_returned
    | apply tier_fail
    | apply tier_when
    | apply tier_bind; [ | intros ? ]
    | match goal with
      | |- assertionTier _ (let (_, _) := ?x in _) => destruct x
      | |- assertionTier _ (if ?c then _ else _) => destruct c
      | |- assertionTier _ (match ?k with _ => _ end) => destruct k
      end ].

Lemma isVNil_false (v : GoValue) : isVNil v = false -> v <> VNil.
Proof. intros H ->. discriminate H. Qed.

Lemma tier_ordering (env : Env) (site : runtime.Frame)
      (rest : runtime.Stack) (a : Debug.Assertion) (x : GoValue) :
  isVNil (Debug.value a) || isVNil x = false ->
  assertionTier site (Debug.BeGreaterThan env (site :: rest) a x) /\
  assertionTier site (Debug.BeLessThan env (site :: rest) a x) /\
  assertionTier site (Debug.BeGreaterThanOrEqualTo env (site :: rest) a x) /\
  assertionTier site (Debug.BeLessThanOrEqualTo env (site :: rest) a x).
Proof.
  intros H. apply orb_false_iff in H. destruct H as [Ha Hx].
  apply isVNil_false in Ha, Hx.
  unfold Debug.BeGreaterThan, Debug.BeLessThan,
    Debug.BeGreaterThanOrEqualTo, Debug.BeLessThanOrEqualTo.
  repeat split;
    match goal with
    | |- assertionTier _ (bind (Debug.compare ?a ?b ?op) _) =>
        destruct (compare_returns a b op Ha Hx) as [r ->]
    end; cbn [bind]; tier.
Qed.
Lemma tier_BeErrorOfType (env : Env) (site : runtime.Frame)
      (rest : runtime.Stack) (a : Debug.Assertion) (target : GoValue) :
  nonNilError env (Debug.value a) && negb (properTarget env target) = false ->
  assertionTier site (Debug.BeErrorOfType env (site :: rest) a target).
Proof.
  unfold nonNilError, Debug.BeErrorOfType.
  destruct (Debug.assertError env (Debug.value a)) as [err ok].
  destruct (ok && negb (Debug.isNil err)) eqn:E; cbn [andb]; intros H.
  - apply negb_false_iff in H.
    apply andb_true_iff in E. destruct E as [-> E].
    apply negb_true_iff in E. rewrite E. cbn [negb orb Debug.when bind].
    unfold properTarget in H.
    apply andb_true_iff in H. destruct H as [H Hel].
    apply andb_true_iff in H. destruct H as [Hk Hn].
    apply negb_true_iff in Hn. rewrite Hk, Hn.
    cbn [negb orb Debug.when bind].
    unfold errors.As, Debug.TypeOfValue, Debug.Elem.
    unfold kindOf in Hk.
    destruct (typeOf target) as [t | ]; [ | discriminate Hel].
    rewrite Hk, Hn. cbn [negb orb bind].
    destruct (typeElem t) as [e | ]; [ | discriminate Hel].
    destruct (Kind.eqb (typeKind e) Kind.Interface) eqn:Ki;
      cbn [negb andb orb] in *.
    + destruct err; cbn [bind]; tier; congruence.
    + apply andb_true_iff in Hel. destruct Hel as [-> Hel].
      destruct (typeElem e) as [e2 | ] eqn:Te2; [ | discriminate Hel].
      cbn [negb bind].
      destruct err; cbn [bind]; tier; congruence.
  - replace (negb ok || Debug.isNil err) with true
      by (destruct ok, (Debug.isNil err); simpl in *; congruence).
    cbn [Debug.when bind]. apply tier_fail.
Qed.

Lemma tier_call (env : Env) (site : runtime.Frame) (rest : runtime.Stack)
      (c : Call) (a : Debug.Assertion) :
  outsideAssertionTier env c (Debug.value a) = false ->
  assertionTier site (debugCall env (site :: rest) c a).
Proof.
  intros H.
  destruct c; cbn [debugCall outsideAssertionTier] in *;
    try (apply tier_ordering; exact H);
    try (apply tier_BeErrorOfType; exact H);
    match goal with
    | |- assertionTier _ (?f _ _ _) => unfold f
    | |- assertionTier _ (?f _ _ _ _) => unfold f
    end; tier.
Qed.

(** C7 (amended): every fail-fast signal that a predicate raises as an
    assertion failure carries the string
    ["<file>:<line>: assertion failed: <message>"], where [<file>] is the
    last path segment of the source file, and [<line>] the line, of the
    call site of the failing predicate.  The panics outside this tier
    come from [BeErrorOfType] on a non-nil error whose target is not a
    non-nil pointer to an interface type or to an error type that has an
    element type, and from an ordering predicate with the untyped nil as
    an operand. *)
Theorem assertion_failure_diagnostic
        (env : Env) (site : runtime.Frame) (rest : runtime.Stack)
        (c : Call) (a : Debug.Assertion) (p : Payload) :
  outsideAssertionTier env c (Debug.value a) = false ->
  debugCall env (site :: rest) c a = Panicked p ->
  exists message : string,
    p = PString (diagnostic site message) /\
    diagnostic site message
    = lastSegment (runtime.file site) ++ ":"
      ++ fmt.itoa (runtime.line site) ++ ": assertion failed: " ++ message.
Proof.
  intros Hc Hp. pose proof (tier_call env site rest c a Hc) as H.
  rewrite Hp in H. destruct H as [m ->]. exists m.
  split; [reflexivity | ]. unfold diagnostic. rewrite !append_assoc.
  reflexivity.
Qed.

(** The theorem at [Should([]int{10, 10}).HaveLen(3)], called from
    [/home/dev/app/main.go:42]. *)
Lemma assertion_failure_diagnostic_witness :
  exists message : string,
    PString "main.go:42: assertion failed: should have length 3, but got 2: ([]int)"
    = PString (diagnostic Sample.site message) /\
    diagnostic Sample.site message
    = lastSegment (runtime.file Sample.site) ++ ":"
      ++ fmt.itoa (runtime.line Sample.site) ++ ": assertion failed: "
      ++ message.
Proof.
  exact (assertion_failure_diagnostic
           Sample.env Sample.site (tl Sample.stack) (CHaveLen 3)
           (Debug.Should
              (VSlice (TInt I None) None
                      (Some (4096, [Sample.i10; Sample.i10]))))
           _ eq_refl eq_refl).
Defined.

(** C7 as stated fails: [BeErrorOfType] with the target [nil] on the
    error [errors.New("x")] panics with a string that is not the
    diagnostic for its call site. *)
Lemma usage_error_is_not_a_diagnostic :
  ~ (forall p : Payload,
        debugCall Sample.env Sample.stack (CBeErrorOfType VNil)
                  (Debug.Should (Sample.New 4096 "x")) = Panicked p ->
        exists message : string,
          p = PString (diagnostic Sample.site message)).
Proof.
  intros H.
  destruct (H (PString (usageErrorWording ++ "<nil>")) eq_refl) as [m E].
  assert (E' : usageErrorWording ++ "<nil>" = diagnostic Sample.site m)
    by congruence.
  exact (usageError_not_diagnostic Sample.site "<nil>" m eq_refl E').
Qed.

(** ** The inert variant *)

Lemma releaseCall_returns_receiver (c : Call) (a : Release.Pointer) :
  releaseCall c a = Returned a.
Proof. destruct c; reflexivity. Qed.

Lemma releaseChain_returns_receiver (calls : list Call) :
  forall a : Release.Pointer, releaseChain a calls = Returned a.
Proof.
  induction calls as [ | c calls IH]; intros a; simpl.
  - reflexivity.
  - rewrite releaseCall_returns_receiver. simpl. apply IH.
Qed.

(** C1: in the inert variant every predicate method, on every receiver
    and with every argument, returns its receiver and does not panic; so
    every chain started by [Should] returns the handle [Should] gave,
    which is not nil.  This holds on inputs on which the active variant
    panics: a nil target of [BeErrorOfType], and a function returning
    false given to [TrueFn]. *)
Theorem release_never_raises
        (v : GoValue) (c : Call) (a : Release.Pointer) (calls : list Call) :
  releaseCall c a = Returned a /\
  panics (releaseCall c a) = false /\
  Release.Should v <> Release.Nil /\
  releaseChain (Release.Should v) calls = Returned (Release.Should v) /\
  (forall (env : Env) (st : runtime.Stack),
      panics (debugCall env st (CBeErrorOfType VNil) (Debug.Should v)) = true /\
      releaseCall (CBeErrorOfType VNil) (Release.Should v)
      = Returned (Release.Should v)) /\
  (forall (env : Env) (st : runtime.Stack),
      panics (debugCall env st (CTrueFn (fun _ => false)) (Debug.Should v))
      = true /\
      releaseCall (CTrueFn (fun _ => false)) (Release.Should v)
      = Returned (Release.Should v)).
Proof.
  split; [apply releaseCall_returns_receiver | ].
  split; [rewrite releaseCall_returns_receiver; reflexivity | ].
  split; [discriminate | ].
  split; [apply releaseChain_returns_receiver | ].
  split; intros env st; (split; [ | reflexivity]).
  - cbn [debugCall]. unfold Debug.BeErrorOfType.
    destruct (Debug.assertError env (Debug.value (Debug.Should v)))
      as [err ok].
    destruct (negb ok || Debug.isNil err); reflexivity.
  - reflexivity.
Qed.

(** ** The scenarios of the specification *)

(** The model on the calls the specification lists, made from
    [/home/dev/app/main.go:42]. *)

Example itoa_examples :
  fmt.itoa 0 = "0" /\ fmt.itoa 42 = "42" /\ fmt.itoa (-7) = "-7" /\
  fmt.itoa 1000 = "1000".
Proof. repeat split. Qed.

Example lastSegment_examples :
  lastSegment "/home/dev/app/main.go" = "main.go" /\
  lastSegment "main.go" = "main.go" /\
  lastSegment "a/b/" = "".
Proof. repeat split. Qed.

Example Should_nil_BeNil :
  Debug.BeNil Sample.env Sample.stack (Debug.Should VNil)
  = Returned (Debug.Should VNil).
Proof. reflexivity. Qed.

Example Should_new_int_BeNil :
  strings.Contains
    (Sample.message
       (Debug.BeNil Sample.env Sample.stack (Debug.Should Sample.newInt)))
    "should be nil" = true.
Proof. vm_compute. reflexivity. Qed.

Example Should_slice_HaveLen :
  strings.Contains
    (Sample.message
       (Debug.HaveLen Sample.env Sample.stack
          (Debug.Should (Sample.ints [1; 2])) 3))
    "should have length 3, but got 2" = true.
Proof. vm_compute. reflexivity. Qed.

Example Should_string_Contain :
  Debug.Contain Sample.env Sample.stack
    (Debug.Should (VString None "hello world")) (VString None "lo wor")
  = Returned (Debug.Should (VString None "hello world")).
Proof. vm_compute. reflexivity. Qed.

Example Should_int_Contain :
  strings.Contains
    (Sample.message
       (Debug.Contain Sample.env Sample.stack
          (Debug.Should (VInt I None 123)) (VInt I None 2)))
    "requires slice, array, or string" = true.
Proof. vm_compute. reflexivity. Qed.

Example Should_int_BeGreaterThan_float :
  Debug.BeGreaterThan Sample.env Sample.stack
    (Debug.Should Sample.i10) Sample.f9_5
  = Returned (Debug.Should Sample.i10).
Proof. vm_compute. reflexivity. Qed.

Example Should_string_BeGreaterThan_int :
  Sample.message
    (Debug.BeGreaterThan Sample.env Sample.stack
       (Debug.Should (VString None "10")) (VInt I None 9))
  = "main.go:42: assertion failed: BeGreaterThan requires comparable numeric types, got string and int".
Proof. vm_compute. reflexivity. Qed.

Example Should_error_NotBeError :
  Sample.message
    (Debug.NotBeError Sample.env Sample.stack
       (Debug.Should (Sample.New 4096 "x")))
  = "main.go:42: assertion failed: should not be an error, but got: x".
Proof. vm_compute. reflexivity. Qed.

Example Should_slice_Contain :
  Debug.Contain Sample.env Sample.stack
    (Debug.Should (Sample.ints [1; 2; 3])) (VInt I None 2)
  = Returned (Debug.Should (Sample.ints [1; 2; 3])) /\
  panics (Debug.Contain Sample.env Sample.stack
            (Debug.Should (Sample.ints [1; 2; 3])) (VInt I None 4)) = true.
Proof. split; vm_compute; reflexivity. Qed.

(** * Further properties of the active variant *)

(** ** Booleans, zero values and emptiness *)

Ltac decide_outcomes :=
  unfold passes, raises, Debug.failAssertion; simpl;
  repeat split;
  solve [ intros H; discriminate H
        | intros [s H]; discriminate H
        | intros _; reflexivity
        | intros _; eexists; reflexivity ].

(** X1: [BeTrue] passes exactly on the value [true] of type [bool], and
    [BeFalse] exactly on [false] of type [bool]; on every other value,
    a boolean of a defined type included, both raise the fail-fast
    signal. *)
Theorem BeTrue_BeFalse_exact
        (env : Env) (st : runtime.Stack) (v : GoValue) :
  let a := Debug.Should v in
  (passes (Debug.BeTrue env st a) a <-> v = VBool None true) /\
  (passes (Debug.BeFalse env st a) a <-> v = VBool None false) /\
  ((forall b : bool, v <> VBool None b) ->
   raises (Debug.BeTrue env st a) /\ raises (Debug.BeFalse env st a)).
Proof.
  cbv zeta. unfold Debug.BeTrue, Debug.BeFalse, passes.
  destruct v; try destruct d; try destruct b;
    cbn [Debug.Should Debug.value Debug.assertBool negb orb Debug.when bind];
    (split; [ | split]);
    try (split; intros H; solve [discriminate H | reflexivity]);
    try (intros H; split; apply failAssertion_raises);
    try (intros H; exfalso; eapply H; reflexivity).
Qed.

(** The theorem at the int [1], which is not a boolean. *)
Lemma BeTrue_BeFalse_exact_witness :
  raises (Debug.BeTrue Sample.env Sample.stack (Debug.Should (VInt I None 1)))
  /\ raises (Debug.BeFalse Sample.env Sample.stack
               (Debug.Should (VInt I None 1))).
Proof.
  apply (proj2 (proj2 (BeTrue_BeFalse_exact Sample.env Sample.stack
                         (VInt I None 1)))).
  intros b. discriminate.
Defined.

(** X2: for every captured value exactly one of [BeZero] and [NotBeZero]
    passes, and the other raises the fail-fast signal. *)
Theorem BeZero_NotBeZero_complement
        (env : Env) (st : runtime.Stack) (a : Debug.Assertion) :
  (passes (Debug.BeZero env st a) a <-> raises (Debug.NotBeZero env st a)) /\
  (passes (Debug.NotBeZero env st a) a <-> raises (Debug.BeZero env st a)).
Proof.
  unfold Debug.BeZero, Debug.NotBeZero.
  destruct (Debug.isZero (Debug.value a)); decide_outcomes.
Qed.

Lemma BeEmpty_passes_iff (env : Env) (st : runtime.Stack)
      (a : Debug.Assertion) :
  passes (Debug.BeEmpty env st a) a <->
  Debug.isNil (Debug.value a) = true \/
  Debug.getLength (Debug.value a) = (0, true).
Proof.
  unfold Debug.BeEmpty, passes.
  destruct (Debug.isNil (Debug.value a)).
  - split; [intros _; left | intros _]; reflexivity.
  - destruct (Debug.getLength (Debug.value a)) as [n ok].
    destruct ok; [destruct (n =? 0) eqn:E | ]; simpl.
    + apply Z.eqb_eq in E. subst n.
      split; [intros _; right | intros _]; reflexivity.
    + apply Z.eqb_neq in E.
      split; [intros H; discriminate H | intros [H | H]; congruence].
    + split; [intros H; discriminate H | intros [H | H]; congruence].
Qed.

Lemma NotBeEmpty_passes_iff (env : Env) (st : runtime.Stack)
      (a : Debug.Assertion) :
  passes (Debug.NotBeEmpty env st a) a <->
  ~ (Debug.isNil (Debug.value a) = true \/
     Debug.getLength (Debug.value a) = (0, true)).
Proof.
  unfold Debug.NotBeEmpty, passes.
  destruct (Debug.isNil (Debug.value a)).
  - simpl. split; [intros H; discriminate H | intros H; exfalso; auto].
  - destruct (Debug.getLength (Debug.value a)) as [n ok].
    destruct ok; [destruct (n =? 0) eqn:E | ]; simpl.
    + apply Z.eqb_eq in E. subst n.
      split; [intros H; discriminate H | intros H; exfalso; auto].
    + apply Z.eqb_neq in E.
      split; [intros _ [H | H]; congruence | reflexivity].
    + split; [intros _ [H | H]; congruence | reflexivity].
Qed.

Lemma returns_or_raises_BeEmpty (env : Env) (st : runtime.Stack)
      (a : Debug.Assertion) :
  passes (Debug.BeEmpty env st a) a \/ raises (Debug.BeEmpty env st a).
Proof.
  unfold Debug.BeEmpty, passes.
  destruct (Debug.isNil (Debug.value a)); [left; reflexivity | ].
  destruct (Debug.getLength (Debug.value a)) as [n ok].
  destruct ok; [destruct (n =? 0) | ]; simpl;
    solve [left; reflexivity | right; eexists; reflexivity].
Qed.

Lemma returns_or_raises_NotBeEmpty (env : Env) (st : runtime.Stack)
      (a : Debug.Assertion) :
  passes (Debug.NotBeEmpty env st a) a \/ raises (Debug.NotBeEmpty env st a).
Proof.
  unfold Debug.NotBeEmpty, passes.
  destruct (Debug.isNil (Debug.value a));
    [right; eexists; reflexivity | ].
  destruct (Debug.getLength (Debug.value a)) as [n ok].
  destruct ok; [destruct (n =? 0) | ]; simpl;
    solve [left; reflexivity | right; eexists; reflexivity].
Qed.

(** X3: [BeEmpty] passes exactly when the captured value is nil or is
    length-testable with length 0, and [NotBeEmpty] passes exactly when
    [BeEmpty] raises: on every value one of the two passes and the other
    raises.  In particular a value that is not nil and has no length (a
    number, a struct, a pointer that is not nil) is "not empty". *)
Theorem BeEmpty_NotBeEmpty_complement
        (env : Env) (st : runtime.Stack) (a : Debug.Assertion) :
  (passes (Debug.BeEmpty env st a) a <->
   Debug.isNil (Debug.value a) = true \/
   Debug.getLength (Debug.value a) = (0, true)) /\
  (passes (Debug.BeEmpty env st a) a <->
   raises (Debug.NotBeEmpty env st a)) /\
  (passes (Debug.NotBeEmpty env st a) a <->
   raises (Debug.BeEmpty env st a)).
Proof.
  pose proof (BeEmpty_passes_iff env st a) as HE.
  pose proof (NotBeEmpty_passes_iff env st a) as HN.
  pose proof (returns_or_raises_BeEmpty env st a) as [PE | RE];
    pose proof (returns_or_raises_NotBeEmpty env st a) as [PN | RN];
    (split; [exact HE | ]).
  - exfalso. apply HN in PN. apply PN, HE, PE.
  - split; split; intros H; try assumption.
    + exfalso. exact (raises_not_passes _ _ RN H).
    + exfalso. destruct H as [s H]. rewrite PE in H. discriminate H.
  - split; split; intros H; try assumption.
    + exfalso. exact (raises_not_passes _ _ RE H).
    + exfalso. destruct H as [s H]. rewrite PN in H. discriminate H.
  - exfalso.
    assert (NE : ~ passes (Debug.BeEmpty env st a) a)
      by exact (raises_not_passes _ _ RE).
    assert (NN : ~ passes (Debug.NotBeEmpty env st a) a)
      by exact (raises_not_passes _ _ RN).
    apply NN, HN. intros H. apply NE, HE, H.
Qed.

Lemma isNil_isZero (v : GoValue) :
  Debug.isNil v = true -> Debug.isZero v = true.
Proof.
  destruct v as [ | d b | k d n | k d n | k d f | k d re im | d s | d addr
                | e d es | e d c | sig d code | sig d dyn | k e d m | e d p
                | e d s | sig d fields ];
    simpl; try discriminate; try reflexivity; auto;
    destruct k; simpl; discriminate.
Qed.

Lemma isNil_length (v : GoValue) (n : Z) :
  Debug.isNil v = true -> Debug.getLength v = (n, true) -> n = 0.
Proof.
  destruct v as [ | d b | k d n' | k d n' | k d f | k d re im | d str | d addr
                | e d es | e d c | sig d code | sig d dyn | k e d m | e d p
                | e d sl | sig d fields ];
    try (destruct c as [[? ?] | ]); try (destruct m as [[? ?] | ]);
    try (destruct sl as [[? ?] | ]); try destruct k;
    simpl; intros H1 H2;
    try discriminate H1; try discriminate H2;
    injection H2 as <-; reflexivity.
Qed.

(** X4: a value on which [BeNil] passes is also zero and empty: [BeZero]
    and [BeEmpty] pass on it, and [NotBeNil], [NotBeZero] and
    [NotBeEmpty] raise the fail-fast signal. *)
Theorem nil_is_zero_and_empty
        (env : Env) (st : runtime.Stack) (a : Debug.Assertion) :
  passes (Debug.BeNil env st a) a ->
  passes (Debug.BeZero env st a) a /\
  passes (Debug.BeEmpty env st a) a /\
  raises (Debug.NotBeNil env st a) /\
  raises (Debug.NotBeZero env st a) /\
  raises (Debug.NotBeEmpty env st a).
Proof.
  unfold Debug.BeNil, Debug.BeZero, Debug.BeEmpty, Debug.NotBeNil,
    Debug.NotBeZero, Debug.NotBeEmpty, passes.
  destruct (Debug.isNil (Debug.value a)) eqn:E; simpl.
  - intros _. rewrite (isNil_isZero _ E). simpl.
    repeat split; eexists; reflexivity.
  - intros H. discriminate H.
Qed.

(** The theorem at a nil slice of ints. *)
Lemma nil_is_zero_and_empty_witness :
  let a := Debug.Should (VSlice (TInt I None) None None) in
  passes (Debug.BeZero Sample.env Sample.stack a) a /\
  passes (Debug.BeEmpty Sample.env Sample.stack a) a /\
  raises (Debug.NotBeNil Sample.env Sample.stack a) /\
  raises (Debug.NotBeZero Sample.env Sample.stack a) /\
  raises (Debug.NotBeEmpty Sample.env Sample.stack a).
Proof.
  intros a.
  exact (nil_is_zero_and_empty Sample.env Sample.stack a eq_refl).
Defined.

(** X5: on the untyped nil, on a value of a kind that can be nil and on a
    string, [BeZero] passing implies [BeEmpty] passing.  The implication
    fails on the other kinds: on the integer 0 [BeZero] passes and
    [BeEmpty] raises, and [BeEmpty] raises on every array that has an
    element, its elements being zero or not. *)
Theorem zero_is_empty_for_nilable_and_strings
        (env : Env) (st : runtime.Stack) :
  (forall a : Debug.Assertion,
      isVNil (Debug.value a) || nilableKind (kindOf (Debug.value a))
      || Kind.eqb (kindOf (Debug.value a)) Kind.String = true ->
      passes (Debug.BeZero env st a) a ->
      passes (Debug.BeEmpty env st a) a) /\
  (forall (k : IntKind) (d : TypeName),
      let a := Debug.Should (VInt k d 0) in
      passes (Debug.BeZero env st a) a /\ raises (Debug.BeEmpty env st a)) /\
  (forall (e : GoType) (d : TypeName) (x : GoValue) (xs : list GoValue),
      raises (Debug.BeEmpty env st (Debug.Should (VArray e d (x :: xs))))).
Proof.
  split; [ | split].
  - intros [v] Hk. cbn [Debug.value] in Hk.
    intros HZ. apply BeEmpty_passes_iff. cbn [Debug.value].
    unfold Debug.BeZero, passes in HZ. cbn [Debug.value] in HZ.
    destruct (Debug.isZero v) eqn:Z0; [clear HZ | discriminate HZ].
    destruct v; try discriminate Hk; try (destruct k; discriminate Hk);
      simpl in *; auto.
    right. apply Z.eqb_eq in Z0. rewrite Z0. reflexivity.
  - intros k d a. subst a. split.
    + reflexivity.
    + destruct k; eexists; reflexivity.
  - intros e d x xs. unfold Debug.BeEmpty.
    cbn [Debug.Should Debug.value Debug.isNil kindOf typeOf typeKind].
    cbn [Debug.getLength kindOf typeOf typeKind Len].
    replace (Z.of_nat (List.length (x :: xs)) =? 0) with false
      by (symmetry; apply Z.eqb_neq; simpl; lia).
    eexists. reflexivity.
Qed.

(** The theorem at the empty string. *)
Lemma zero_is_empty_for_nilable_and_strings_witness :
  passes (Debug.BeEmpty Sample.env Sample.stack
            (Debug.Should (VString None "")))
         (Debug.Should (VString None "")).
Proof.
  exact (proj1 (zero_is_empty_for_nilable_and_strings Sample.env Sample.stack)
               (Debug.Should (VString None "")) eq_refl eq_refl).
Defined.

(** X6: on a length-testable value of length [n], [HaveLen(m)] passes
    exactly for [m = n] and raises the fail-fast signal for every other
    [m]; and [BeEmpty] passes on it exactly when [HaveLen(0)] does. *)
Theorem HaveLen_exact
        (env : Env) (st : runtime.Stack) (a : Debug.Assertion) (n : Z) :
  Debug.getLength (Debug.value a) = (n, true) ->
  (forall m : Z,
      (passes (Debug.HaveLen env st a m) a <-> m = n) /\
      (m <> n -> raises (Debug.HaveLen env st a m))) /\
  (passes (Debug.BeEmpty env st a) a <-> passes (Debug.HaveLen env st a 0) a).
Proof.
  intros HL.
  assert (HM : forall m : Z,
             (passes (Debug.HaveLen env st a m) a <-> m = n) /\
             (m <> n -> raises (Debug.HaveLen env st a m))).
  { intros m. unfold Debug.HaveLen, passes. rewrite HL.
    destruct (n =? m) eqn:E; simpl.
    - apply Z.eqb_eq in E. subst m.
      split; [split; reflexivity | congruence].
    - apply Z.eqb_neq in E.
      split; [split; [intros H; discriminate H | congruence] | ].
      intros _. eexists. reflexivity. }
  split; [exact HM | ].
  rewrite BeEmpty_passes_iff, HL. destruct (HM 0) as [H0 _]. rewrite H0.
  split.
  - intros [H | H]; [ | congruence].
    symmetry. exact (isNil_length _ _ H HL).
  - intros <-. right. reflexivity.
Qed.

(** The theorem at the slice [[]int{1, 2}]. *)
Lemma HaveLen_exact_witness :
  let a := Debug.Should (Sample.ints [1; 2]) in
  (forall m : Z,
      (passes (Debug.HaveLen Sample.env Sample.stack a m) a <-> m = 2) /\
      (m <> 2 -> raises (Debug.HaveLen Sample.env Sample.stack a m))) /\
  (passes (Debug.BeEmpty Sample.env Sample.stack a) a <->
   passes (Debug.HaveLen Sample.env Sample.stack a 0) a).
Proof.
  intros a. exact (HaveLen_exact Sample.env Sample.stack a 2 eq_refl).
Defined.

(** ** Containment *)

Lemma scan_exists (es : list GoValue) (x : GoValue) :
  Debug.scan es x = true <->
  exists e : GoValue, In e es /\ DeepEqual (Debug.Interface e) x = true.
Proof.
  induction es as [ | e es IH]; simpl.
  - split; [intros H; discriminate H | intros [e [[] _]]].
  - destruct (DeepEqual (Debug.Interface e) x) eqn:E.
    + split; [intros _; exists e; auto | reflexivity].
    + rewrite IH. split.
      * intros [e' [Hin He]]. exists e'. auto.
      * intros [e' [[<- | Hin] He]]; [congruence | exists e'; auto].
Qed.

(** X7: on a captured slice or array, [Contain(x)] passes exactly when
    some element, taken as a value of type [any], is deeply equal to
    [x]; [NotContain(x)] passes exactly when [Contain(x)] raises the
    fail-fast signal, and conversely.  On a nil or empty slice [Contain]
    therefore always raises and [NotContain] always passes. *)
Theorem Contain_on_sequences
        (env : Env) (st : runtime.Stack) (a : Debug.Assertion) (x : GoValue) :
  Kind.eqb (kindOf (Debug.value a)) Kind.Slice
  || Kind.eqb (kindOf (Debug.value a)) Kind.Array = true ->
  (passes (Debug.Contain env st a x) a <->
   exists e : GoValue,
     In e (Debug.elements (Debug.value a)) /\
     DeepEqual (Debug.Interface e) x = true) /\
  (passes (Debug.Contain env st a x) a <->
   raises (Debug.NotContain env st a x)) /\
  (passes (Debug.NotContain env st a x) a <->
   raises (Debug.Contain env st a x)) /\
  (Debug.elements (Debug.value a) = [] ->
   raises (Debug.Contain env st a x) /\
   passes (Debug.NotContain env st a x) a).
Proof.
  intros Hk. rewrite <- scan_exists.
  unfold Debug.Contain, Debug.NotContain, passes, raises.
  destruct (kindOf (Debug.value a)); try discriminate Hk;
    destruct (Debug.scan (Debug.elements (Debug.value a)) x) eqn:E;
    cbn [negb Debug.when bind];
    repeat split;
    solve [ intros H; discriminate H
          | intros [s H]; discriminate H
          | intros _; reflexivity
          | intros _; eexists; reflexivity
          | match goal with
            | Hn : Debug.elements _ = [] |- _ =>
                rewrite Hn in E; discriminate E
            end
          | eexists; reflexivity
          | reflexivity ].
Qed.

(** The theorem at the slice [[]int{1, 2, 3}] and the element [2]. *)
Lemma Contain_on_sequences_witness :
  let a := Debug.Should (Sample.ints [1; 2; 3]) in
  passes (Debug.Contain Sample.env Sample.stack a (VInt I None 2)) a <->
  exists e : GoValue,
    In e (Debug.elements (Debug.value a)) /\
    DeepEqual (Debug.Interface e) (VInt I None 2) = true.
Proof.
  intros a.
  exact (proj1 (Contain_on_sequences Sample.env Sample.stack a
                  (VInt I None 2) eq_refl)).
Defined.

(** X8: [Contain] and [NotContain] both raise the fail-fast signal, with
    the same reason, when the captured value has no supported kind (it is
    not a string, slice or array: a map, a number, the untyped nil), and
    when it is a string while the operand is not of type [string]. *)
Theorem Contain_unsupported
        (env : Env) (site : runtime.Frame) (rest : runtime.Stack)
        (a : Debug.Assertion) (x : GoValue) :
  (Kind.eqb (kindOf (Debug.value a)) Kind.String
   || Kind.eqb (kindOf (Debug.value a)) Kind.Slice
   || Kind.eqb (kindOf (Debug.value a)) Kind.Array = false ->
   Debug.Contain env (site :: rest) a x
   = Panicked (PString (diagnostic site
       ("Contain requires slice, array, or string, got "
        ++ fmt.typeName (Debug.value a)))) /\
   Debug.NotContain env (site :: rest) a x
   = Panicked (PString (diagnostic site
       ("NotContain requires slice, array, or string, got "
        ++ fmt.typeName (Debug.value a))))) /\
  (Kind.eqb (kindOf (Debug.value a)) Kind.String = true ->
   snd (Debug.assertString x) = false ->
   Debug.Contain env (site :: rest) a x
   = Panicked (PString (diagnostic site
       ("Contain expected a string element for string value, got "
        ++ fmt.typeName x))) /\
   Debug.NotContain env (site :: rest) a x
   = Panicked (PString (diagnostic site
       ("NotContain expected a string element for string value, got "
        ++ fmt.typeName x)))).
Proof.
  unfold Debug.Contain, Debug.NotContain. split.
  - intros Hk.
    destruct (kindOf (Debug.value a)); try discriminate Hk;
      cbn [bind]; rewrite !failAssertion_at;
      unfold Debug.Sprintf; cbn [fmt.Sprintf fmt.verb];
      rewrite !append_empty_r; split; reflexivity.
  - intros Hk Hx.
    destruct (kindOf (Debug.value a)); try discriminate Hk.
    destruct (Debug.assertString x) as [sub ok]. simpl in Hx. subst ok.
    cbn [negb Debug.when bind]. rewrite !failAssertion_at.
    unfold Debug.Sprintf; cbn [fmt.Sprintf fmt.verb].
    rewrite !append_empty_r. split; reflexivity.
Qed.

(** The theorem at the int [123] with the operand [2], and at the string
    ["abc"] with the operand [1]. *)
Lemma Contain_unsupported_witness :
  Debug.Contain Sample.env Sample.stack (Debug.Should (VInt I None 123))
                (VInt I None 2)
  = Panicked (PString
      "main.go:42: assertion failed: Contain requires slice, array, or string, got int")
  /\
  Debug.Contain Sample.env Sample.stack (Debug.Should (VString None "abc"))
                (VInt I None 1)
  = Panicked (PString
      "main.go:42: assertion failed: Contain expected a string element for string value, got int").
Proof.
  split.
  - exact (proj1 (proj1 (Contain_unsupported
                           Sample.env Sample.site (tl Sample.stack)
                           (Debug.Should (VInt I None 123)) (VInt I None 2))
                        eq_refl)).
  - exact (proj1 (proj2 (Contain_unsupported
                           Sample.env Sample.site (tl Sample.stack)
                           (Debug.Should (VString None "abc"))
                           (VInt I None 1))
                        eq_refl eq_refl)).
Defined.

(** ** Strings *)

Lemma prefix_iff (p : string) :
  forall s : string, String.prefix p s = true <-> exists r, s = p ++ r.
Proof.
  induction p as [ | c p IH]; intros s.
  - destruct s; simpl; split; intros _; eauto.
  - destruct s as [ | c' s]; simpl.
    + split; [intros H; discriminate H | intros [r H]; discriminate H].
    + destruct (ascii_dec c c') as [<- | Hne].
      * rewrite IH. split; intros [r H]; exists r; congruence.
      * split; [intros H; discriminate H | intros [r H]; congruence].
Qed.

Lemma Contains_unfold (s sub : string) :
  strings.Contains s sub
  = if String.prefix sub s then true
    else match s with
         | EmptyString => false
         | String _ r => strings.Contains r sub
         end.
Proof. destruct s; reflexivity. Qed.

Lemma Contains_iff (s sub : string) :
  strings.Contains s sub = true <->
  exists pre post : string, s = pre ++ sub ++ post.
Proof.
  split.
  - induction s as [ | c s IH]; rewrite Contains_unfold;
      destruct (String.prefix sub _) eqn:E.
    + intros _. apply prefix_iff in E. destruct E as [r E].
      exists "", r. exact E.
    + intros H. discriminate H.
    + intros _. apply prefix_iff in E. destruct E as [r E].
      exists "", r. exact E.
    + intros H. destruct (IH H) as (pre & post & ->).
      exists (String c pre), post. reflexivity.
  - intros (pre & post & ->).
    induction pre as [ | c pre IH]; rewrite Contains_unfold.
    + replace (String.prefix sub ("" ++ sub ++ post)) with true;
        [reflexivity | ].
      symmetry. apply prefix_iff. exists post. reflexivity.
    + destruct (String.prefix sub _); [reflexivity | exact IH].
Qed.

Lemma string_length_app (a b : string) :
  String.length (a ++ b) = (String.length a + String.length b)%nat.
Proof. induction a as [ | c a IH]; simpl; [ | rewrite IH]; reflexivity. Qed.

Lemma drop_app (a b : string) : strings.drop (String.length a) (a ++ b) = b.
Proof. induction a as [ | c a IH]; simpl; [destruct b | ]; auto. Qed.

Lemma drop_split (n : nat) :
  forall s : string,
    (n <= String.length s)%nat -> exists pre, s = pre ++ strings.drop n s.
Proof.
  induction n as [ | n IH]; intros s H.
  - exists "". destruct s; reflexivity.
  - destruct s as [ | c s]; simpl in H; [lia | ].
    destruct (IH s ltac:(lia)) as [pre E].
    exists (String c pre). simpl. rewrite <- E. reflexivity.
Qed.

Lemma HasSuffix_iff (s suf : string) :
  strings.HasSuffix s suf = true <-> exists pre : string, s = pre ++ suf.
Proof.
  unfold strings.HasSuffix. rewrite andb_true_iff, Nat.leb_le, String.eqb_eq.
  split.
  - intros [Hle Hd].
    destruct (drop_split (String.length s - String.length suf) s
                         ltac:(lia)) as [pre E].
    exists pre. rewrite Hd in E. exact E.
  - intros [pre ->]. rewrite string_length_app. split; [lia | ].
    replace (String.length pre + String.length suf - String.length suf)%nat
      with (String.length pre) by lia.
    apply drop_app.
Qed.

Lemma string_predicates_spec
        (env : Env) (st : runtime.Stack) (s x : string) :
  let a := Debug.Should (VString None s) in
  (passes (Debug.HavePrefix env st a x) a <-> exists r, s = x ++ r) /\
  (passes (Debug.HaveSuffix env st a x) a <-> exists p, s = p ++ x) /\
  (passes (Debug.ContainSubstring env st a x) a <->
   exists p r, s = p ++ x ++ r) /\
  (passes (Debug.Contain env st a (VString None x)) a <->
   exists p r, s = p ++ x ++ r).
Proof.
  cbv zeta.
  rewrite <- Contains_iff, <- HasSuffix_iff, <- prefix_iff.
  unfold Debug.HavePrefix, Debug.HaveSuffix, Debug.ContainSubstring,
    Debug.Contain, passes, strings.HasPrefix.
  cbn [Debug.Should Debug.value Debug.assertString negb Debug.when bind
       kindOf typeOf typeKind Debug.stringOf].
  destruct (String.prefix x s), (strings.HasSuffix s x),
    (strings.Contains s x); cbn [negb Debug.when bind];
    repeat split;
    solve [ intros H; discriminate H | intros _; reflexivity ].
Qed.

(** X9: on a captured value of type [string], [HavePrefix(x)] passes
    exactly when the string is [x] followed by something, [HaveSuffix(x)]
    exactly when it is something followed by [x], and
    [ContainSubstring(x)], like [Contain] with the string [x], exactly
    when [x] occurs in it. *)
Theorem string_predicates_exact
        (env : Env) (st : runtime.Stack) (s x : string) :
  let a := Debug.Should (VString None s) in
  (passes (Debug.HavePrefix env st a x) a <-> exists r, s = x ++ r) /\
  (passes (Debug.HaveSuffix env st a x) a <-> exists p, s = p ++ x) /\
  (passes (Debug.ContainSubstring env st a x) a <->
   exists p r, s = p ++ x ++ r) /\
  (passes (Debug.Contain env st a (VString None x)) a <->
   exists p r, s = p ++ x ++ r).
Proof. exact (string_predicates_spec env st s x). Qed.

(** X10: the string predicates compose: wherever [HavePrefix(x)] or
    [HaveSuffix(x)] passes, [ContainSubstring(x)] passes, and wherever
    [ContainSubstring(x)] passes, [Contain] with the string [x] passes;
    with the empty string all of them pass on every captured value of
    type [string]. *)
Theorem string_predicates_compose
        (env : Env) (st : runtime.Stack) (a : Debug.Assertion) (x : string) :
  (passes (Debug.HavePrefix env st a x) a ->
   passes (Debug.ContainSubstring env st a x) a) /\
  (passes (Debug.HaveSuffix env st a x) a ->
   passes (Debug.ContainSubstring env st a x) a) /\
  (passes (Debug.ContainSubstring env st a x) a ->
   passes (Debug.Contain env st a (VString None x)) a) /\
  (forall s : string,
      let b := Debug.Should (VString None s) in
      passes (Debug.HavePrefix env st b "") b /\
      passes (Debug.HaveSuffix env st b "") b /\
      passes (Debug.ContainSubstring env st b "") b).
Proof.
  split; [ | split; [ | split]].
  - destruct a as [v].
    destruct v as [ | | | | | | d s | | | | | | | | | ];
      try (intros H; discriminate H).
    destruct d; [intros H; discriminate H | ].
    intros H.
    apply (string_predicates_spec env st s x) in H.
    apply (string_predicates_spec env st s x).
    destruct H as [r ->]. exists "", r. reflexivity.
  - destruct a as [v].
    destruct v as [ | | | | | | d s | | | | | | | | | ];
      try (intros H; discriminate H).
    destruct d; [intros H; discriminate H | ].
    intros H.
    apply (string_predicates_spec env st s x) in H.
    apply (string_predicates_spec env st s x).
    destruct H as [p ->]. exists p, "". rewrite append_empty_r. reflexivity.
  - destruct a as [v].
    destruct v as [ | | | | | | d s | | | | | | | | | ];
      try (intros H; discriminate H).
    destruct d; [intros H; discriminate H | ].
    intros H.
    apply (string_predicates_spec env st s x) in H.
    apply (string_predicates_spec env st s x). exact H.
  - intros s b. subst b. repeat split.
    + apply (string_predicates_spec env st s ""). exists s. reflexivity.
    + apply (string_predicates_spec env st s ""). exists s.
      rewrite append_empty_r. reflexivity.
    + apply (string_predicates_spec env st s ""). exists "", s. reflexivity.
Qed.

(** X11: on a captured string of a defined type ([type Name string])
    [ContainSubstring], [HavePrefix] and [HaveSuffix] raise the fail-fast
    signal "requires a string value", whatever the operand, while
    [Contain] with a string operand tests for the substring. *)
Theorem string_of_defined_type
        (env : Env) (site : runtime.Frame) (rest : runtime.Stack)
        (name s x : string) :
  let a := Debug.Should (VString (Some name) s) in
  Debug.ContainSubstring env (site :: rest) a x
  = Panicked (PString (diagnostic site
      ("ContainSubstring requires a string value, got " ++ name))) /\
  Debug.HavePrefix env (site :: rest) a x
  = Panicked (PString (diagnostic site
      ("HavePrefix requires a string value, got " ++ name))) /\
  Debug.HaveSuffix env (site :: rest) a x
  = Panicked (PString (diagnostic site
      ("HaveSuffix requires a string value, got " ++ name))) /\
  (passes (Debug.Contain env (site :: rest) a (VString None x)) a <->
   exists p r, s = p ++ x ++ r).
Proof.
  cbv zeta.
  unfold Debug.ContainSubstring, Debug.HavePrefix, Debug.HaveSuffix.
  cbn [Debug.Should Debug.value Debug.assertString negb Debug.when bind].
  rewrite !failAssertion_at.
  unfold Debug.Sprintf; cbn [fmt.Sprintf fmt.verb].
  rewrite !append_empty_r.
  repeat (split; [reflexivity | ]).
  rewrite <- Contains_iff. unfold Debug.Contain, passes.
  cbn [Debug.Should Debug.value Debug.assertString negb Debug.when bind
       kindOf typeOf typeKind Debug.stringOf].
  destruct (strings.Contains s x); cbn [negb Debug.when bind];
    split; solve [ intros H; discriminate H | intros _; reflexivity ].
Qed.

(** ** Errors *)

Lemma BeError_passes_iff (env : Env) (st : runtime.Stack)
      (a : Debug.Assertion) :
  passes (Debug.BeError env st a) a <->
  nonNilError env (Debug.value a) = true.
Proof.
  unfold Debug.BeError, nonNilError, passes, Debug.assertError.
  destruct (typeOf (Debug.value a)) as [t | ] eqn:T.
  - destruct (implementsError env t), (Debug.isNil (Debug.value a));
      simpl; split; intros H; solve [discriminate H | reflexivity].
  - apply typeOf_None in T. rewrite T. simpl.
    split; intros H; discriminate H.
Qed.

Lemma BeError_returns_or_raises (env : Env) (st : runtime.Stack)
      (a : Debug.Assertion) :
  (nonNilError env (Debug.value a) = true ->
   passes (Debug.BeError env st a) a /\ raises (Debug.NotBeError env st a))
  /\
  (nonNilError env (Debug.value a) = false ->
   raises (Debug.BeError env st a) /\ passes (Debug.NotBeError env st a) a).
Proof.
  unfold Debug.BeError, Debug.NotBeError, nonNilError, passes, raises,
    Debug.assertError.
  destruct (typeOf (Debug.value a)) as [t | ] eqn:T.
  - destruct (implementsError env t), (Debug.isNil (Debug.value a));
      simpl; split; intros H; try discriminate H;
      split; solve [reflexivity | eexists; reflexivity].
  - apply typeOf_None in T. rewrite T. simpl.
    split; intros H; try discriminate H.
    split; [eexists; reflexivity | reflexivity].
Qed.

(** X12: [BeError] passes exactly on a non-nil error (a value whose type
    implements [error] and which is not nil), and [NotBeError] passes
    exactly when [BeError] raises: on every value one passes and the
    other raises.  A nil pointer of an error type is not an error for
    [BeError] and passes [NotBeError]. *)
Theorem BeError_NotBeError_complement
        (env : Env) (st : runtime.Stack) (a : Debug.Assertion) :
  (passes (Debug.BeError env st a) a <->
   nonNilError env (Debug.value a) = true) /\
  (passes (Debug.BeError env st a) a <->
   raises (Debug.NotBeError env st a)) /\
  (passes (Debug.NotBeError env st a) a <->
   raises (Debug.BeError env st a)) /\
  (forall (e : GoType) (d : TypeName),
      let p := Debug.Should (VPtr e d None) in
      raises (Debug.BeError env st p) /\
      passes (Debug.NotBeError env st p) p).
Proof.
  split; [apply BeError_passes_iff | ].
  destruct (BeError_returns_or_raises env st a) as [Ht Hf].
  split; [ | split].
  - destruct (nonNilError env (Debug.value a)).
    + destruct (Ht eq_refl) as [P R]. split; auto.
    + destruct (Hf eq_refl) as [R P]. split; intros H.
      * exfalso. exact (raises_not_passes _ _ R H).
      * exfalso. exact (raises_not_passes _ _ H P).
  - destruct (nonNilError env (Debug.value a)).
    + destruct (Ht eq_refl) as [P R]. split; intros H.
      * exfalso. exact (raises_not_passes _ _ R H).
      * exfalso. exact (raises_not_passes _ _ H P).
    + destruct (Hf eq_refl) as [R P]. split; auto.
  - intros e d p.
    apply (BeError_returns_or_raises env st p).
    unfold nonNilError, Debug.assertError. subst p.
    cbn [Debug.Should Debug.value typeOf].
    destruct (implementsError env (TPtr e d)); reflexivity.
Qed.

Lemma Contains_empty (m : string) : strings.Contains m "" = true.
Proof. rewrite Contains_unfold. destruct m; reflexivity. Qed.

Lemma BeErrorWithMessage_passes_iff (env : Env) (st : runtime.Stack)
      (a : Debug.Assertion) (s : string) :
  passes (Debug.BeErrorWithMessage env st a s) a <->
  nonNilError env (Debug.value a) = true /\
  strings.Contains (Error env (Debug.value a)) s = true.
Proof.
  unfold Debug.BeErrorWithMessage, nonNilError, passes, Debug.assertError.
  destruct (typeOf (Debug.value a)) as [t | ] eqn:T.
  - destruct (implementsError env t), (Debug.isNil (Debug.value a));
      cbn [negb orb andb Debug.when bind];
      try (split; [intros H; discriminate H | intros [H _]; discriminate H]).
    destruct (strings.Contains (Error env (Debug.value a)) s);
      cbn [negb Debug.when bind]; split;
      solve [ intros _; split; reflexivity
            | intros H; discriminate H
            | intros [_ H]; discriminate H
            | intros _; reflexivity ].
  - apply typeOf_None in T. rewrite T. simpl.
    split; [intros H; discriminate H | intros [H _]; discriminate H].
Qed.

(** X13: [BeErrorWithMessage(s)] passes exactly when the captured value
    is a non-nil error whose message contains [s].  So it passes only
    where [BeError] passes, and with the empty string it passes exactly
    where [BeError] does. *)
Theorem BeErrorWithMessage_exact
        (env : Env) (st : runtime.Stack) (a : Debug.Assertion) (s : string) :
  (passes (Debug.BeErrorWithMessage env st a s) a <->
   nonNilError env (Debug.value a) = true /\
   exists p r, Error env (Debug.value a) = p ++ s ++ r) /\
  (passes (Debug.BeErrorWithMessage env st a s) a ->
   passes (Debug.BeError env st a) a) /\
  (passes (Debug.BeErrorWithMessage env st a "") a <->
   passes (Debug.BeError env st a) a).
Proof.
  split; [ | split].
  - rewrite BeErrorWithMessage_passes_iff, Contains_iff. reflexivity.
  - rewrite BeErrorWithMessage_passes_iff, BeError_passes_iff.
    intros [H _]. exact H.
  - rewrite BeErrorWithMessage_passes_iff, BeError_passes_iff, Contains_empty.
    split; [intros [H _]; exact H | intros H; split; [exact H | reflexivity]].
Qed.

Lemma isNil_false_not_VNil (v : GoValue) : Debug.isNil v = false -> v <> VNil.
Proof. intros H ->. discriminate H. Qed.

Lemma nonNilError_assertError (env : Env) (v : GoValue) :
  nonNilError env v = true ->
  Debug.assertError env v = (v, true) /\ Debug.isNil v = false.
Proof.
  unfold nonNilError, Debug.assertError.
  destruct (typeOf v) as [t | ]; [ | intros H; discriminate H].
  destruct (implementsError env t); [ | intros H; discriminate H].
  cbn [andb]. intros H. apply negb_true_iff in H. split; [reflexivity | exact H].
Qed.

Lemma BeErrorOfType_proper (env : Env) (st : runtime.Stack)
      (a : Debug.Assertion) (target : GoValue) :
  nonNilError env (Debug.value a) = true ->
  properTarget env target = true ->
  (asChain env (Debug.value a) target = true ->
   passes (Debug.BeErrorOfType env st a target) a) /\
  (asChain env (Debug.value a) target = false ->
   raises (Debug.BeErrorOfType env st a target)).
Proof.
  intros He Ht. destruct (nonNilError_assertError _ _ He) as [EA EN].
  unfold Debug.BeErrorOfType, passes, raises. rewrite EA, EN.
  cbn [negb orb Debug.when bind].
  unfold properTarget in Ht.
  apply andb_true_iff in Ht. destruct Ht as [Ht Hel].
  apply andb_true_iff in Ht. destruct Ht as [Hk Hn].
  apply negb_true_iff in Hn. rewrite Hk, Hn.
  cbn [negb orb Debug.when bind].
  unfold errors.As, Debug.TypeOfValue, Debug.Elem.
  unfold kindOf in Hk.
  destruct (typeOf target) as [t | ]; [ | discriminate Hel].
  rewrite Hk, Hn. cbn [negb orb bind].
  destruct (typeElem t) as [e | ]; [ | discriminate Hel].
  assert (HA : negb (Kind.eqb (typeKind e) Kind.Interface)
               && negb (implementsError env e) = false).
  { destruct (Kind.eqb (typeKind e) Kind.Interface); [reflexivity | ].
    cbn [orb] in Hel. apply andb_true_iff in Hel. destruct Hel as [-> _].
    reflexivity. }
  rewrite HA.
  assert (HV : forall (X : Type) (k : bool -> Result X),
             bind match Debug.value a with
                  | VNil => Returned false
                  | _ => Returned (asChain env (Debug.value a) target)
                  end k
             = k (asChain env (Debug.value a) target)).
  { intros X k.
    pose proof (isNil_false_not_VNil _ EN) as NV.
    destruct (Debug.value a); try reflexivity. congruence. }
  split; intros Hc; rewrite HV, Hc; cbn [negb Debug.when bind].
  - reflexivity.
  - destruct (Kind.eqb (typeKind e) Kind.Interface) eqn:Ki.
    + cbn [bind]. eexists. reflexivity.
    + cbn [orb] in Hel. apply andb_true_iff in Hel. destruct Hel as [_ Hel].
      destruct (typeElem e) as [e2 | ] eqn:Te2; [ | discriminate Hel].
      cbn [bind].
      destruct (negb (Kind.eqb (typeKind e2) Kind.Invalid));
        eexists; reflexivity.
Qed.

Lemma BeErrorOfType_needs_error (env : Env) (st : runtime.Stack)
      (a : Debug.Assertion) (target : GoValue) :
  passes (Debug.BeErrorOfType env st a target) a ->
  nonNilError env (Debug.value a) = true.
Proof.
  unfold Debug.BeErrorOfType, nonNilError, passes.
  destruct (Debug.assertError env (Debug.value a)) as [err ok].
  destruct ok, (Debug.isNil err); simpl; intros H;
    solve [reflexivity | discriminate H].
Qed.

(** X14: [BeErrorOfType] passes only on a non-nil error, so only where
    [BeError] passes.  With a target that is a non-nil pointer to an
    interface type or to a pointer type implementing [error], it passes
    on a non-nil error exactly when [errors.As] finds a matching error in
    its chain, and raises the fail-fast signal otherwise. *)
Theorem BeErrorOfType_exact
        (env : Env) (st : runtime.Stack) (a : Debug.Assertion)
        (target : GoValue) :
  (passes (Debug.BeErrorOfType env st a target) a ->
   passes (Debug.BeError env st a) a) /\
  (properTarget env target = true ->
   (passes (Debug.BeErrorOfType env st a target) a <->
    nonNilError env (Debug.value a) = true /\
    asChain env (Debug.value a) target = true) /\
   (nonNilError env (Debug.value a) = true ->
    asChain env (Debug.value a) target = false ->
    raises (Debug.BeErrorOfType env st a target))).
Proof.
  split.
  - intros H. apply BeError_passes_iff.
    exact (BeErrorOfType_needs_error env st a target H).
  - intros Ht. split.
    + split.
      * intros H.
        pose proof (BeErrorOfType_needs_error env st a target H) as He.
        split; [exact He | ].
        destruct (BeErrorOfType_proper env st a target He Ht) as [_ Hf].
        destruct (asChain env (Debug.value a) target); [reflexivity | ].
        exfalso. exact (raises_not_passes _ _ (Hf eq_refl) H).
      * intros [He Hc].
        exact (proj1 (BeErrorOfType_proper env st a target He Ht) Hc).
    + intros He Hc.
      exact (proj2 (BeErrorOfType_proper env st a target He Ht) Hc).
Qed.

(** The theorem at the error [errors.New("x")] with a target of type
    [**errors.errorString]. *)
Lemma BeErrorOfType_exact_witness :
  let a := Debug.Should (Sample.New 4096 "x") in
  let target := VPtr Sample.errorString None
                     (Some (8192, VPtr Sample.errorStringStruct None None)) in
  passes (Debug.BeErrorOfType Sample.env Sample.stack a target) a <->
  nonNilError Sample.env (Debug.value a) = true /\
  asChain Sample.env (Debug.value a) target = true.
Proof.
  intros a target.
  exact (proj1 (proj2 (BeErrorOfType_exact Sample.env Sample.stack a target)
                      eq_refl)).
Defined.

(** ** Ordering *)

Lemma Zgtb_geb (n m : Z) : (n >? m) = true -> (n >=? m) = true.
Proof. rewrite Z.gtb_ltb, Z.geb_leb, Z.ltb_lt, Z.leb_le. lia. Qed.

Lemma Zltb_leb (n m : Z) : (n <? m) = true -> (n <=? m) = true.
Proof. rewrite Z.ltb_lt, Z.leb_le. lia. Qed.

Lemma SFltb_SFleb (x y : spec_float) : SFltb x y = true -> SFleb x y = true.
Proof.
  unfold SFltb, SFleb. destruct (SFcompare x y) as [[ | | ] | ];
    intros H; solve [reflexivity | discriminate H].
Qed.

Lemma fgt_fge (x y : spec_float) :
  Debug.fgt x y = true -> Debug.fge x y = true.
Proof. apply SFltb_SFleb. Qed.

Lemma flt_fle (x y : spec_float) :
  Debug.flt x y = true -> Debug.fle x y = true.
Proof. apply SFltb_SFleb. Qed.

Lemma flt_not_fge (x y : spec_float) :
  is_nan x = false -> is_nan y = false ->
  Debug.flt x y = negb (Debug.fge x y).
Proof. intros Hx Hy. exact (fgt_not_fle y x Hy Hx). Qed.

Lemma nan_all_false (x y : spec_float) :
  is_nan x || is_nan y = true ->
  Debug.fgt x y = false /\ Debug.flt x y = false /\
  Debug.fge x y = false /\ Debug.fle x y = false.
Proof.
  unfold Debug.fgt, Debug.flt, Debug.fge, Debug.fle, SFltb, SFleb.
  destruct x, y; simpl; intros H; try discriminate H; repeat split.
Qed.

(** What [compare] answers on two numeric operands, in both orders. *)
Lemma compare_numeric_full (a b : GoValue) :
  numeric a = true -> numeric b = true ->
  exists g l ge le : bool,
    (Debug.compare a b ">" = Returned (g, true) /\
     Debug.compare a b "<" = Returned (l, true) /\
     Debug.compare a b ">=" = Returned (ge, true) /\
     Debug.compare a b "<=" = Returned (le, true)) /\
    (Debug.compare b a "<" = Returned (g, true) /\
     Debug.compare b a ">" = Returned (l, true) /\
     Debug.compare b a "<=" = Returned (ge, true) /\
     Debug.compare b a ">=" = Returned (le, true)) /\
    (g = true -> ge = true) /\
    (l = true -> le = true) /\
    (isNaN a = false -> isNaN b = false -> g = negb le /\ l = negb ge) /\
    (isNaN a || isNaN b = true ->
     g = false /\ l = false /\ ge = false /\ le = false).
Proof.
  intros Ha Hb.
  destruct a; try discriminate Ha; destruct k; try discriminate Ha;
    destruct b; try discriminate Hb; destruct k; try discriminate Hb;
    unfold Debug.compare; simpl;
    try (destruct (GoType_eq_dec _ _); try congruence; simpl);
    try (destruct (GoType_eq_dec _ _); try congruence; simpl);
    (do 4 eexists;
     split; [repeat split | ];
     split; [repeat split; rewrite ?Z.gtb_ltb, ?Z.geb_leb; reflexivity | ];
     split; [first [apply Zgtb_geb | apply fgt_fge] | ];
     split; [first [apply Zltb_leb | apply flt_fle] | ];
     split;
     [ intros Na Nb;
       first [ split; [apply Zgtb_not_leb | apply Zltb_not_geb]
             | split; [apply fgt_not_fle | apply flt_not_fge];
               auto using float64_of_Z_not_nan ]
     | intros Hn;
       first [ discriminate Hn
             | apply nan_all_false;
               rewrite ?float64_of_Z_not_nan; exact Hn ] ]).
Qed.

Lemma compare_true_numeric (a b : GoValue) (op : string) (r : bool) :
  Debug.compare a b op = Returned (r, true) ->
  numeric a = true /\ numeric b = true.
Proof.
  intros H.
  destruct (isVNil a) eqn:Na.
  { destruct a; try discriminate Na. discriminate H. }
  destruct (isVNil b) eqn:Nb.
  { destruct b; try discriminate Nb.
    unfold Debug.compare, Debug.TypeOfValue in H.
    destruct (typeOf a); discriminate H. }
  destruct (numeric a && numeric b) eqn:E.
  - apply andb_true_iff in E. exact E.
  - rewrite (compare_non_numeric a b op (isVNil_false _ Na)
               (isVNil_false _ Nb) E) in H.
    discriminate H.
Qed.

Section OrderingOutcome.

Variable env : Env.
Variable st : runtime.Stack.
Variable a : Debug.Assertion.
Variable b : GoValue.

Ltac by_compare :=
  unfold passes, raises;
  match goal with
  | |- context [Debug.compare ?x ?y ?op] =>
      destruct (Debug.compare x y op) as [[[ | ] [ | ]] | p]
  end; simpl;
  repeat split;
  solve [ intros H; discriminate H
        | intros [s H]; discriminate H
        | intros _; reflexivity
        | intros _; eexists; reflexivity
        | intros H; injection H as H; discriminate H ].

Lemma BeGreaterThan_passes_iff :
  passes (Debug.BeGreaterThan env st a b) a <->
  Debug.compare (Debug.value a) b ">" = Returned (true, true).
Proof. unfold Debug.BeGreaterThan. by_compare. Qed.

Lemma BeLessThan_passes_iff :
  passes (Debug.BeLessThan env st a b) a <->
  Debug.compare (Debug.value a) b "<" = Returned (true, true).
Proof. unfold Debug.BeLessThan. by_compare. Qed.

Lemma BeGreaterThanOrEqualTo_passes_iff :
  passes (Debug.BeGreaterThanOrEqualTo env st a b) a <->
  Debug.compare (Debug.value a) b ">=" = Returned (true, true).
Proof. unfold Debug.BeGreaterThanOrEqualTo. by_compare. Qed.

Lemma BeLessThanOrEqualTo_passes_iff :
  passes (Debug.BeLessThanOrEqualTo env st a b) a <->
  Debug.compare (Debug.value a) b "<=" = Returned (true, true).
Proof. unfold Debug.BeLessThanOrEqualTo. by_compare. Qed.

Lemma BeGreaterThan_outcome (r ok : bool) :
  Debug.compare (Debug.value a) b ">" = Returned (r, ok) ->
  if r && ok then passes (Debug.BeGreaterThan env st a b) a
  else raises (Debug.BeGreaterThan env st a b).
Proof.
  unfold Debug.BeGreaterThan, passes, raises. intros ->.
  destruct r, ok; simpl; solve [reflexivity | eexists; reflexivity].
Qed.

Lemma BeLessThan_outcome (r ok : bool) :
  Debug.compare (Debug.value a) b "<" = Returned (r, ok) ->
  if r && ok then passes (Debug.BeLessThan env st a b) a
  else raises (Debug.BeLessThan env st a b).
Proof.
  unfold Debug.BeLessThan, passes, raises. intros ->.
  destruct r, ok; simpl; solve [reflexivity | eexists; reflexivity].
Qed.

Lemma BeGreaterThanOrEqualTo_outcome (r ok : bool) :
  Debug.compare (Debug.value a) b ">=" = Returned (r, ok) ->
  if r && ok then passes (Debug.BeGreaterThanOrEqualTo env st a b) a
  else raises (Debug.BeGreaterThanOrEqualTo env st a b).
Proof.
  unfold Debug.BeGreaterThanOrEqualTo, passes, raises. intros ->.
  destruct r, ok; simpl; solve [reflexivity | eexists; reflexivity].
Qed.

Lemma BeLessThanOrEqualTo_outcome (r ok : bool) :
  Debug.compare (Debug.value a) b "<=" = Returned (r, ok) ->
  if r && ok then passes (Debug.BeLessThanOrEqualTo env st a b) a
  else raises (Debug.BeLessThanOrEqualTo env st a b).
Proof.
  unfold Debug.BeLessThanOrEqualTo, passes, raises. intros ->.
  destruct r, ok; simpl; solve [reflexivity | eexists; reflexivity].
Qed.

End OrderingOutcome.

(** Swapping the operands of [compare] swaps [>] with [<] and [>=]
    with [<=]. *)
Lemma compare_swap (a b : GoValue) :
  (Debug.compare a b ">" = Returned (true, true) <->
   Debug.compare b a "<" = Returned (true, true)) /\
  (Debug.compare a b ">=" = Returned (true, true) <->
   Debug.compare b a "<=" = Returned (true, true)).
Proof.
  split; split; intros H;
    destruct (compare_true_numeric _ _ _ _ H) as [Hx Hy];
    first [ destruct (compare_numeric_full a b Hx Hy)
              as (g & l & ge & le & (E1 & E2 & E3 & E4)
                  & (S1 & S2 & S3 & S4) & _)
          | destruct (compare_numeric_full a b Hy Hx)
              as (g & l & ge & le & (E1 & E2 & E3 & E4)
                  & (S1 & S2 & S3 & S4) & _) ];
    congruence.
Qed.

(** X15: an ordering assertion and the mirrored one with the operands
    exchanged pass on the same pairs of values: [Should(a).BeGreaterThan(b)]
    passes if and only if [Should(b).BeLessThan(a)] passes, and
    [Should(a).BeGreaterThanOrEqualTo(b)] if and only if
    [Should(b).BeLessThanOrEqualTo(a)]. *)
Theorem ordering_mirror
        (env : Env) (st st' : runtime.Stack) (a b : GoValue) :
  (passes (Debug.BeGreaterThan env st (Debug.Should a) b) (Debug.Should a)
   <-> passes (Debug.BeLessThan env st' (Debug.Should b) a)
              (Debug.Should b)) /\
  (passes (Debug.BeGreaterThanOrEqualTo env st (Debug.Should a) b)
          (Debug.Should a)
   <-> passes (Debug.BeLessThanOrEqualTo env st' (Debug.Should b) a)
              (Debug.Should b)).
Proof.
  rewrite BeGreaterThan_passes_iff, BeLessThan_passes_iff,
    BeGreaterThanOrEqualTo_passes_iff, BeLessThanOrEqualTo_passes_iff.
  exact (compare_swap a b).
Qed.

(** X16: whenever the strict assertion passes, the matching non-strict
    one passes too, and [BeGreaterThan] and [BeLessThan] never both pass
    on the same pair. *)
Theorem ordering_strict_implies_nonstrict
        (env : Env) (st : runtime.Stack) (a : Debug.Assertion)
        (b : GoValue) :
  (passes (Debug.BeGreaterThan env st a b) a ->
   passes (Debug.BeGreaterThanOrEqualTo env st a b) a) /\
  (passes (Debug.BeLessThan env st a b) a ->
   passes (Debug.BeLessThanOrEqualTo env st a b) a) /\
  ~ (passes (Debug.BeGreaterThan env st a b) a /\
     passes (Debug.BeLessThan env st a b) a).
Proof.
  rewrite BeGreaterThan_passes_iff, BeLessThan_passes_iff,
    BeGreaterThanOrEqualTo_passes_iff, BeLessThanOrEqualTo_passes_iff.
  assert (Hfull : forall op r,
             Debug.compare (Debug.value a) b op = Returned (r, true) ->
             exists g l ge le : bool,
               (Debug.compare (Debug.value a) b ">" = Returned (g, true) /\
                Debug.compare (Debug.value a) b "<" = Returned (l, true) /\
                Debug.compare (Debug.value a) b ">=" = Returned (ge, true) /\
                Debug.compare (Debug.value a) b "<=" = Returned (le, true))
               /\ (g = true -> ge = true) /\ (l = true -> le = true)
               /\ (g = true -> l = true -> False)).
  { intros op r H.
    destruct (compare_true_numeric _ _ _ _ H) as [Hx Hy].
    destruct (compare_numeric_full _ _ Hx Hy)
      as (g & l & ge & le & E & _ & Hg & Hl & Hc & Hn).
    exists g, l, ge, le. repeat split; try apply E; auto.
    intros Eg El. subst g l.
    destruct (isNaN (Debug.value a) || isNaN b) eqn:N.
    - destruct (Hn eq_refl) as [X _]. discriminate X.
    - apply orb_false_iff in N. destruct N as [Na Nb].
      destruct (Hc Na Nb) as [X _]. rewrite (Hl eq_refl) in X.
      discriminate X. }
  repeat split.
  - intros H.
    destruct (Hfull _ _ H)
      as (g & l & ge & le & (E1 & E2 & E3 & E4) & Hg & Hl & Hc).
    rewrite E3. rewrite E1 in H. injection H as ->.
    rewrite Hg; reflexivity.
  - intros H.
    destruct (Hfull _ _ H)
      as (g & l & ge & le & (E1 & E2 & E3 & E4) & Hg & Hl & Hc).
    rewrite E4. rewrite E2 in H. injection H as ->.
    rewrite Hl; reflexivity.
  - intros [H1 H2].
    destruct (Hfull _ _ H1)
      as (g & l & ge & le & (E1 & E2 & E3 & E4) & Hg & Hl & Hc).
    rewrite E1 in H1. rewrite E2 in H2.
    injection H1 as ->. injection H2 as ->. exact (Hc eq_refl eq_refl).
Qed.

(** The outcome of the four ordering assertions on operands that
    [compare] accepts. *)
Lemma ordering_decided
      (env : Env) (st : runtime.Stack) (a : Debug.Assertion) (b : GoValue)
      (g l ge le : bool) :
  Debug.compare (Debug.value a) b ">" = Returned (g, true) ->
  Debug.compare (Debug.value a) b "<" = Returned (l, true) ->
  Debug.compare (Debug.value a) b ">=" = Returned (ge, true) ->
  Debug.compare (Debug.value a) b "<=" = Returned (le, true) ->
  ((passes (Debug.BeGreaterThan env st a b) a <-> g = true) /\
   (raises (Debug.BeGreaterThan env st a b) <-> g = false)) /\
  ((passes (Debug.BeLessThan env st a b) a <-> l = true) /\
   (raises (Debug.BeLessThan env st a b) <-> l = false)) /\
  ((passes (Debug.BeGreaterThanOrEqualTo env st a b) a <-> ge = true) /\
   (raises (Debug.BeGreaterThanOrEqualTo env st a b) <-> ge = false)) /\
  ((passes (Debug.BeLessThanOrEqualTo env st a b) a <-> le = true) /\
   (raises (Debug.BeLessThanOrEqualTo env st a b) <-> le = false)).
Proof.
  intros E1 E2 E3 E4.
  unfold Debug.BeGreaterThan, Debug.BeLessThan, Debug.BeGreaterThanOrEqualTo,
    Debug.BeLessThanOrEqualTo, passes, raises.
  rewrite E1, E2, E3, E4. clear E1 E2 E3 E4.
  destruct g, l, ge, le; cbn [bind negb Debug.when];
    repeat split;
    solve [ intros H; discriminate H
          | intros [s H]; discriminate H
          | intros _; reflexivity
          | intros _; apply failAssertion_raises ].
Qed.

(** X17: on numeric operands neither of which is NaN the order is total:
    [BeLessThan] passes if and only if [BeGreaterThanOrEqualTo] raises
    the fail-fast signal, at least one of [BeGreaterThanOrEqualTo] and
    [BeLessThanOrEqualTo] passes, and both pass exactly when both strict
    assertions raise. *)
Theorem ordering_total_without_nan
        (env : Env) (st : runtime.Stack) (a b : GoValue) :
  numeric a = true -> numeric b = true ->
  isNaN a = false -> isNaN b = false ->
  let x := Debug.Should a in
  (passes (Debug.BeLessThan env st x b) x <->
   raises (Debug.BeGreaterThanOrEqualTo env st x b)) /\
  (passes (Debug.BeGreaterThanOrEqualTo env st x b) x \/
   passes (Debug.BeLessThanOrEqualTo env st x b) x) /\
  (passes (Debug.BeGreaterThanOrEqualTo env st x b) x /\
   passes (Debug.BeLessThanOrEqualTo env st x b) x <->
   raises (Debug.BeGreaterThan env st x b) /\
   raises (Debug.BeLessThan env st x b)).
Proof.
  intros Ha Hb Na Nb x.
  destruct (compare_numeric_full a b Ha Hb)
    as (g & l & ge & le & (E1 & E2 & E3 & E4) & _ & Hg & Hl & Hc & _).
  destruct (Hc Na Nb) as [Cg Cl].
  destruct (ordering_decided env st x b g l ge le E1 E2 E3 E4)
    as ((P1 & R1) & (P2 & R2) & (P3 & R3) & (P4 & R4)).
  rewrite P2, P3, P4, R1, R2, R3.
  subst g l. destruct ge, le; simpl in *;
    try (specialize (Hg eq_refl); discriminate Hg);
    intuition (try discriminate; try reflexivity).
Qed.

(** The theorem at the ints [3] and [7]. *)
Lemma ordering_total_without_nan_witness :
  let x := Debug.Should (VInt I None 3) in
  passes (Debug.BeLessThan Sample.env Sample.stack x (VInt I None 7)) x <->
  raises (Debug.BeGreaterThanOrEqualTo Sample.env Sample.stack x
            (VInt I None 7)).
Proof.
  exact (proj1 (ordering_total_without_nan Sample.env Sample.stack
                  (VInt I None 3) (VInt I None 7)
                  eq_refl eq_refl eq_refl eq_refl)).
Defined.

(** X18: when an operand of a numeric comparison is a floating-point
    NaN, all four ordering assertions raise the fail-fast signal. *)
Theorem ordering_raises_on_nan
        (env : Env) (st : runtime.Stack) (a b : GoValue) :
  numeric a = true -> numeric b = true ->
  isNaN a || isNaN b = true ->
  let x := Debug.Should a in
  raises (Debug.BeGreaterThan env st x b) /\
  raises (Debug.BeLessThan env st x b) /\
  raises (Debug.BeGreaterThanOrEqualTo env st x b) /\
  raises (Debug.BeLessThanOrEqualTo env st x b).
Proof.
  intros Ha Hb N x.
  destruct (compare_numeric_full a b Ha Hb)
    as (g & l & ge & le & (E1 & E2 & E3 & E4) & _ & _ & _ & _ & Hn).
  destruct (Hn N) as (-> & -> & -> & ->).
  destruct (ordering_decided env st x b _ _ _ _ E1 E2 E3 E4)
    as ((_ & R1) & (_ & R2) & (_ & R3) & (_ & R4)).
  repeat split; [apply R1 | apply R2 | apply R3 | apply R4]; reflexivity.
Qed.

(** The theorem at the int [10] against NaN. *)
Lemma ordering_raises_on_nan_witness :
  raises (Debug.BeGreaterThanOrEqualTo Sample.env Sample.stack
            (Debug.Should Sample.i10) Sample.nan).
Proof.
  exact (proj1 (proj2 (proj2
           (ordering_raises_on_nan Sample.env Sample.stack
              Sample.i10 Sample.nan eq_refl eq_refl eq_refl)))).
Defined.

(** X19: two integers of the same type are compared exactly, as
    integers: on signed integers of one type, and on unsigned integers
    of one type, each ordering assertion passes exactly when the
    relation holds between the two numbers. *)
Theorem same_type_integers_compared_exactly
        (env : Env) (st : runtime.Stack) (d : TypeName) (n m : Z) :
  (forall k : IntKind,
     let x := Debug.Should (VInt k d n) in
     let b := VInt k d m in
     (passes (Debug.BeGreaterThan env st x b) x <-> n > m) /\
     (passes (Debug.BeLessThan env st x b) x <-> n < m) /\
     (passes (Debug.BeGreaterThanOrEqualTo env st x b) x <-> n >= m) /\
     (passes (Debug.BeLessThanOrEqualTo env st x b) x <-> n <= m)) /\
  (forall k : UintKind,
     let x := Debug.Should (VUint k d n) in
     let b := VUint k d m in
     (passes (Debug.BeGreaterThan env st x b) x <-> n > m) /\
     (passes (Debug.BeLessThan env st x b) x <-> n < m) /\
     (passes (Debug.BeGreaterThanOrEqualTo env st x b) x <-> n >= m) /\
     (passes (Debug.BeLessThanOrEqualTo env st x b) x <-> n <= m)).
Proof.
  split; intros k x b;
    rewrite BeGreaterThan_passes_iff, BeLessThan_passes_iff,
      BeGreaterThanOrEqualTo_passes_iff, BeLessThanOrEqualTo_passes_iff;
    subst x b; unfold Debug.compare; destruct k;
      cbn [Debug.Should Debug.value kindOf typeOf typeKind Debug.TypeOfValue
           bind Debug.IntOf Debug.UintOf];
      (destruct (GoType_eq_dec _ _) as [_ | N];
       [ | exfalso; apply N; reflexivity ]);
      cbn;
      rewrite ?Z.gtb_ltb, ?Z.geb_leb;
      repeat split; intros H;
      try (injection H as H);
      first [ apply Z.ltb_lt in H; lia | apply Z.leb_le in H; lia
            | f_equal; f_equal; first [apply Z.ltb_lt | apply Z.leb_le]; lia ].
Qed.

(** Two numeric operands of different types are compared as float64
    values. *)
Lemma compare_converts (a b : GoValue) :
  numeric a = true -> numeric b = true -> typeOf a <> typeOf b ->
  Debug.compare a b ">" = Returned (Debug.fgt (toFloat64 a) (toFloat64 b), true) /\
  Debug.compare a b "<" = Returned (Debug.flt (toFloat64 a) (toFloat64 b), true) /\
  Debug.compare a b ">=" = Returned (Debug.fge (toFloat64 a) (toFloat64 b), true) /\
  Debug.compare a b "<=" = Returned (Debug.fle (toFloat64 a) (toFloat64 b), true).
Proof.
  intros Ha Hb Ht. unfold toFloat64.
  destruct a; try discriminate Ha; destruct k; try discriminate Ha;
    destruct b; try discriminate Hb; destruct k; try discriminate Hb;
    unfold Debug.compare; simpl;
    try (destruct (GoType_eq_dec _ _);
         [exfalso; apply Ht; simpl; congruence | ]);
    repeat split.
Qed.

Lemma float_self (x : spec_float) :
  is_nan x = false ->
  Debug.fgt x x = false /\ Debug.flt x x = false /\
  Debug.fge x x = true /\ Debug.fle x x = true.
Proof.
  intros N. pose proof (SFeqb_self x) as E. rewrite N in E.
  unfold Debug.fgt, Debug.flt, Debug.fge, Debug.fle, SFltb, SFleb.
  unfold SFeqb in E.
  destruct (SFcompare x x) as [[ | | ] | ]; try discriminate E;
    repeat split.
Qed.

(** Deep equality holds only between values of the same dynamic type. *)
Lemma DeepEqual_same_type (a b : GoValue) :
  DeepEqual a b = true -> typeOf a = typeOf b.
Proof.
  unfold DeepEqual, sameType.
  destruct a, b; try discriminate; try reflexivity;
    cbn [typeOf];
    (destruct (GoType_eq_dec _ _) as [E | _];
     [intros _; f_equal; exact E | discriminate]).
Qed.

(** X20: two numeric operands of different types are compared after
    conversion to float64: each ordering assertion passes exactly when
    the relation holds between the two converted values.  So when two
    such operands convert to the same float64 (as two different large
    integers can), [BeGreaterThanOrEqualTo] and [BeLessThanOrEqualTo]
    pass and the strict assertions raise, while [BeEqual] raises because
    the types differ. *)
Theorem different_types_compared_as_float64
        (env : Env) (st : runtime.Stack) (a b : GoValue) :
  numeric a = true -> numeric b = true -> typeOf a <> typeOf b ->
  let x := Debug.Should a in
  ((passes (Debug.BeGreaterThan env st x b) x <->
    Debug.fgt (toFloat64 a) (toFloat64 b) = true) /\
   (passes (Debug.BeLessThan env st x b) x <->
    Debug.flt (toFloat64 a) (toFloat64 b) = true) /\
   (passes (Debug.BeGreaterThanOrEqualTo env st x b) x <->
    Debug.fge (toFloat64 a) (toFloat64 b) = true) /\
   (passes (Debug.BeLessThanOrEqualTo env st x b) x <->
    Debug.fle (toFloat64 a) (toFloat64 b) = true)) /\
  raises (Debug.BeEqual env st x b) /\
  (toFloat64 a = toFloat64 b -> isNaN a = false ->
   passes (Debug.BeGreaterThanOrEqualTo env st x b) x /\
   passes (Debug.BeLessThanOrEqualTo env st x b) x /\
   raises (Debug.BeGreaterThan env st x b) /\
   raises (Debug.BeLessThan env st x b)).
Proof.
  intros Ha Hb Ht x.
  destruct (compare_converts a b Ha Hb Ht) as (E1 & E2 & E3 & E4).
  destruct (ordering_decided env st x b _ _ _ _ E1 E2 E3 E4)
    as ((P1 & R1) & (P2 & R2) & (P3 & R3) & (P4 & R4)).
  split; [repeat split; (apply P1 || apply P2 || apply P3 || apply P4) | ].
  split.
  - apply (BeEqual_outcome env st x b).
    destruct (DeepEqual (Debug.value x) b) eqn:E; [ | reflexivity].
    exfalso. apply Ht. apply DeepEqual_same_type. exact E.
  - intros Ef Na.
    assert (N : is_nan (toFloat64 a) = false).
    { unfold toFloat64. apply convertToFloat64_not_nan; assumption. }
    rewrite <- Ef in P3, P4, R1, R2.
    destruct (float_self _ N) as (F1 & F2 & F3 & F4).
    repeat split;
      [apply P3 | apply P4 | apply R1 | apply R2]; assumption.
Qed.

(** The theorem at the int64 [2^53 + 1] against the int [2^53], which
    convert to the same float64. *)
Lemma different_types_compared_as_float64_witness :
  let x := Debug.Should (VInt I64 None 9007199254740993) in
  let b := VInt I None 9007199254740992 in
  passes (Debug.BeGreaterThanOrEqualTo Sample.env Sample.stack x b) x /\
  passes (Debug.BeLessThanOrEqualTo Sample.env Sample.stack x b) x /\
  raises (Debug.BeGreaterThan Sample.env Sample.stack x b) /\
  raises (Debug.BeLessThan Sample.env Sample.stack x b).
Proof.
  apply (proj2 (proj2
    (different_types_compared_as_float64 Sample.env Sample.stack
       (VInt I64 None 9007199254740993) (VInt I None 9007199254740992)
       eq_refl eq_refl ltac:(discriminate))));
    vm_compute; reflexivity.
Defined.

(** X21: when both operands have a type and one of them is not numeric
    (a string, a boolean, a slice, a typed nil pointer), each of the
    four ordering assertions raises, at its call site, the failure
    "<Name> requires comparable numeric types, got <T1> and <T2>" that
    names the two types. *)
Theorem ordering_requires_numeric
        (env : Env) (site : runtime.Frame) (rest : runtime.Stack)
        (a b : GoValue) :
  a <> VNil -> b <> VNil -> numeric a && numeric b = false ->
  let x := Debug.Should a in
  let got := " requires comparable numeric types, got "
             ++ fmt.typeName a ++ " and " ++ fmt.typeName b in
  Debug.BeGreaterThan env (site :: rest) x b
  = Panicked (PString (diagnostic site ("BeGreaterThan" ++ got))) /\
  Debug.BeLessThan env (site :: rest) x b
  = Panicked (PString (diagnostic site ("BeLessThan" ++ got))) /\
  Debug.BeGreaterThanOrEqualTo env (site :: rest) x b
  = Panicked (PString (diagnostic site ("BeGreaterThanOrEqualTo" ++ got))) /\
  Debug.BeLessThanOrEqualTo env (site :: rest) x b
  = Panicked (PString (diagnostic site ("BeLessThanOrEqualTo" ++ got))).
Proof.
  intros Ha Hb Hn x got.
  unfold Debug.BeGreaterThan, Debug.BeLessThan, Debug.BeGreaterThanOrEqualTo,
    Debug.BeLessThanOrEqualTo.
  subst x. cbn [Debug.Should Debug.value].
  rewrite !(compare_non_numeric _ _ _ Ha Hb Hn).
  cbn [bind negb Debug.when]. rewrite !failAssertion_at.
  unfold Debug.Sprintf. cbn [fmt.Sprintf fmt.verb].
  rewrite !append_empty_r. repeat split.
Qed.

(** The theorem at the string "ten" against the int [9]. *)
Lemma ordering_requires_numeric_witness :
  Debug.BeLessThan Sample.env Sample.stack
    (Debug.Should (VString None "ten")) (VInt I None 9)
  = Panicked
      (PString
         "main.go:42: assertion failed: BeLessThan requires comparable numeric types, got string and int").
Proof.
  exact (proj1 (proj2
           (ordering_requires_numeric Sample.env Sample.site
              (tl Sample.stack) (VString None "ten") (VInt I None 9)
              ltac:(discriminate) ltac:(discriminate) eq_refl))).
Defined.

(** ** Equality and types *)

(** X22: [BeEqual] never passes on two values of different dynamic
    types, whatever they hold (an int and an int64 of the same number,
    a string and a value of a defined string type): it raises the
    fail-fast signal and [NotBeEqual] passes. *)
Theorem BeEqual_requires_same_type
        (env : Env) (st : runtime.Stack) (a b : GoValue) :
  typeOf a <> typeOf b ->
  raises (Debug.BeEqual env st (Debug.Should a) b) /\
  passes (Debug.NotBeEqual env st (Debug.Should a) b) (Debug.Should a).
Proof.
  intros Ht. apply (BeEqual_outcome env st (Debug.Should a) b).
  destruct (DeepEqual (Debug.value (Debug.Should a)) b) eqn:E;
    [ | reflexivity].
  exfalso. apply Ht. apply DeepEqual_same_type. exact E.
Qed.

(** The theorem at the int [5] against the int64 [5]. *)
Lemma BeEqual_requires_same_type_witness :
  raises (Debug.BeEqual Sample.env Sample.stack
            (Debug.Should (VInt I None 5)) (VInt I64 None 5)) /\
  passes (Debug.NotBeEqual Sample.env Sample.stack
            (Debug.Should (VInt I None 5)) (VInt I64 None 5))
         (Debug.Should (VInt I None 5)).
Proof.
  apply (BeEqual_requires_same_type Sample.env Sample.stack
           (VInt I None 5) (VInt I64 None 5)).
  discriminate.
Defined.

(** ** Assert, Assertf and TrueFn *)


(** ** The location of a failure *)

(** X24: [getCallerInfo(skip)] gives the last path segment of the file
    and the line of the frame [skip] levels above its caller, and
    "???:?" when the stack has no such frame; so a predicate that fails
    without a frame for its caller reports the location "???:?". *)
Theorem getCallerInfo_location
        (env : Env) (st : runtime.Stack) (skip : Z) :
  0 <= skip ->
  Debug.getCallerInfo env st skip
  = match nth_error st (Z.to_nat skip) with
    | Some f =>
        lastSegment (runtime.file f) ++ ":" ++ fmt.itoa (runtime.line f)
    | None => "???:?"
    end /\
  forall (A : Type) (l : Z) (format : string) (args : list GoValue),
    @Debug.failAssertion env A [Debug.at_line l] format args
    = Panicked (PString ("???:?: assertion failed: "
                         ++ Debug.Sprintf env format args)).
Proof.
  intros Hs. split.
  - unfold Debug.getCallerInfo, runtime.Caller.
    replace (skip + 1 <? 0) with false by (symmetry; apply Z.ltb_ge; lia).
    replace (Z.to_nat (skip + 1)) with (S (Z.to_nat skip)) by lia.
    cbn [nth_error].
    destruct (nth_error st (Z.to_nat skip)) as [f | ]; [ | reflexivity].
    rewrite basename_lastSegment.
    unfold Debug.Sprintf, Debug.str, Debug.int. cbn [fmt.Sprintf fmt.verb].
    rewrite !append_empty_r. reflexivity.
  - intros A l format args.
    unfold Debug.failAssertion, Debug.getCallerInfo.
    change (runtime.Caller
              [Debug.at_line 16; Debug.at_line 30; Debug.at_line l] (2 + 1))
      with (@None (string * Z)).
    cbv iota.
    unfold Debug.Sprintf at 1, Debug.str. cbn [fmt.Sprintf fmt.verb].
    rewrite !append_empty_r. reflexivity.
Qed.

(** The theorem at the sample stack, whose first frame is
    [/home/dev/app/main.go:42]. *)
Lemma getCallerInfo_location_witness :
  Debug.getCallerInfo Sample.env Sample.stack 0 = "main.go:42".
Proof.
  exact (proj1 (getCallerInfo_location Sample.env Sample.stack 0
                  ltac:(lia))).
Defined.

(** ** Chains *)

Lemma keeps_bind {A B : Type} (a : A) (r : Result B) (k : B -> Result A) :
  (forall x, keepsReceiver a (k x)) -> keepsReceiver a (bind r k).
Proof. intros H. destruct r as [x | p]; simpl; [apply H | trivial]. Qed.

Lemma keeps_returned {A : Type} (a : A) : keepsReceiver a (Returned a).
Proof. reflexivity. Qed.

Lemma keeps_fail (env : Env) {A : Type} (a : A) (st : runtime.Stack)
      (format : string) (args : list GoValue) :
  keepsReceiver a (Debug.failAssertion env st format args).
Proof. exact Logic.I. Qed.

(** A predicate method of the active variant that returns, returns its
    receiver. *)
Lemma debugCall_keepsReceiver (env : Env) (st : runtime.Stack) (c : Call)
      (a : Debug.Assertion) :
  keepsReceiver a (debugCall env st c a).
Proof.
  destruct c; cbn [debugCall];
    unfold Debug.BeNil, Debug.NotBeNil, Debug.TrueFn, Debug.BeTrue,
      Debug.BeFalse, Debug.BeEqual, Debug.NotBeEqual, Debug.BeEmpty,
      Debug.NotBeEmpty, Debug.HaveLen, Debug.Contain, Debug.NotContain,
      Debug.ContainSubstring, Debug.HavePrefix, Debug.HaveSuffix,
      Debug.BeZero, Debug.NotBeZero, Debug.BeGreaterThan, Debug.BeLessThan,
      Debug.BeGreaterThanOrEqualTo, Debug.BeLessThanOrEqualTo,
      Debug.BeError, Debug.NotBeError, Debug.BeErrorOfType,
      Debug.BeErrorWithMessage;
    repeat first
      [ apply keeps_returned
      | apply keeps_fail
      | apply keeps_bind; intros
      | match goal with
        | |- keepsReceiver _ (let (_, _) := ?p in _) => destruct p
        | |- keepsReceiver _ (if ?b then _ else _) => destruct b
        | |- keepsReceiver _ (match ?x with _ => _ end) => destruct x
        end ].
Qed.

Lemma debugCall_returns (env : Env) (st : runtime.Stack) (c : Call)
      (a a' : Debug.Assertion) :
  debugCall env st c a = Returned a' -> a' = a.
Proof.
  intros H. pose proof (debugCall_keepsReceiver env st c a) as K.
  rewrite H in K. exact K.
Qed.

(** X25: a chain of predicates on one holder checks the same captured
    value at every step: the chain passes exactly when every predicate
    of it passes on the holder, it never returns another holder, and
    when a predicate fails after predicates that pass, the chain ends
    with the panic of that predicate and the later predicates are not
    evaluated. *)
Theorem debugChain_all_or_first_failure
        (env : Env) (a : Debug.Assertion)
        (calls : list (runtime.Stack * Call)) :
  (passes (debugChain env a calls) a <->
   Forall (fun sc => passes (debugCall env (fst sc) (snd sc) a) a) calls) /\
  (forall a', debugChain env a calls = Returned a' -> a' = a) /\
  (forall pre st c post p,
     calls = (pre ++ (st, c) :: post)%list ->
     Forall (fun sc => passes (debugCall env (fst sc) (snd sc) a) a) pre ->
     debugCall env st c a = Panicked p ->
     debugChain env a calls = Panicked p).
Proof.
  unfold passes. split; [ | split].
  - induction calls as [ | [st c] rest IH]; simpl.
    + split; [intros _; constructor | reflexivity].
    + destruct (debugCall env st c a) as [a' | p] eqn:E; simpl.
      * pose proof (debugCall_returns _ _ _ _ _ E) as Ea. subst a'.
        rewrite IH. split.
        -- intros H. constructor; [exact E | exact H].
        -- intros H. inversion H; assumption.
      * split; [intros H; discriminate H | ].
        intros H. inversion H as [ | x l Hx Hl]. simpl in Hx.
        rewrite E in Hx. discriminate Hx.
  - induction calls as [ | [st c] rest IH]; simpl; intros a' H.
    + congruence.
    + destruct (debugCall env st c a) as [a1 | p] eqn:E; simpl in H.
      * apply debugCall_returns in E. subst a1. apply IH. exact H.
      * discriminate H.
  - intros pre st c post p -> Hpre Hc.
    induction Hpre as [ | [st1 c1] l H1 Hl IH]; simpl.
    + rewrite Hc. reflexivity.
    + simpl in H1. rewrite H1. simpl. exact IH.
Qed.

(** ** The example program *)

(** X26: compiled against the active variant, [newConfig] never
    returns: for all arguments, valid ones included, the call
    [bumert.Assert(false)] on line 22 of main.go raises the diagnostic
    "<file>:22: assertion failed: condition was false". *)
Theorem newConfig_debug_always_fails
        (env : Env) (mainFile : string) (addrErr addrCfg addrTags : Z)
        (st : runtime.Stack) (host : string) (port : Z) (user : string) :
  Example.newConfig (debugBuild env) env mainFile addrErr addrCfg addrTags
                    st host port user
  = Panicked (PString (lastSegment mainFile
                       ++ ":22: assertion failed: condition was false")).
Proof.
  unfold Example.newConfig, Example.line.
  cbn [bAssert debugBuild]. unfold Debug.Assert. cbn [negb Debug.when].
  rewrite failAssertion_at. unfold diagnostic.
  cbn [bind runtime.file runtime.line]. rewrite append_assoc. reflexivity.
Qed.

(** X27: compiled against the inert variant, [newConfig] always returns,
    and its result is decided by the production validation alone: the
    error is nil exactly when the host is not empty and the port is
    positive; then the config is the one built from the arguments, and
    otherwise the config is nil. *)
Theorem newConfig_release_validates
        (env : Env) (mainFile : string) (addrErr addrCfg addrTags : Z)
        (st : runtime.Stack) (host : string) (port : Z) (user : string) :
  exists cfg err : GoValue,
    Example.newConfig releaseBuild env mainFile addrErr addrCfg addrTags
                      st host port user
    = Returned (cfg, err) /\
    (err = VNil <-> host <> "" /\ 0 < port) /\
    (err = VNil ->
     cfg = Example.newConfigValue addrCfg addrTags host port user) /\
    (err <> VNil -> cfg = Example.nilConfig).
Proof.
  unfold Example.newConfig, Example.should.
  cbn [bAssert bCall bShould releaseBuild bind Release.Assert].
  destruct (String.eqb_spec host "") as [Eh | Nh].
  - do 2 eexists. split; [reflexivity | ].
    split; [split | split].
    + intros H. discriminate H.
    + intros [H _]. contradiction.
    + intros H. discriminate H.
    + intros _. reflexivity.
  - destruct (port <=? 0) eqn:Ep.
    + apply Z.leb_le in Ep.
      do 2 eexists. split; [reflexivity | ].
      split; [split | split].
      * intros H. discriminate H.
      * intros [_ H]. lia.
      * intros H. discriminate H.
      * intros _. reflexivity.
    + apply Z.leb_gt in Ep.
      do 2 eexists. split; [reflexivity | ].
      split; [split | split].
      * intros _. split; assumption.
      * intros _. reflexivity.
      * intros _. reflexivity.
      * intros H. contradiction.
Qed.

(** X28: the assertions of [newConfig], in the active variant, state
    what its validation enforces: on line 23 [NotBeEmpty] passes exactly
    when the host is not empty, on line 24 [BeGreaterThan(0)] passes
    exactly when the port is positive, and on the config built on lines
    35 to 40 the three assertions of lines 43 to 45 pass. *)
Theorem newConfig_assertions_agree_with_validation
        (env : Env) (mainFile : string) (addrCfg addrTags : Z)
        (st : runtime.Stack) (host : string) (port : Z) (user : string) :
  let should := Example.should (debugBuild env) mainFile st in
  let cfg := Example.newConfigValue addrCfg addrTags host port user in
  (should 23 (VString None host) CNotBeEmpty = Returned tt
   <-> host <> "") /\
  (should 24 (VInt I None port) (CBeGreaterThan (VInt I None 0))
   = Returned tt <-> 0 < port) /\
  should 43 cfg CNotBeNil = Returned tt /\
  should 44 (Example.Tags cfg) (CHaveLen 2) = Returned tt /\
  should 45 (Example.Tags cfg) (CContain (VString None "example"))
  = Returned tt.
Proof.
  cbv zeta. unfold Example.should.
  cbn [bCall bShould debugBuild debugCall].
  split; [ | split; [ | repeat split]].
  - unfold Debug.NotBeEmpty.
    cbn [Debug.Should Debug.value Debug.isNil Debug.when bind].
    destruct host as [ | c r]; cbn.
    + split; [intros H; discriminate H | intros H; contradiction].
    + split; [intros _; discriminate | reflexivity].
  - unfold Debug.BeGreaterThan, Debug.compare.
    cbn [Debug.Should Debug.value kindOf typeOf typeKind Debug.TypeOfValue
         bind Debug.IntOf].
    destruct (GoType_eq_dec _ _) as [_ | N];
      [ | exfalso; apply N; reflexivity ].
    cbn. rewrite Z.gtb_ltb.
    destruct (0 <? port) eqn:E; cbn.
    + apply Z.ltb_lt in E. split; [intros _; exact E | reflexivity].
    + apply Z.ltb_ge in E. split; [intros H; discriminate H | lia].
Qed.
